(** * lc_agent/knowledge_base.py: the knowledge retrieval engine

    A shallow embedding of [SimpleEmbeddings], [KnowledgeBase],
    [KnowledgeBaseManager] and the module-level functions
    [get_kb_manager], [search_diagnosis_knowledge] and
    [init_sample_knowledge].

    - A Python [str] is a Rocq [string] holding its UTF-8 bytes.
    - A Python [float] is a binary64 [float] of the kernel ([PrimFloat]).
    - A [numpy.float32], the type of the distances FAISS returns, is
      held as the binary64 float of the same value; its arithmetic is
      that of NumPy 2 (module [Np]).
    - The FAISS vector store, the sentence-transformers library and the
      file system are external: they are the fields of the class
      [External].
    - Exceptions, attribute updates of [self] and external calls are
      threaded through the monad [M]; external calls and [logging] calls
      leave an [Event] each in the trace of the environment. *)

From Stdlib Require Import Floats ZArith Ascii String List DecimalString.
From Stdlib Require Import Sorting.Sorted Sorting.Permutation.
From stdpp Require Import gmap strings list.

Set Warnings "-inexact-float".
Local Open Scope string_scope.

(** ** Python values *)

Module Py.

(** [c.lower()] on one byte: the ASCII capitals move down, every other
    byte stays.  On the UTF-8 encoding this is [str.lower] for ASCII
    letters; the bytes of non-ASCII code points are kept.  (Python
    lower-cases non-ASCII letters too.  Their lower-case forms are
    non-ASCII again, but for U+0130 and U+212A, which give an [i] and a
    [k]: letters that occur in none of the keywords the program looks
    for, so what it finds in a lower-cased label is the same.) *)
Definition ascii_lower (c : ascii) : ascii :=
  let n := nat_of_ascii c in
  if (65 <=? n)%nat && (n <=? 90)%nat then ascii_of_nat (n + 32) else c.

(** [s.lower()] *)
Fixpoint lower (s : string) : string :=
  match s with
  | EmptyString => EmptyString
  | String c r => String (ascii_lower c) (lower r)
  end.

(** [hay.startswith(needle)] *)
Fixpoint startswith (needle hay : string) : bool :=
  match needle, hay with
  | EmptyString, _ => true
  | String a n, String b h => if Ascii.eqb a b then startswith n h else false
  | String _ _, EmptyString => false
  end.

(** [needle in hay] for two strings *)
Fixpoint contains (needle hay : string) : bool :=
  if startswith needle hay then true
  else match hay with
       | EmptyString => false
       | String _ r => contains needle r
       end.

(** [str(n)] for a non-negative int *)
Definition str_nat (n : nat) : string :=
  NilEmpty.string_of_uint (Nat.to_uint n).

(** [l[:k]]: the first [k] items, and for a negative [k] all but the
    last [-k]. *)
Definition slice_to {A} (k : Z) (l : list A) : list A :=
  if (0 <=? k)%Z then take (Z.to_nat k) l
  else take (length l - Z.to_nat (- k)) l.

(** [enumerate(l, start)] *)
Fixpoint enumerate {A} (start : nat) (l : list A) : list (nat * A) :=
  match l with
  | [] => []
  | x :: r => (start, x) :: enumerate (S start) r
  end.

(** [zip(xs, ys)]: stops at the end of the shorter list. *)
Fixpoint zip {A B} (xs : list A) (ys : list B) : list (A * B) :=
  match xs, ys with
  | x :: xs', y :: ys' => (x, y) :: zip xs' ys'
  | _, _ => []
  end.

(** One step of a stable insertion: [x] goes after the items whose key
    is smaller and before the first one whose key is not. *)
Fixpoint insert_by {A} (key : A -> float) (x : A) (l : list A) : list A :=
  match l with
  | [] => [x]
  | y :: r => if (key y <? key x)%float then y :: insert_by key x r
              else x :: y :: r
  end.

(** [l.sort(key=key)] with float keys.  CPython's sort is stable and
    compares keys with [<] only; on keys that [<] orders (floats other
    than NaN) every stable sort returns the same list, here computed by
    insertion from the right. *)
Fixpoint sort_by {A} (key : A -> float) (l : list A) : list A :=
  match l with
  | [] => []
  | x :: r => insert_by key x (sort_by key r)
  end.

(** A [dict] with string keys, in insertion order. *)
Abbreviation dict V := (list (string * V)).

(** [k in d] *)
Definition dict_mem {V} (k : string) (d : dict V) : bool :=
  existsb (fun kv => String.eqb (fst kv) k) d.

(** [d[k]], [None] standing for [KeyError]. *)
Fixpoint dict_get {V} (k : string) (d : dict V) : option V :=
  match d with
  | [] => None
  | (k', v) :: r => if String.eqb k' k then Some v else dict_get k r
  end.

(** [d[k] = v]: a known key keeps its place, a new one goes last. *)
Fixpoint dict_set {V} (k : string) (v : V) (d : dict V) : dict V :=
  match d with
  | [] => [(k, v)]
  | (k', v') :: r =>
      if String.eqb k' k then (k', v) :: r else (k', v') :: dict_set k v r
  end.

(** [list(d.keys())] *)
Definition dict_keys {V} (d : dict V) : list string := map fst d.

(** The newline character. *)
Definition NL : string := String "010"%char EmptyString.

(** Rounding of the positive rational [num / den] to the nearest
    integer, ties to even. *)
Definition round_half_even (num den : N) : N :=
  let q := (num / den)%N in
  let r := (num mod den)%N in
  match (2 * r ?= den)%N with
  | Lt => q
  | Gt => (q + 1)%N
  | Eq => if N.even q then q else (q + 1)%N
  end.

Definition str_N (n : N) : string :=
  NilEmpty.string_of_uint (N.to_uint n).

(** The digits of [n] hundredths as [i.ff]. *)
Definition fixed2 (n : N) : string :=
  let f := (n mod 100)%N in
  str_N (n / 100) +:+ "." +:+ (if (f <? 10)%N then "0" else "") +:+ str_N f.

(** [format(x, ".2f")]: the exact value of the float rounded to two
    decimals, ties to even; the sign is kept, also on a zero. *)
Definition format_2f (x : float) : string :=
  match Prim2SF x with
  | S754_nan => "nan"
  | S754_infinity s => if s then "-inf" else "inf"
  | S754_zero s => (if s then "-" else "") +:+ "0.00"
  | S754_finite s m e =>
      (if s then "-" else "") +:+
      fixed2 (match e with
              | Z0 => round_half_even (100 * Npos m) 1
              | Zpos p => round_half_even (100 * Npos m * 2 ^ Npos p) 1
              | Zneg p => round_half_even (100 * Npos m) (2 ^ Npos p)
              end)
  end.

End Py.

(** ** numpy.float32

    The distances of [similarity_search_with_score] are
    [numpy.float32] scalars.  Every float32 value is a binary64 value,
    and is held as such.  With NumPy 2 an operation of a float32 scalar
    and a Python [float] or [int] is done in float32: the Python number
    is converted to float32 first, and the result is a float32 again.
    (Rounding is to nearest, ties to even; a number too large for
    float32 becomes an infinity.) *)

Module Np.

(** [numpy.float32(x)] for a Python float [x] *)
Definition float32 (x : float) : float :=
  match Prim2SF x with
  | S754_finite s m e => SF2Prim (binary_round 24 128 s m e)
  | _ => x
  end.

(** [x - y] in float32 *)
Definition sub32 (x y : float) : float :=
  SF2Prim (SFsub 24 128 (Prim2SF x) (Prim2SF y)).

(** [x <= y] for a float32 [x] and a Python float [y] *)
Definition le32 (x y : float) : bool := (x <=? float32 y)%float.

End Np.

Arguments Np.float32 : simpl never.
Arguments Np.sub32 : simpl never.
Arguments Np.le32 : simpl never.

(** ** Exceptions, results and the trace of external calls *)

(** An instance of Python's [Exception], kept by its [str(e)].
    ([KeyboardInterrupt] and [SystemExit] are not instances of
    [Exception]; they come from outside the program and are not
    modelled.) *)
Inductive exn := Exception (msg : string).

Definition str_exn (e : exn) : string := let 'Exception m := e in m.

Inductive Res (A : Type) :=
| Ok (a : A)
| Raise (e : exn).
Arguments Ok {A} a.
Arguments Raise {A} e.

(** [langchain.docstore.document.Document] *)
Record Document := mkDocument {
  page_content : string;
  metadata : gmap string string
}.

Inductive Level := INFO | WARNING | ERROR.

(** What the two classes and the entry point do that is visible
    outside them: a [logging] record of their own, or a call into the
    vector store or the file system.  (What a call into the store does
    in turn, the embedding by [SimpleEmbeddings] and its records
    included, is part of that call.) *)
Inductive Event :=
| Log (lvl : Level) (msg : string)
| Makedirs (path : string)
| LoadLocal (path : string)
| FromTexts (kb : string) (texts : list string)
| Delete (kb : string) (pos : nat)
| AddDocuments (kb : string) (docs : list Document)
| SimilaritySearch (kb : string) (query : string) (k : Z)
| SaveLocal (kb : string) (path : string).

(** The external collaborators: the FAISS store (with the
    [SimpleEmbeddings] object every [KnowledgeBase] hands to it), the
    [os] functions and the sentence-transformers library.  [VS] is a
    store object, [FS] the file system.  A call that updates its
    object returns the object after the call together with its
    outcome. *)
Class External := {
  VS : Type;
  FS : Type;
  (** [os.path.dirname(os.path.dirname(__file__))] *)
  module_dir : string;
  os_path_join : list string -> string;
  os_makedirs : string -> FS -> Res unit * FS;
  os_path_exists : string -> FS -> bool;
  os_listdir : string -> FS -> Res (list string);
  FAISS_load_local : string -> FS -> Res VS;
  FAISS_from_texts : list string -> Res VS;
  (** [vs.delete([vs.index_to_docstore_id[pos]])] *)
  FAISS_delete : nat -> VS -> Res unit * VS;
  FAISS_add_documents : list Document -> VS -> Res unit * VS;
  FAISS_similarity_search_with_score :
    string -> Z -> VS -> Res (list (Document * float));
  FAISS_save_local : string -> VS -> FS -> Res unit * FS;
  (** A [SentenceTransformer] object of the sentence-transformers
      library. *)
  Encoder : Type;
  (** Whether [from sentence_transformers import SentenceTransformer]
      succeeded when the module was loaded. *)
  SENTENCE_TRANSFORMER_AVAILABLE : bool;
  (** [SentenceTransformer(name)], or with [cache_folder=...]: the
      model is read from the file system, or fetched into the cache
      folder. *)
  SentenceTransformer : string -> option string -> FS -> Res Encoder * FS;
  (** [bool(embedder)] *)
  encoder_bool : Encoder -> bool;
  (** [embedder.encode(texts, convert_to_numpy=True).tolist()] *)
  encode_texts : Encoder -> list string -> Res (list (list float));
  (** [embedder.encode(text, convert_to_numpy=True).tolist()] *)
  encode_text : Encoder -> string -> Res (list float)
}.

Section Program.

Context `{Ext : External}.

Record Env := mkEnv {
  fs : FS;
  trace : list Event
}.

(** A method of an object of type [S]: it runs on [self] and the
    environment, and ends with a value or an exception; the updates
    made before an exception stay. *)
Definition M (S A : Type) : Type := S -> Env -> Res A * S * Env.

Definition ret {S A} (a : A) : M S A := fun s env => (Ok a, s, env).

Definition bind {S A B} (m : M S A) (k : A -> M S B) : M S B :=
  fun s env =>
    match m s env with
    | (Ok a, s', env') => k a s' env'
    | (Raise e, s', env') => (Raise e, s', env')
    end.

Definition raise {S A} (e : exn) : M S A := fun s env => (Raise e, s, env).

(** [try: m except Exception as e: h e] *)
Definition try_except {S A} (m : M S A) (h : exn -> M S A) : M S A :=
  fun s env =>
    match m s env with
    | (Raise e, s', env') => h e s' env'
    | r => r
    end.

Definition get_self {S} : M S S := fun s env => (Ok s, s, env).

Definition set_self {S} (s' : S) : M S unit := fun _ env => (Ok tt, s', env).

Definition emit {S} (ev : Event) : M S unit :=
  fun s env => (Ok tt, s, mkEnv (fs env) (trace env ++ [ev])%list).

(** [logging.info], [logging.warning], [logging.error] *)
Definition logging {S} (lvl : Level) (msg : string) : M S unit :=
  emit (Log lvl msg).

(** A call that reads the file system. *)
Definition fs_read {S A} (f : FS -> Res A) : M S A :=
  fun s env => (f (fs env), s, env).

(** A test on the file system, such as [os.path.exists]. *)
Definition fs_test {S} (f : FS -> bool) : M S bool :=
  fun s env => (Ok (f (fs env)), s, env).

(** A constructor of an external object, such as [FAISS.from_texts]. *)
Definition ext_new {S A} (r : Res A) : M S A := fun s env => (r, s, env).

(** A call that updates the file system. *)
Definition fs_call {S} (f : FS -> Res unit * FS) : M S unit :=
  fun s env => let '(r, fs') := f (fs env) in (r, s, mkEnv fs' (trace env)).

(** [obj = T(...)]: the constructor body [init] runs on the blank
    object; when it raises, the object is dropped. *)
Definition construct {S T} (blank : T) (init : M T unit) : M S T :=
  fun s env =>
    match init blank env with
    | (Ok _, obj, env') => (Ok obj, s, env')
    | (Raise e, _, env') => (Raise e, s, env')
    end.

End Program.

Declare Scope py_scope.
Delimit Scope py_scope with py.
Notation "x <- c1 ;; c2" := (bind c1 (fun x => c2))
  (at level 100, c1 at next level, right associativity) : py_scope.
Notation "c1 ;; c2" := (bind c1 (fun _ => c2))
  (at level 100, right associativity) : py_scope.

(** ** class SimpleEmbeddings *)

Section SimpleEmbeddingsClass.

Context `{Ext : External}.
Local Open Scope py_scope.

(** [os.path.join("D:\\", "models")] *)
Definition MODEL_CACHE_DIR : string := os_path_join ["D:\"; "models"].

(** The attributes of a [SimpleEmbeddings] object; [embedder] is
    [None] too while [__init__] has not set it. *)
Record SimpleEmbeddings := mkSimpleEmbeddings {
  model_name : string;
  embedder : option Encoder
}.

Definition set_embedder (e : option Encoder) : M SimpleEmbeddings unit :=
  fun self env => (Ok tt, mkSimpleEmbeddings (model_name self) e, env).

(** A constructor of an external object that uses the file system. *)
Definition fs_new {S A} (f : FS -> Res A * FS) : M S A :=
  fun s env => let '(r, fs') := f (fs env) in (r, s, mkEnv fs' (trace env)).

(** [SimpleEmbeddings(model_name)] *)
Definition new_SimpleEmbeddings {S} (name : string) : M S SimpleEmbeddings :=
  construct (mkSimpleEmbeddings name None)
    (if SENTENCE_TRANSFORMER_AVAILABLE
     then try_except
            (let model_path :=
               os_path_join [module_dir; "models/sentence-transformer"] in
             found <- fs_test (os_path_exists model_path) ;;
             if found : bool
             then m <- fs_new (SentenceTransformer model_path None) ;;
                  set_embedder (Some m)
             else m <- fs_new (SentenceTransformer
                                 "sentence-transformers/all-mpnet-base-v2"
                                 (Some MODEL_CACHE_DIR)) ;;
                  set_embedder (Some m))
            (fun e =>
               logging WARNING
                 ("加载sentence-transformer失败: " +:+ str_exn e
                    +:+ "，使用简化版") ;;
               set_embedder None)
     else set_embedder None).

(** What loading the model gives in the file system [fs0]: the local
    model when its directory exists, the named one otherwise. *)
Definition load_outcome (fs0 : FS) : Res Encoder * FS :=
  let model_path :=
    os_path_join [module_dir; "models/sentence-transformer"] in
  if os_path_exists model_path fs0
  then SentenceTransformer model_path None fs0
  else SentenceTransformer "sentence-transformers/all-mpnet-base-v2"
         (Some MODEL_CACHE_DIR) fs0.

(** What [SimpleEmbeddings()] leaves of the environment: the file
    system after the load of the model, and the warning of a failed
    load. *)
Definition after_embeddings (env : Env) : Env :=
  if SENTENCE_TRANSFORMER_AVAILABLE
  then match load_outcome (fs env) with
       | (Ok _, fs') => mkEnv fs' (trace env)
       | (Raise e, fs') =>
           mkEnv fs'
             (trace env ++
                [Log WARNING ("加载sentence-transformer失败: " +:+ str_exn e
                                +:+ "，使用简化版")])
       end
  else env.

(** [if self.embedder:] gives the encoder to use, if any. *)
Definition usable (self : SimpleEmbeddings) : option Encoder :=
  match embedder self with
  | Some m => if encoder_bool m then Some m else None
  | None => None
  end.

Definition simplified_warning : Event :=
  Log WARNING "使用简化版嵌入，建议安装sentence-transformers".

Definition embed_documents (texts : list string)
  : M SimpleEmbeddings (list (list float)) :=
  self <- get_self ;;
  match usable self with
  | Some m => ext_new (encode_texts m texts)
  | None =>
      emit simplified_warning ;;
      ret (map (fun _ => replicate 384 0%float) texts)
  end.

Definition embed_query (text : string) : M SimpleEmbeddings (list float) :=
  self <- get_self ;;
  match usable self with
  | Some m => ext_new (encode_text m text)
  | None =>
      emit simplified_warning ;;
      ret (replicate 384 0%float)
  end.

End SimpleEmbeddingsClass.

(** ** class KnowledgeBase *)

Section KnowledgeBaseClass.

Context `{Ext : External}.
Local Open Scope py_scope.

(** The attributes of a [KnowledgeBase] object.  [vector_store] is
    [None] only while [__init__] runs.  ([self.embeddings], the
    [SimpleEmbeddings] object built in [__init__], is used only as an
    argument of the FAISS calls; the calls of [External] are the calls
    with it, and the record does not keep it.) *)
Record KnowledgeBase := mkKnowledgeBase {
  kb_name : string;
  kb_path : string;
  vector_store : option VS
}.

Definition set_vector_store (v : option VS) : M KnowledgeBase unit :=
  fun self env => (Ok tt, mkKnowledgeBase (kb_name self) (kb_path self) v, env).

Definition AttributeError (attr : string) : exn :=
  Exception ("'NoneType' object has no attribute '" +:+ attr +:+ "'").

(** [self.vector_store.attr(...)] for a call that reads the store:
    looking [attr] up on [None] raises, otherwise the call [ev] is
    made. *)
Definition store_read {A} (attr : string) (ev : Event) (f : VS -> Res A)
  : M KnowledgeBase A :=
  fun self env =>
    match vector_store self with
    | None => (Raise (AttributeError attr), self, env)
    | Some vs => (f vs, self, mkEnv (fs env) (trace env ++ [ev])%list)
    end.

(** [self.vector_store.attr(...)] for a call that updates the store. *)
Definition store_call (attr : string) (ev : Event)
    (f : VS -> Res unit * VS) : M KnowledgeBase unit :=
  fun self env =>
    match vector_store self with
    | None => (Raise (AttributeError attr), self, env)
    | Some vs =>
        let '(r, vs') := f vs in
        (r, mkKnowledgeBase (kb_name self) (kb_path self) (Some vs'),
         mkEnv (fs env) (trace env ++ [ev])%list)
    end.

(** [self.vector_store.save_local(path)] *)
Definition store_save_local (path : string) : M KnowledgeBase unit :=
  fun self env =>
    match vector_store self with
    | None => (Raise (AttributeError "save_local"), self, env)
    | Some vs =>
        let '(r, fs') := FAISS_save_local path vs (fs env) in
        (r, self, mkEnv fs' (trace env ++ [SaveLocal (kb_name self) path])%list)
    end.

Definition _load_or_create_vector_store : M KnowledgeBase unit :=
  self <- get_self ;;
  let vector_store_path := os_path_join [kb_path self; "vector_store"] in
  found <- fs_test (os_path_exists vector_store_path) ;;
  listed <- (if found : bool
             then names <- fs_read (os_listdir vector_store_path) ;;
                  ret (negb (bool_decide (names = [])))
             else ret false) ;;
  (if listed : bool
   then try_except
          (emit (LoadLocal vector_store_path) ;;
           vs <- fs_read (FAISS_load_local vector_store_path) ;;
           set_vector_store (Some vs) ;;
           logging INFO ("成功加载知识库: " +:+ kb_name self))
          (fun e =>
             logging WARNING
               ("加载向量存储失败: " +:+ str_exn e +:+ "，将创建新的") ;;
             set_vector_store None)
   else ret tt) ;;
  self <- get_self ;;
  match vector_store self with
  | None =>
      emit (FromTexts (kb_name self) ["初始化"]) ;;
      vs <- ext_new (FAISS_from_texts ["初始化"]) ;;
      set_vector_store (Some vs) ;;
      store_call "delete" (Delete (kb_name self) 0) (FAISS_delete 0)
  | Some _ => ret tt
  end.

(** [KnowledgeBase(kb_name, kb_path)] *)
Definition new_KnowledgeBase {S} (name : string) (path : option string)
  : M S KnowledgeBase :=
  let default :=
    os_path_join [module_dir; "knowledge_base"; name] in
  let path' :=
    match path with
    | Some p => if bool_decide (p = "") then default else p
    | None => default
    end in
  construct (mkKnowledgeBase name path' None)
    (self <- get_self ;;
     emit (Makedirs (kb_path self)) ;;
     fs_call (os_makedirs (kb_path self)) ;;
     new_SimpleEmbeddings "sentence-transformer" ;;
     set_vector_store None ;;
     _load_or_create_vector_store).

Definition save : M KnowledgeBase unit :=
  self <- get_self ;;
  let vector_store_path := os_path_join [kb_path self; "vector_store"] in
  emit (Makedirs vector_store_path) ;;
  fs_call (os_makedirs vector_store_path) ;;
  store_save_local vector_store_path ;;
  logging INFO ("知识库已保存: " +:+ kb_name self).

Definition add_documents (documents : list Document)
  : M KnowledgeBase unit :=
  match documents with
  | [] => ret tt
  | _ :: _ =>
      self <- get_self ;;
      store_call "add_documents" (AddDocuments (kb_name self) documents)
        (FAISS_add_documents documents) ;;
      save
  end.

Definition add_texts (texts : list string)
    (metadatas : option (list (gmap string string)))
  : M KnowledgeBase unit :=
  match texts with
  | [] => ret tt
  | _ :: _ =>
      let metadatas :=
        match metadatas with
        | None => replicate (length texts) ∅
        | Some ms => ms
        end in
      let documents :=
        map (fun '(text, metadata) => mkDocument text metadata)
            (Py.zip texts metadatas) in
      add_documents documents
  end.

(** [score <= (1.0 - score_threshold) * 10], for the float32 [score]
    of a result: the bound is computed with Python floats, and
    converted to float32 for the comparison. *)
Definition within_threshold (score_threshold score : float) : bool :=
  Np.le32 score ((1 - score_threshold) * 10)%float.

Definition search (query : string) (top_k : Z) (score_threshold : float)
  : M KnowledgeBase (list (Document * float)) :=
  try_except
    (self <- get_self ;;
     results <- store_read "similarity_search_with_score"
                  (SimilaritySearch (kb_name self) query top_k)
                  (FAISS_similarity_search_with_score query top_k) ;;
     let filtered_results :=
       List.filter (fun '(doc, score) =>
                      within_threshold score_threshold score) results in
     ret filtered_results)
    (fun e =>
       logging ERROR ("搜索知识库失败: " +:+ str_exn e) ;;
       ret []).

End KnowledgeBaseClass.

(** ** class KnowledgeBaseManager *)

Section KnowledgeBaseManagerClass.

Context `{Ext : External}.
Local Open Scope py_scope.

Record KnowledgeBaseManager := mkKnowledgeBaseManager {
  knowledge_bases : Py.dict KnowledgeBase
}.

(** [for x in l: acc = body x acc] *)
Fixpoint for_acc {S A B} (l : list A) (body : A -> B -> M S B) (acc : B)
  : M S B :=
  match l with
  | [] => ret acc
  | x :: r => acc' <- body x acc ;; for_acc r body acc'
  end.

(** A method call on the [i]-th value of [self.knowledge_bases]. *)
Definition on_value {A} (i : nat) (m : M KnowledgeBase A)
  : M KnowledgeBaseManager A :=
  fun self env =>
    match knowledge_bases self !! i with
    | None => (Raise (Exception "IndexError"), self, env)
    | Some (name, kb) =>
        let '(r, kb', env') := m kb env in
        (r, mkKnowledgeBaseManager (<[i := (name, kb')]> (knowledge_bases self)),
         env')
    end.

(** A method call on [self.knowledge_bases[name]]. *)
Definition on_kb {A} (name : string) (m : M KnowledgeBase A)
  : M KnowledgeBaseManager A :=
  fun self env =>
    match Py.dict_get name (knowledge_bases self) with
    | None => (Raise (Exception ("KeyError: '" +:+ name +:+ "'")), self, env)
    | Some kb =>
        let '(r, kb', env') := m kb env in
        (r, mkKnowledgeBaseManager (Py.dict_set name kb' (knowledge_bases self)),
         env')
    end.

(** The object returned is the one held in [self.knowledge_bases]. *)
Definition get_or_create_kb (name : string)
  : M KnowledgeBaseManager KnowledgeBase :=
  self <- get_self ;;
  (if negb (Py.dict_mem name (knowledge_bases self))
   then kb <- new_KnowledgeBase name None ;;
        set_self (mkKnowledgeBaseManager
                    (Py.dict_set name kb (knowledge_bases self)))
   else ret tt) ;;
  on_kb name get_self.

Definition default_kbs : list string :=
  ["NameNodeExpert"; "DataNodeExpert"; "YARNExpert"; "HistoryCases";
   "HadoopDocs"].

Definition _init_default_knowledge_bases : M KnowledgeBaseManager unit :=
  for_acc default_kbs (fun name _ => get_or_create_kb name ;; ret tt) tt.

(** [KnowledgeBaseManager()] *)
Definition new_KnowledgeBaseManager {S} : M S KnowledgeBaseManager :=
  construct (mkKnowledgeBaseManager []) _init_default_knowledge_bases.

Definition search_knowledge (query : string) (kb_name : option string)
    (top_k : Z) (score_threshold : float)
  : M KnowledgeBaseManager (list (Document * float)) :=
  self <- get_self ;;
  match kb_name with
  | Some (String _ _ as name) =>
      if Py.dict_mem name (knowledge_bases self)
      then on_kb name (search query top_k score_threshold)
      else logging WARNING ("知识库不存在: " +:+ name) ;; ret []
  | Some EmptyString | None =>
      all_results <-
        for_acc (seq 0 (length (knowledge_bases self)))
          (fun i all_results =>
             results <- on_value i (search query top_k score_threshold) ;;
             ret (all_results ++ results)%list)
          [] ;;
      ret (Py.slice_to top_k (Py.sort_by snd all_results))
  end.

Definition match_knowledge_base (expert_type : string)
  : M KnowledgeBaseManager string :=
  let expert_type_lower := Py.lower expert_type in
  if Py.contains "namenode" expert_type_lower
     || Py.contains "nn" expert_type_lower
  then ret "NameNodeExpert"
  else if Py.contains "datanode" expert_type_lower
          || Py.contains "dn" expert_type_lower
  then ret "DataNodeExpert"
  else if Py.contains "yarn" expert_type_lower
  then ret "YARNExpert"
  else ret "HistoryCases".

End KnowledgeBaseManagerClass.

(** ** The module: the global manager and the entry point *)

Section ModuleLevel.

Context `{Ext : External}.
Local Open Scope py_scope.

(** The module's global variables. *)
Record Globals := mkGlobals {
  _kb_manager : option KnowledgeBaseManager
}.

(** A method call on the object [_kb_manager] refers to. *)
Definition on_manager {A} (m : M KnowledgeBaseManager A) : M Globals A :=
  fun g env =>
    match _kb_manager g with
    | None => (Raise (AttributeError "knowledge_bases"), g, env)
    | Some mgr =>
        let '(r, mgr', env') := m mgr env in (r, mkGlobals (Some mgr'), env')
    end.

(** The manager returned is the object [_kb_manager] refers to; its
    methods are called with [on_manager]. *)
Definition get_kb_manager : M Globals unit :=
  g <- get_self ;;
  match _kb_manager g with
  | None =>
      mgr <- new_KnowledgeBaseManager ;;
      set_self (mkGlobals (Some mgr))
  | Some _ => ret tt
  end.

(** One round of the loop over [enumerate(results, 1)].  [score] is a
    float32, and so is [1-score]. *)
Definition append_result (knowledge_str : string)
    (item : nat * (Document * float)) : string :=
  let '(idx, (doc, score)) := item in
  let knowledge_str :=
    knowledge_str +:+ "[知识 " +:+ Py.str_nat idx +:+ "] (相似度: "
      +:+ Py.format_2f (Np.sub32 1 score) +:+ ")" +:+ Py.NL in
  let knowledge_str :=
    if negb (bool_decide (metadata doc = ∅))
    then
      let knowledge_str :=
        match metadata doc !! "source" with
        | Some v => knowledge_str +:+ "来源: " +:+ v +:+ Py.NL
        | None => knowledge_str
        end in
      match metadata doc !! "desc" with
      | Some v => knowledge_str +:+ "描述: " +:+ v +:+ Py.NL
      | None => knowledge_str
      end
    else knowledge_str in
  knowledge_str +:+ "内容: " +:+ page_content doc +:+ Py.NL +:+ Py.NL.

(** The lines after [# 格式化返回]. *)
Definition format_results (query : string)
    (results : list (Document * float)) : string :=
  match results with
  | [] => "未找到与 '" +:+ query +:+ "' 相关的知识"
  | _ :: _ =>
      let knowledge_str :=
        "找到 " +:+ Py.str_nat (length results) +:+ " 条相关知识："
          +:+ Py.NL +:+ Py.NL in
      fold_left append_result (Py.enumerate 1 results) knowledge_str
  end.

Definition search_diagnosis_knowledge (query expert_type : string)
    (top_k : Z) (score_threshold : float) : M Globals string :=
  get_kb_manager ;;
  kb_name <- (if String.eqb (Py.lower expert_type) "all"
              then ret None
              else name <- on_manager (match_knowledge_base expert_type) ;;
                   ret (Some name)) ;;
  results <- on_manager
               (search_knowledge query kb_name top_k score_threshold) ;;
  ret (format_results query results).

End ModuleLevel.

(** ** A small instance of the external collaborators

    The store is the list of its documents, embedded by the length of
    their text; the distance is the squared difference of lengths.  The
    file system maps a directory to the store saved in it, if any. *)

Module Toy.

Definition embed (text : string) : Z := Z.of_nat (String.length text).

(** The squared difference of the lengths: a float32 value as long as
    the lengths differ by at most 4096. *)
Definition distance (query : string) (doc : Document) : float :=
  let d := Z.abs (embed query - embed (page_content doc)) in
  PrimFloat.of_uint63 (Uint63.of_Z (d * d)).

Definition join (parts : list string) : string :=
  match parts with
  | [] => ""
  | p :: r => fold_left (fun acc q => acc +:+ "/" +:+ q) r p
  end.

Definition makedirs (path : string) (tree : Py.dict (option (list Document)))
  : Res unit * Py.dict (option (list Document)) :=
  (Ok tt, if Py.dict_mem path tree then tree else Py.dict_set path None tree).

Definition listdir (path : string) (tree : Py.dict (option (list Document)))
  : Res (list string) :=
  match Py.dict_get path tree with
  | Some (Some _) => Ok ["index.faiss"; "index.pkl"]
  | Some None => Ok []
  | None => Raise (Exception "FileNotFoundError")
  end.

Definition load_local (path : string)
    (tree : Py.dict (option (list Document))) : Res (list Document) :=
  match Py.dict_get path tree with
  | Some (Some docs) => Ok docs
  | _ => Raise (Exception "RuntimeError: could not open index.faiss")
  end.

Definition similarity_search_with_score (query : string) (k : Z)
    (docs : list Document) : Res (list (Document * float)) :=
  if (0 <? k)%Z
  then Ok (take (Z.to_nat k)
             (Py.sort_by snd (map (fun d => (d, distance query d)) docs)))
  else Raise (Exception "AssertionError").

(** The model is there when its path is in the tree; there is no
    network to fetch the named one. *)
Definition sentence_transformer (name : string) (cache : option string)
    (tree : Py.dict (option (list Document)))
  : Res unit * Py.dict (option (list Document)) :=
  if Py.dict_mem name tree
  then (Ok tt, tree)
  else (Raise (Exception "OSError: no network"), tree).

(** A text is encoded by its length. *)
Definition encode (text : string) : list float :=
  [PrimFloat.of_uint63 (Uint63.of_Z (Z.of_nat (String.length text)))].

(** The instance, with or without the sentence-transformers library. *)
Definition external_with (available : bool) : External := {|
  VS := list Document;
  FS := Py.dict (option (list Document));
  module_dir := "/opt/lc_agent";
  os_path_join := join;
  os_makedirs := makedirs;
  os_path_exists := fun path tree => Py.dict_mem path tree;
  os_listdir := listdir;
  FAISS_load_local := load_local;
  FAISS_from_texts := fun texts => Ok (map (fun t => mkDocument t ∅) texts);
  FAISS_delete := fun pos docs => (Ok tt, delete pos docs);
  FAISS_add_documents := fun new docs => (Ok tt, (docs ++ new)%list);
  FAISS_similarity_search_with_score := similarity_search_with_score;
  FAISS_save_local :=
    fun path docs tree => (Ok tt, Py.dict_set path (Some docs) tree);
  Encoder := unit;
  SENTENCE_TRANSFORMER_AVAILABLE := available;
  SentenceTransformer := sentence_transformer;
  encoder_bool := fun _ => true;
  encode_texts := fun _ texts => Ok (map encode texts);
  encode_text := fun _ text => Ok (encode text)
|}.

(** The small instance is the one without the library. *)
#[export] Instance external : External := external_with false.

Definition meta (source desc : string) : gmap string string :=
  <["source" := source]> (<["desc" := desc]> ∅).

Definition doc1 : Document := mkDocument "check hdfs-site.xml" (meta "docs" "config").
Definition doc2 : Document := mkDocument "heap" (meta "cases" "memory").
Definition doc3 : Document := mkDocument "port already in use" ∅.

Definition env0 : @Env external := @mkEnv external [] [].

(** A knowledge base holding the given documents. *)
Definition kb_of (name : string) (docs : list Document)
  : @KnowledgeBase external :=
  @mkKnowledgeBase external name ("/kb/" +:+ name) (Some docs).

End Toy.

(** ** A second small instance, with one fault

    The small instance with one thing out of the ordinary: the vector
    store path is a regular file, the saved index cannot be read, the
    disk is full, the embedding of new documents fails, the
    sentence-transformers library is there and its model is not, or
    every document is a near match of every query, at the float32
    distance next above 0.005. *)

Module Faulty.

Inductive Fault :=
  NotADirectory | CorruptIndex | DiskFull | EmbeddingFails | ModelMissing
  | NearMatch.

Definition external (f : Fault) : External := {|
  VS := list Document;
  FS := Py.dict (option (list Document));
  module_dir := "/opt/lc_agent";
  os_path_join := Toy.join;
  os_makedirs := Toy.makedirs;
  os_path_exists :=
    match f with
    | NotADirectory => fun _ _ => true
    | _ => fun path tree => Py.dict_mem path tree
    end;
  os_listdir :=
    match f with
    | NotADirectory => fun _ _ => Raise (Exception "NotADirectoryError")
    | _ => Toy.listdir
    end;
  FAISS_load_local :=
    match f with
    | CorruptIndex => fun _ _ => Raise (Exception "RuntimeError: bad index")
    | _ => Toy.load_local
    end;
  FAISS_from_texts := fun texts => Ok (map (fun t => mkDocument t ∅) texts);
  FAISS_delete := fun pos docs => (Ok tt, delete pos docs);
  FAISS_add_documents :=
    match f with
    | EmbeddingFails =>
        fun _ docs => (Raise (Exception "RuntimeError: out of memory"), docs)
    | _ => fun new docs => (Ok tt, (docs ++ new)%list)
    end;
  FAISS_similarity_search_with_score :=
    match f with
    | NearMatch =>
        fun _ _ docs =>
          Ok (map (fun d => (d, 0.0050000003539025784%float)) docs)
    | _ => Toy.similarity_search_with_score
    end;
  FAISS_save_local :=
    match f with
    | DiskFull =>
        fun _ _ tree =>
          (Raise (Exception "OSError: No space left on device"), tree)
    | _ => fun path docs tree => (Ok tt, Py.dict_set path (Some docs) tree)
    end;
  Encoder := unit;
  SENTENCE_TRANSFORMER_AVAILABLE :=
    match f with
    | ModelMissing => true
    | _ => false
    end;
  SentenceTransformer := Toy.sentence_transformer;
  encoder_bool := fun _ => true;
  encode_texts := fun _ texts => Ok (map Toy.encode texts);
  encode_text := fun _ text => Ok (Toy.encode text)
|}.

Definition env_of (f : Fault) (tree : Py.dict (option (list Document)))
  : @Env (external f) :=
  @mkEnv (external f) tree [].

Definition kb_of (f : Fault) (name : string) (docs : list Document)
  : @KnowledgeBase (external f) :=
  @mkKnowledgeBase (external f) name ("/kb/" +:+ name) (Some docs).

End Faulty.

(** ** The Python values at work *)

Example lower_mixed : Py.lower "NameNode-NN" = "namenode-nn".
Proof. reflexivity. Qed.

Example contains_nn : Py.contains "nn" "scanner" = true.
Proof. reflexivity. Qed.

Example format_2f_examples :
  Py.format_2f 0.5%float = "0.50" /\
  Py.format_2f (1 - 2.5)%float = "-1.50" /\
  Py.format_2f 0.125%float = "0.12" /\
  Py.format_2f 0.375%float = "0.38" /\
  Py.format_2f (-0.001)%float = "-0.00" /\
  Py.format_2f 1234.5678%float = "1234.57" /\
  Py.format_2f 2.675%float = "2.67" /\
  Py.format_2f 0.015%float = "0.01" /\
  Py.format_2f 1e22%float = "10000000000000000000000.00" /\
  Py.format_2f 5e-324%float = "0.00" /\
  Py.format_2f (0 / 0)%float = "nan" /\
  Py.format_2f (-1 / 0)%float = "-inf".
Proof. vm_compute. repeat split. Qed.

(** ** Strings *)

(** [k] occurs in [s] as a contiguous run of characters. *)
Definition occurs_in (k s : string) : Prop :=
  exists pre post, s = pre +:+ k +:+ post.

Lemma startswith_spec (n h : string) :
  Py.startswith n h = true <-> exists t, h = n +:+ t.
Proof.
  revert h. induction n as [|a n IH]; intros h; simpl.
  - split; [intros _; exists h; reflexivity | reflexivity].
  - destruct h as [|b h].
    + split; [discriminate | intros [t Ht]; discriminate].
    + destruct (Ascii.eqb_spec a b) as [->|Hne].
      * rewrite IH. split; intros [t Ht]; exists t.
        -- simpl. now rewrite Ht.
        -- simpl in Ht. now injection Ht.
      * split; [discriminate | intros [t Ht]; simpl in Ht].
        injection Ht as Hb _. congruence.
Qed.

Lemma contains_spec (n h : string) :
  Py.contains n h = true <-> occurs_in n h.
Proof.
  induction h as [|c h IH]; simpl.
  - destruct (Py.startswith n "") eqn:E.
    + split; [intros _ | reflexivity].
      apply startswith_spec in E as [t Ht]. exists "", t. exact Ht.
    + split; [discriminate | intros (pre & post & H)].
      destruct pre; [| discriminate].
      assert (Py.startswith n "" = true) as E'
        by (apply startswith_spec; exists post; exact H).
      congruence.
  - destruct (Py.startswith n (String c h)) eqn:E.
    + split; [intros _ | reflexivity].
      apply startswith_spec in E as [t Ht]. exists "", t. exact Ht.
    + rewrite IH. split.
      * intros (pre & post & H). exists (String c pre), post.
        simpl. now rewrite H.
      * intros (pre & post & H). destruct pre as [|c' pre].
        -- assert (Py.startswith n (String c h) = true) as E'
             by (apply startswith_spec; exists post; exact H).
           congruence.
        -- simpl in H. injection H as _ H. exists pre, post. exact H.
Qed.

Lemma contains_false (n h : string) :
  Py.contains n h = false <-> ~ occurs_in n h.
Proof.
  rewrite <- contains_spec. destruct (Py.contains n h); split; congruence.
Qed.

Lemma lower_idempotent (s : string) : Py.lower (Py.lower s) = Py.lower s.
Proof.
  induction s as [|c s IH]; simpl; [reflexivity|]. rewrite IH. f_equal.
  destruct c as [[] [] [] [] [] [] [] []]; reflexivity.
Qed.

(** [l] is [c] in lower case: the small letter of an ASCII capital
    (32 code points above it), [c] itself for any other character. *)
Definition small_letter (c l : ascii) : Prop :=
  let n := nat_of_ascii c in
  (65 <= n <= 90 /\ nat_of_ascii l = n + 32) \/ (~ 65 <= n <= 90 /\ l = c).

(** [l] is [s] in lower case, character by character. *)
Inductive lower_cased : string -> string -> Prop :=
| lower_cased_nil : lower_cased "" ""
| lower_cased_cons (c l : ascii) (s r : string) :
    small_letter c l -> lower_cased s r ->
    lower_cased (String c s) (String l r).

Lemma small_letter_lower (c : ascii) : small_letter c (Py.ascii_lower c).
Proof.
  unfold small_letter, Py.ascii_lower. cbv zeta.
  destruct ((65 <=? nat_of_ascii c)%nat && (nat_of_ascii c <=? 90)%nat)
    eqn:E.
  - apply andb_true_iff in E as [E1 E2].
    apply Nat.leb_le in E1, E2. left. split; [lia|].
    apply nat_ascii_embedding. lia.
  - right. split; [|reflexivity]. intros [H1 H2].
    apply Nat.leb_le in H1, H2. rewrite H1, H2 in E. discriminate.
Qed.

Lemma small_letter_unique (c l : ascii) :
  small_letter c l -> l = Py.ascii_lower c.
Proof.
  unfold small_letter, Py.ascii_lower. cbv zeta.
  intros [[[H1 H2] Hl]|[Hout ->]].
  - apply Nat.leb_le in H1, H2. rewrite H1, H2. simpl.
    rewrite <- Hl. symmetry. apply ascii_nat_embedding.
  - destruct ((65 <=? nat_of_ascii c)%nat && (nat_of_ascii c <=? 90)%nat)
      eqn:E; [|reflexivity].
    apply andb_true_iff in E as [E1 E2]. apply Nat.leb_le in E1, E2.
    exfalso. apply Hout. lia.
Qed.

Lemma lower_cased_lower (s : string) : lower_cased s (Py.lower s).
Proof.
  induction s as [|c s IH]; simpl; constructor;
    [apply small_letter_lower | exact IH].
Qed.

Lemma lower_cased_unique (s l : string) :
  lower_cased s l -> l = Py.lower s.
Proof.
  induction 1 as [|c l s r Hc _ IH]; simpl; [reflexivity|].
  now rewrite (small_letter_unique c l Hc), IH.
Qed.

Section ManagerFacts.

Context `{Ext : External}.

(** The name the rule table gives a label: the rules are tried in
    order on the label in lower case. *)
Definition rule_for (label name : string) : Prop :=
  exists l, lower_cased label l /\
  let nn := occurs_in "namenode" l \/ occurs_in "nn" l in
  let dn := occurs_in "datanode" l \/ occurs_in "dn" l in
  let yarn := occurs_in "yarn" l in
  (nn /\ name = "NameNodeExpert")
  \/ (~ nn /\ dn /\ name = "DataNodeExpert")
  \/ (~ nn /\ ~ dn /\ yarn /\ name = "YARNExpert")
  \/ (~ nn /\ ~ dn /\ ~ yarn /\ name = "HistoryCases").

(** The name the method returns for a label. *)
Definition kb_name_for (expert_type : string) : string :=
  let l := Py.lower expert_type in
  if Py.contains "namenode" l || Py.contains "nn" l then "NameNodeExpert"
  else if Py.contains "datanode" l || Py.contains "dn" l
  then "DataNodeExpert"
  else if Py.contains "yarn" l then "YARNExpert"
  else "HistoryCases".

Lemma match_knowledge_base_run (label : string)
    (self : KnowledgeBaseManager) (env : Env) :
  match_knowledge_base label self env = (Ok (kb_name_for label), self, env).
Proof.
  unfold match_knowledge_base, kb_name_for. cbv zeta.
  repeat match goal with
         | |- context [if ?b then _ else _] => destruct b
         end; reflexivity.
Qed.

Lemma kb_name_for_rule (label : string) : rule_for label (kb_name_for label).
Proof.
  exists (Py.lower label). split; [apply lower_cased_lower|].
  unfold kb_name_for. cbv zeta.
  destruct (Py.contains "namenode" (Py.lower label)) eqn:E1;
  destruct (Py.contains "nn" (Py.lower label)) eqn:E2;
  destruct (Py.contains "datanode" (Py.lower label)) eqn:E3;
  destruct (Py.contains "dn" (Py.lower label)) eqn:E4;
  destruct (Py.contains "yarn" (Py.lower label)) eqn:E5;
  simpl;
  repeat match goal with
         | H : Py.contains _ _ = true |- _ => apply contains_spec in H
         | H : Py.contains _ _ = false |- _ => apply contains_false in H
         end;
  tauto.
Qed.

Lemma kb_name_for_default (label : string) :
  In (kb_name_for label)
     ["NameNodeExpert"; "DataNodeExpert"; "YARNExpert"; "HistoryCases"].
Proof.
  unfold kb_name_for. cbv zeta.
  repeat match goal with
         | |- context [if ?b then _ else _] => destruct b
         end; simpl; tauto.
Qed.

(** The rule table gives a label one name only. *)
Lemma rule_for_unique (label name : string) :
  rule_for label name -> name = kb_name_for label.
Proof.
  intros (l & Hl & H). apply lower_cased_unique in Hl. subst l.
  unfold kb_name_for. cbv zeta in *.
  destruct (Py.contains "namenode" (Py.lower label)) eqn:E1;
  destruct (Py.contains "nn" (Py.lower label)) eqn:E2;
  destruct (Py.contains "datanode" (Py.lower label)) eqn:E3;
  destruct (Py.contains "dn" (Py.lower label)) eqn:E4;
  destruct (Py.contains "yarn" (Py.lower label)) eqn:E5;
  simpl;
  repeat match goal with
         | H : Py.contains _ _ = true |- _ => apply contains_spec in H
         | H : Py.contains _ _ = false |- _ => apply contains_false in H
         end;
  intuition congruence.
Qed.

(** C3: [match_knowledge_base] is a pure function of its label: for
    every label there is one name, the only one the ordered containment
    rules give for the label in lower case (namenode or nn, else
    datanode or dn, else yarn, else HistoryCases), that the method
    returns on every manager and in every environment, changing
    neither. *)
Theorem match_knowledge_base_rules (label : string) :
  exists name,
    rule_for label name /\
    (forall name', rule_for label name' -> name' = name) /\
    forall (self : KnowledgeBaseManager) (env : Env),
      match_knowledge_base label self env = (Ok name, self, env).
Proof.
  exists (kb_name_for label). split; [|split].
  - apply kb_name_for_rule.
  - apply rule_for_unique.
  - intros. apply match_knowledge_base_run.
Qed.

End ManagerFacts.

(** A label in lower case, for a label written out. *)
Ltac lower_cased_of :=
  repeat (apply lower_cased_cons;
          [unfold small_letter; vm_compute;
           first [left; split; [lia | reflexivity]
                 | right; split; [lia | reflexivity]]|]);
  apply lower_cased_nil.

(** A keyword does not occur in a label written out. *)
Ltac occurs_not :=
  repeat match goal with
         | |- ~ _ => intros ?
         | H : _ \/ _ |- _ => destruct H
         | H : occurs_in _ _ |- _ =>
             apply contains_spec in H; vm_compute in H; discriminate H
         end.

(** C3 on labels in capitals and small letters: the first rule that
    matches the label in lower case decides, whatever rule matches
    after it. *)
Lemma match_knowledge_base_rules_witness :
  let self := @mkKnowledgeBaseManager Toy.external [] in
  match_knowledge_base "My-NameNode" self Toy.env0
  = (Ok "NameNodeExpert", self, Toy.env0) /\
  match_knowledge_base "YARN on DN-7" self Toy.env0
  = (Ok "DataNodeExpert", self, Toy.env0) /\
  match_knowledge_base "Yarn" self Toy.env0
  = (Ok "YARNExpert", self, Toy.env0) /\
  match_knowledge_base "HBase" self Toy.env0
  = (Ok "HistoryCases", self, Toy.env0).
Proof.
  intros self. split; [|split; [|split]].
  - destruct (match_knowledge_base_rules (Ext:=Toy.external) "My-NameNode")
      as (name & _ & Huniq & Hrun).
    rewrite Hrun, <- (Huniq "NameNodeExpert"); [reflexivity|].
    exists "my-namenode". split; [lower_cased_of|].
    left. split; [|reflexivity]. left. now exists "my-", "".
  - destruct (match_knowledge_base_rules (Ext:=Toy.external) "YARN on DN-7")
      as (name & _ & Huniq & Hrun).
    rewrite Hrun, <- (Huniq "DataNodeExpert"); [reflexivity|].
    exists "yarn on dn-7". split; [lower_cased_of|].
    right. left. split; [occurs_not|]. split; [|reflexivity].
    right. now exists "yarn on ", "-7".
  - destruct (match_knowledge_base_rules (Ext:=Toy.external) "Yarn")
      as (name & _ & Huniq & Hrun).
    rewrite Hrun, <- (Huniq "YARNExpert"); [reflexivity|].
    exists "yarn". split; [lower_cased_of|].
    right. right. left. split; [occurs_not|]. split; [occurs_not|].
    split; [|reflexivity]. now exists "", "".
  - destruct (match_knowledge_base_rules (Ext:=Toy.external) "HBase")
      as (name & _ & Huniq & Hrun).
    rewrite Hrun, <- (Huniq "HistoryCases"); [reflexivity|].
    exists "hbase". split; [lower_cased_of|].
    right. right. right. repeat split; occurs_not.
Defined.

(** ** KnowledgeBase.search *)

Section SearchFacts.

Context `{Ext : External}.

(** The outcome of the call
    [self.vector_store.similarity_search_with_score(query, k=top_k)],
    embedding of the query included. *)
Definition index_answer (self : KnowledgeBase) (query : string) (top_k : Z)
  : Res (list (Document * float)) :=
  match vector_store self with
  | None => Raise (AttributeError "similarity_search_with_score")
  | Some vs => FAISS_similarity_search_with_score query top_k vs
  end.

(** What one [search] adds to the trace. *)
Definition search_events (self : KnowledgeBase) (query : string) (top_k : Z)
  : list Event :=
  match vector_store self with
  | None => []
  | Some _ => [SimilaritySearch (kb_name self) query top_k]
  end ++
  match index_answer self query top_k with
  | Ok _ => []
  | Raise e => [Log ERROR ("搜索知识库失败: " +:+ str_exn e)]
  end.

(** What one [search] returns. *)
Definition search_result (self : KnowledgeBase) (query : string) (top_k : Z)
    (score_threshold : float) : list (Document * float) :=
  match index_answer self query top_k with
  | Ok answer =>
      List.filter (fun p => within_threshold score_threshold (snd p)) answer
  | Raise _ => []
  end.

Lemma filter_pair_snd (t : float) (l : list (Document * float)) :
  List.filter (fun '(doc, score) => within_threshold t score) l
  = List.filter (fun p => within_threshold t (snd p)) l.
Proof. apply List.filter_ext. intros [d s]. reflexivity. Qed.

Lemma search_run (self : KnowledgeBase) (query : string) (top_k : Z)
    (score_threshold : float) (env : Env) :
  search query top_k score_threshold self env
  = (Ok (search_result self query top_k score_threshold), self,
     mkEnv (fs env) (trace env ++ search_events self query top_k)).
Proof.
  unfold search, search_result, search_events, index_answer, try_except,
    bind, get_self, store_read, ret, logging, emit.
  destruct self as [n p [vs|]]; simpl.
  - destruct (FAISS_similarity_search_with_score query top_k vs) as [a|e];
      simpl.
    + rewrite filter_pair_snd. reflexivity.
    + rewrite <- app_assoc. reflexivity.
  - reflexivity.
Qed.

Lemma filter_sublist_of {A} (f : A -> bool) (l : list A) :
  sublist (List.filter f l) l.
Proof.
  induction l as [|x l IH]; simpl; [constructor|].
  destruct (f x); now constructor.
Qed.

(** C1, amended: when the index answers the request for the [top_k]
    nearest neighbours, [search] returns the pairs of that answer whose
    distance is at most the bound [(1 - score_threshold) * 10] rounded
    to float32 (the distances are float32, and the comparison is made
    in float32), all of them and no other, in the order of the answer;
    the collection is left as it was. *)
Theorem search_filters_index_answer (self : KnowledgeBase) (query : string)
    (top_k : Z) (score_threshold : float) (env : Env)
    (answer : list (Document * float)) :
  index_answer self query top_k = Ok answer ->
  exists r env',
    search query top_k score_threshold self env = (Ok r, self, env') /\
    r = List.filter
          (fun p =>
             (snd p <=? Np.float32 ((1 - score_threshold) * 10))%float)
          answer /\
    (forall p, In p r <->
               In p answer /\
               (snd p <=? Np.float32 ((1 - score_threshold) * 10))%float
               = true) /\
    sublist r answer.
Proof.
  intros Hans. eexists _, _. split; [apply search_run|].
  unfold search_result. rewrite Hans.
  split; [reflexivity|]. split.
  - intros p. apply List.filter_In.
  - apply filter_sublist_of.
Qed.

(** C5: [search] always returns, whatever the index does; when the
    embedding of the query or the search of the index raises, it
    returns the empty list, its last act being the [logging.error]
    record of the exception. *)
Theorem search_never_raises (self : KnowledgeBase) (query : string)
    (top_k : Z) (score_threshold : float) (env : Env) :
  exists r env',
    search query top_k score_threshold self env = (Ok r, self, env') /\
    fs env' = fs env /\
    forall e, index_answer self query top_k = Raise e ->
      r = [] /\
      exists calls,
        trace env' =
          (trace env ++ calls
             ++ [Log ERROR ("搜索知识库失败: " +:+ str_exn e)])%list /\
        forall ev, In ev calls -> ev = SimilaritySearch (kb_name self) query top_k.
Proof.
  eexists _, _. split; [apply search_run|]. split; [reflexivity|].
  intros e He. unfold search_result, search_events. rewrite He.
  split; [reflexivity|]. simpl.
  eexists. split; [reflexivity|].
  intros ev. destruct (vector_store self); simpl; intuition.
Qed.

End SearchFacts.

(** C1 on the small instance: of the two nearest neighbours of a
    five-letter query only the one at distance 1 passes the threshold
    0.4 (the other is at distance 196 > 6); and the neighbour at
    distance 4 passes the threshold 0.60000001, whose bound is 4 in
    float32. *)
Lemma search_filters_index_answer_witness :
  let kb := Toy.kb_of "NameNodeExpert" [Toy.doc1; Toy.doc2] in
  (exists r env',
     search "heaps" 2 0.4 kb Toy.env0 = (Ok r, kb, env') /\
     r = [(Toy.doc2, 1%float)]) /\
  (exists r env',
     search "he" 1 0.60000001 kb Toy.env0 = (Ok r, kb, env') /\
     r = [(Toy.doc2, 4%float)]).
Proof.
  intros kb. split.
  - destruct (search_filters_index_answer kb "heaps" 2 0.4 Toy.env0
                [(Toy.doc2, 1%float); (Toy.doc1, 196%float)])
      as (r & env' & Hrun & Hr & _).
    + vm_compute. reflexivity.
    + exists r, env'. split; [exact Hrun|]. rewrite Hr.
      vm_compute. reflexivity.
  - destruct (search_filters_index_answer kb "he" 1 0.60000001 Toy.env0
                [(Toy.doc2, 4%float)])
      as (r & env' & Hrun & Hr & _).
    + vm_compute. reflexivity.
    + exists r, env'. split; [exact Hrun|]. rewrite Hr.
      vm_compute. reflexivity.
Defined.

(** C1 as stated, refuted: with the bound [(1 - score_threshold) * 10]
    as the Python floats give it, 3.9999998999999997 for the threshold
    0.60000001, a neighbour at distance 4 would be dropped; [search]
    keeps it, the bound being 4 in float32. *)
Lemma search_filters_index_answer_counterexample :
  ~ (forall (self : @KnowledgeBase Toy.external) (query : string)
       (top_k : Z) (score_threshold : float) (env : @Env Toy.external)
       (answer : list (Document * float)),
       index_answer self query top_k = Ok answer ->
       exists r env',
         search query top_k score_threshold self env = (Ok r, self, env') /\
         r = List.filter
               (fun p => (snd p <=? (1 - score_threshold) * 10)%float)
               answer /\
         (forall p, In p r <->
                    In p answer /\
                    (snd p <=? (1 - score_threshold) * 10)%float = true) /\
         sublist r answer).
Proof.
  intros H.
  destruct (H (Toy.kb_of "NameNodeExpert" [Toy.doc2]) "he" 1%Z
              0.60000001%float Toy.env0 [(Toy.doc2, 4%float)])
    as (r & env' & Hrun & Hr & _).
  - vm_compute. reflexivity.
  - apply (f_equal (fun x => fst (fst x))) in Hrun.
    vm_compute in Hrun. vm_compute in Hr. subst r. discriminate Hrun.
Qed.

(** C5 on the small instance: a request for zero neighbours makes the
    index raise, and [search] returns the empty list. *)
Lemma search_never_raises_witness :
  let kb := Toy.kb_of "NameNodeExpert" [Toy.doc1; Toy.doc2] in
  exists env',
    search "heaps" 0 0.4 kb Toy.env0 = (Ok [], kb, env').
Proof.
  intros kb.
  destruct (search_never_raises kb "heaps" 0 0.4 Toy.env0)
    as (r & env' & Hrun & _ & Hraise).
  destruct (Hraise (Exception "AssertionError")) as [Hr _].
  - vm_compute. reflexivity.
  - exists env'. rewrite <- Hr. exact Hrun.
Defined.

(** ** KnowledgeBase.add_documents and add_texts *)

Section AddFacts.

Context `{Ext : External}.

(** The path [save] writes to. *)
Definition vector_store_path (self : KnowledgeBase) : string :=
  os_path_join [kb_path self; "vector_store"].

(** What a completed [add_documents] leaves in the trace, in order. *)
Definition add_events (self : KnowledgeBase) (documents : list Document)
  : list Event :=
  [AddDocuments (kb_name self) documents;
   Makedirs (vector_store_path self);
   SaveLocal (kb_name self) (vector_store_path self);
   Log INFO ("知识库已保存: " +:+ kb_name self)].

(** The external calls of [add_documents] all succeed: the store [vs]
    takes the documents and becomes [vs1], and the directory is made
    and [vs1] saved in it, which leaves the file system [fs2]. *)
Definition add_succeeds (self : KnowledgeBase) (documents : list Document)
    (fs0 : FS) (vs1 : VS) (fs2 : FS) : Prop :=
  exists vs fs1,
    vector_store self = Some vs /\
    FAISS_add_documents documents vs = (Ok tt, vs1) /\
    os_makedirs (vector_store_path self) fs0 = (Ok tt, fs1) /\
    FAISS_save_local (vector_store_path self) vs1 fs1 = (Ok tt, fs2).

Lemma zip_documents (texts : list string) (ms : list (gmap string string)) :
  map (fun '(text, metadata) => mkDocument text metadata) (Py.zip texts ms)
  = zip_with mkDocument texts ms.
Proof.
  revert ms. induction texts as [|t texts IH]; intros [|m ms]; simpl;
    try reflexivity.
  now rewrite IH.
Qed.

Lemma add_documents_nil (self : KnowledgeBase) (env : Env) :
  add_documents [] self env = (Ok tt, self, env).
Proof. reflexivity. Qed.

Lemma add_documents_ok (self self' : KnowledgeBase)
    (documents : list Document) (env env' : Env) :
  documents <> [] ->
  add_documents documents self env = (Ok tt, self', env') <->
  exists vs1,
    add_succeeds self documents (fs env) vs1 (fs env') /\
    self' = mkKnowledgeBase (kb_name self) (kb_path self) (Some vs1) /\
    trace env' = (trace env ++ add_events self documents)%list.
Proof.
  intros Hne. destruct documents as [|d docs]; [congruence|].
  unfold add_documents, add_succeeds, add_events, vector_store_path, save,
    bind, get_self, store_call, store_save_local, fs_call, logging, emit.
  destruct self as [n p [vs|]]; simpl.
  2:{ split; [discriminate|]. intros (vs1 & (vs & fs1 & H & _) & _).
      discriminate. }
  destruct (FAISS_add_documents (d :: docs) vs) as [[[]|e] vs1] eqn:Hadd;
    simpl.
  2:{ split; [discriminate|].
      intros (vs1' & (vs' & fs1 & H & H' & _) & _).
      injection H as <-. rewrite Hadd in H'. discriminate. }
  destruct (os_makedirs (os_path_join [p; "vector_store"]) (fs env))
    as [[[]|e] fs1] eqn:Hmk; simpl.
  2:{ split; [discriminate|].
      intros (vs1' & (vs' & fs1' & _ & _ & H & _) & _). discriminate. }
  destruct (FAISS_save_local (os_path_join [p; "vector_store"]) vs1 fs1)
    as [[[]|e] fs2] eqn:Hsv; simpl.
  2:{ split; [discriminate|].
      intros (vs1' & (vs' & fs1' & H & H' & Hm & Hs) & _).
      injection H as <-. rewrite Hadd in H'. injection H' as <-.
      injection Hm as <-. rewrite Hsv in Hs. discriminate. }
  split.
  - intros H. injection H as <- <-. simpl. exists vs1. split.
    + exists vs, fs1. auto.
    + split; [reflexivity|]. rewrite <- !app_assoc. reflexivity.
  - intros (vs1' & (vs' & fs1' & H & H' & Hm & Hs) & -> & Htr).
    injection H as <-. rewrite Hadd in H'. injection H' as <-.
    injection Hm as <-. rewrite Hsv in Hs. injection Hs as Hfs.
    destruct env' as [fs' tr']. simpl in *. subst.
    rewrite <- !app_assoc. reflexivity.
Qed.

(** C8: [add_documents] on the empty list changes nothing (no call to
    the store or the file system, no record); on a non-empty list it
    returns exactly when the store took the documents and was then
    saved under the collection's path, the trace showing the insertion
    before the save, and the save before the return.  [add_texts] hands
    [add_documents] one document per text: with an empty metadata
    mapping each when [metadatas] is omitted, and the text paired with
    the metadata at its position when as many metadatas are given. *)
Theorem add_documents_then_save (self : KnowledgeBase) (env : Env) :
  add_documents [] self env = (Ok tt, self, env) /\
  (forall documents self' env',
     documents <> [] ->
     add_documents documents self env = (Ok tt, self', env') <->
     exists vs1,
       add_succeeds self documents (fs env) vs1 (fs env') /\
       self' = mkKnowledgeBase (kb_name self) (kb_path self) (Some vs1) /\
       trace env' = (trace env ++ add_events self documents)%list) /\
  (forall texts,
     add_texts texts None self env
     = add_documents (map (fun t => mkDocument t ∅) texts) self env) /\
  (forall texts metadatas,
     length metadatas = length texts ->
     add_texts texts (Some metadatas) self env
     = add_documents (zip_with mkDocument texts metadatas) self env /\
     length (zip_with mkDocument texts metadatas) = length texts).
Proof.
  split; [reflexivity|]. split; [|split].
  - intros. now apply add_documents_ok.
  - intros [|t texts]; [reflexivity|]. unfold add_texts.
    rewrite zip_documents.
    rewrite zip_with_replicate_r_eq by reflexivity. reflexivity.
  - intros texts ms Hlen. split.
    + destruct texts as [|t texts]; [now destruct ms|].
      unfold add_texts. now rewrite zip_documents.
    + apply length_zip_with_l_eq. now rewrite Hlen.
Qed.

(** C9: when [metadatas] is given, [add_texts] pairs texts and
    metadatas by position up to the end of the shorter list, and these
    pairs are all it adds: the texts beyond the metadatas (and the
    metadatas beyond the texts) are dropped.  With no pair nothing
    happens at all.  With a pair, the store of the collection is the
    one the index leaves after the one call that hands it exactly
    these documents; that call is the first event, followed only by
    the steps of the save; and the call returns exactly when the index
    took these documents and the store was saved, so that the lengths
    that differ raise nothing. *)
Theorem add_texts_zip_truncates (texts : list string)
    (metadatas : list (gmap string string)) (self : KnowledgeBase)
    (env : Env) (vs : VS) :
  vector_store self = Some vs ->
  let n := min (length texts) (length metadatas) in
  let documents := zip_with mkDocument (take n texts) (take n metadatas) in
  let run := add_texts texts (Some metadatas) self env in
  length documents = n /\
  (forall i text, documents !! i = Some text ->
     exists t m, texts !! i = Some t /\ metadatas !! i = Some m /\
                 text = mkDocument t m) /\
  run = add_texts (take n texts) (Some (take n metadatas)) self env /\
  (n = 0 -> run = (Ok tt, self, env)) /\
  (0 < n ->
   vector_store (snd (fst run))
   = Some (snd (FAISS_add_documents documents vs)) /\
   (exists k,
      trace (snd run)
      = (trace env ++ take (S k) (add_events self documents))%list) /\
   (fst (fst run) = Ok tt <->
    exists vs1 fs2, add_succeeds self documents (fs env) vs1 fs2)).
Proof.
  intros Hvs n documents run.
  assert (documents = zip_with mkDocument texts metadatas) as Hdocs.
  { subst documents n. rewrite <- zip_with_take.
    apply take_ge. rewrite length_zip_with. lia. }
  assert (forall ts ms,
            add_texts ts (Some ms) self env
            = add_documents (zip_with mkDocument ts ms) self env) as Hrun.
  { intros [|t ts] ms; [reflexivity|]. unfold add_texts.
    now rewrite zip_documents. }
  assert (length documents = n) as Hlen
    by (rewrite Hdocs, length_zip_with; reflexivity).
  assert (run = add_documents documents self env) as Hadd
    by (subst run; rewrite Hrun, Hdocs; reflexivity).
  split; [exact Hlen|]. split; [|split; [|split]].
  - intros i d Hd. rewrite Hdocs, lookup_zip_with in Hd.
    destruct (texts !! i) as [t|]; [|discriminate]. simpl in Hd.
    destruct (metadatas !! i) as [m|]; [|discriminate]. simpl in Hd.
    injection Hd as <-. eauto.
  - subst run. rewrite !Hrun. fold documents. now rewrite Hdocs.
  - intros Hn. rewrite Hadd. rewrite Hn in Hlen.
    now destruct documents.
  - intros Hn. rewrite Hadd. clear Hadd run.
    destruct documents as [|d docs] eqn:Edocs; [simpl in Hlen; lia|].
    rewrite <- Edocs. split; [|split].
    + rewrite Edocs.
      unfold add_documents, save, bind, get_self, store_call,
        store_save_local, fs_call, logging, emit.
      rewrite Hvs. simpl.
      destruct (FAISS_add_documents (d :: docs) vs) as [[[]|e] vs1];
        simpl; [|reflexivity].
      destruct (os_makedirs _ (fs env)) as [[[]|e] fs1]; simpl;
        [|reflexivity].
      now destruct (FAISS_save_local _ vs1 fs1) as [[[]|e] fs2].
    + rewrite Edocs.
      unfold add_documents, add_events, vector_store_path, save, bind,
        get_self, store_call, store_save_local, fs_call, logging, emit.
      rewrite Hvs. simpl.
      destruct (FAISS_add_documents (d :: docs) vs) as [[[]|e] vs1];
        simpl; [|now exists 0].
      destruct (os_makedirs _ (fs env)) as [[[]|e] fs1]; simpl;
        [|exists 1; simpl; now rewrite <- app_assoc].
      destruct (FAISS_save_local _ vs1 fs1) as [[[]|e] fs2]; simpl.
      * exists 3. simpl. now rewrite <- !app_assoc.
      * exists 2. simpl. now rewrite <- !app_assoc.
    + assert (documents <> []) as Hne by (rewrite Edocs; discriminate).
      split.
      * intros Hok.
        destruct (add_documents documents self env) as [[r self'] env']
          eqn:E.
        simpl in Hok. subst r.
        apply add_documents_ok in E as (vs1 & Hs & _); [|exact Hne].
        eauto.
      * intros (vs1 & fs2 & Hs).
        assert (add_documents documents self env
                = (Ok tt,
                   mkKnowledgeBase (kb_name self) (kb_path self) (Some vs1),
                   mkEnv fs2 (trace env ++ add_events self documents)))
          as ->; [|reflexivity].
        apply add_documents_ok; [exact Hne|]. exists vs1. auto.
Qed.

End AddFacts.

(** C8 on the small instance: adding one document to a collection
    holding another one appends it to the store, and saves the store of
    two under the collection's path before returning. *)
Lemma add_documents_then_save_witness :
  let kb := Toy.kb_of "YARNExpert" [Toy.doc2] in
  exists env',
    add_documents [Toy.doc3] kb Toy.env0
    = (Ok tt, Toy.kb_of "YARNExpert" [Toy.doc2; Toy.doc3], env') /\
    fs env' = [("/kb/YARNExpert/vector_store", Some [Toy.doc2; Toy.doc3])] /\
    trace env' = add_events kb [Toy.doc3].
Proof.
  intros kb.
  pose (env' := @mkEnv Toy.external
                  [("/kb/YARNExpert/vector_store", Some [Toy.doc2; Toy.doc3])]
                  (add_events kb [Toy.doc3])).
  exists env'. split; [|split; reflexivity].
  destruct (add_documents_then_save kb Toy.env0) as (_ & Hadd & _).
  apply (Hadd [Toy.doc3]); [discriminate|].
  exists [Toy.doc2; Toy.doc3]. split; [|split; reflexivity].
  exists [Toy.doc2], [("/kb/YARNExpert/vector_store", None)].
  repeat split.
Defined.

(** C9 on the small instance: of three texts given with two metadatas
    the first two are added to the store and saved, and the third is
    not. *)
Lemma add_texts_zip_truncates_witness :
  let kb := Toy.kb_of "YARNExpert" [Toy.doc2] in
  let a := mkDocument "a" (Toy.meta "s" "d") in
  let b := mkDocument "b" ∅ in
  add_texts ["a"; "b"; "c"] (Some [Toy.meta "s" "d"; ∅]) kb Toy.env0
  = (Ok tt, Toy.kb_of "YARNExpert" [Toy.doc2; a; b],
     @mkEnv Toy.external
       [("/kb/YARNExpert/vector_store", Some [Toy.doc2; a; b])]
       [AddDocuments "YARNExpert" [a; b];
        Makedirs "/kb/YARNExpert/vector_store";
        SaveLocal "YARNExpert" "/kb/YARNExpert/vector_store";
        Log INFO "知识库已保存: YARNExpert"]).
Proof.
  intros kb a b.
  destruct (add_texts_zip_truncates ["a"; "b"; "c"] [Toy.meta "s" "d"; ∅]
              kb Toy.env0 [Toy.doc2] eq_refl)
    as (_ & _ & _ & _ & H).
  destruct H as (Hstore & [k Htrace] & [_ Hok]); [simpl; lia|].
  destruct (add_texts ["a"; "b"; "c"] (Some [Toy.meta "s" "d"; ∅]) kb
              Toy.env0) as [[r kb'] env'] eqn:E.
  simpl in Hstore, Htrace, Hok.
  assert (r = Ok tt) as ->.
  { apply Hok. exists [Toy.doc2; a; b],
      [("/kb/YARNExpert/vector_store", Some [Toy.doc2; a; b])].
    exists [Toy.doc2], [("/kb/YARNExpert/vector_store", None)].
    repeat split. }
  rewrite <- E. vm_compute. reflexivity.
Defined.

(** ** The order of floats, and sorting by a float key *)

Section FloatOrder.

(** [x] is a number: it compares equal to itself, which NaN does not. *)
Definition is_number (x : float) : Prop := (x <=? x)%float = true.

Ltac cmp_cases :=
  repeat match goal with
  | |- context [Z.compare ?a ?b] => destruct (Z.compare_spec a b)
  | |- context [Pos.compare_cont Eq ?a ?b] =>
      change (Pos.compare_cont Eq a b) with (Pos.compare a b);
      destruct (Pos.compare_spec a b)
  end.

Ltac sf_cases :=
  simpl; try (intros; congruence); try reflexivity;
  cmp_cases; simpl; intros; try congruence; try reflexivity; try lia.

Lemma SFleb_trans (x y z : spec_float) :
  SFleb x y = true -> SFleb y z = true -> SFleb x z = true.
Proof.
  unfold SFleb, SFcompare.
  destruct x as [[]|[]| |[] m1 e1], y as [[]|[]| |[] m2 e2],
           z as [[]|[]| |[] m3 e3]; sf_cases.
Qed.

Lemma SFleb_total (x y : spec_float) :
  SFleb x x = true -> SFleb y y = true -> SFltb y x = false ->
  SFleb x y = true.
Proof.
  unfold SFleb, SFltb, SFcompare.
  destruct x as [[]|[]| |[] m1 e1], y as [[]|[]| |[] m2 e2]; sf_cases.
Qed.

Lemma SFleb_numbers (x y : spec_float) :
  SFleb x y = true -> SFleb x x = true /\ SFleb y y = true.
Proof.
  unfold SFleb, SFcompare.
  destruct x as [[]|[]| |[] m1 e1], y as [[]|[]| |[] m2 e2];
    simpl; try (intros; congruence); try (split; reflexivity);
    intros _; rewrite ?Z.compare_refl;
    repeat match goal with
           | |- context [Pos.compare_cont Eq ?a ?a] =>
               change (Pos.compare_cont Eq a a) with (Pos.compare a a);
               rewrite Pos.compare_refl
           end; split; reflexivity.
Qed.

Lemma SFeqb_not_ltb (x y k : spec_float) :
  SFeqb x k = true -> SFeqb y k = true -> SFltb y x = false.
Proof.
  unfold SFeqb, SFltb, SFcompare.
  destruct x as [[]|[]| |[] m1 e1], y as [[]|[]| |[] m2 e2],
           k as [[]|[]| |[] m3 e3]; sf_cases.
Qed.

Lemma eqb_not_ltb (x y k : float) :
  (x =? k)%float = true -> (y =? k)%float = true ->
  (y <? x)%float = false.
Proof. rewrite !FloatAxioms.eqb_spec, ltb_spec. apply SFeqb_not_ltb. Qed.

Lemma leb_trans (x y z : float) :
  (x <=? y)%float = true -> (y <=? z)%float = true ->
  (x <=? z)%float = true.
Proof. rewrite !leb_spec. apply SFleb_trans. Qed.

Lemma leb_total (x y : float) :
  is_number x -> is_number y -> (y <? x)%float = false ->
  (x <=? y)%float = true.
Proof. unfold is_number. rewrite !leb_spec, ltb_spec. apply SFleb_total. Qed.

Lemma ltb_leb (x y : float) :
  (x <? y)%float = true -> (x <=? y)%float = true.
Proof.
  rewrite leb_spec, ltb_spec. unfold SFleb, SFltb.
  destruct (SFcompare _ _) as [[]|]; congruence.
Qed.

Lemma leb_numbers (x y : float) :
  (x <=? y)%float = true -> is_number x /\ is_number y.
Proof. unfold is_number. rewrite !leb_spec. apply SFleb_numbers. Qed.

Context {A : Type} (key : A -> float).

(** [a] comes no later than [b] in ascending order of the key. *)
Definition le_key (a b : A) : Prop := (key a <=? key b)%float = true.

Lemma insert_by_perm (x : A) (l : list A) :
  Permutation (Py.insert_by key x l) (x :: l).
Proof.
  induction l as [|y l IH]; simpl; [reflexivity|].
  destruct (key y <? key x)%float; [|reflexivity].
  rewrite IH. apply perm_swap.
Qed.

Lemma sort_by_perm (l : list A) : Permutation (Py.sort_by key l) l.
Proof.
  induction l as [|x l IH]; simpl; [reflexivity|].
  rewrite insert_by_perm. now constructor.
Qed.

Lemma insert_by_sorted (x : A) (l : list A) :
  is_number (key x) -> Forall (fun a => is_number (key a)) l ->
  StronglySorted le_key l -> StronglySorted le_key (Py.insert_by key x l).
Proof.
  intros Hx Hl Hs. induction Hs as [|y l Hs IH Hy]; simpl.
  - repeat constructor.
  - apply Forall_cons in Hl as [Hny Hl].
    destruct (key y <? key x)%float eqn:E.
    + constructor; [now apply IH|].
      eapply Permutation_Forall; [symmetry; apply insert_by_perm|].
      constructor; [now apply ltb_leb | exact Hy].
    + assert (le_key x y) as Hxy by now apply leb_total.
      constructor; [now constructor|]. constructor; [exact Hxy|].
      eapply Forall_impl; [exact Hy|]. intros b Hb.
      unfold le_key in *. eapply leb_trans; eassumption.
Qed.

Lemma sort_by_sorted (l : list A) :
  Forall (fun a => is_number (key a)) l ->
  StronglySorted le_key (Py.sort_by key l).
Proof.
  induction l as [|x l IH]; simpl; intros Hl; [constructor|].
  apply Forall_cons in Hl as [Hx Hl].
  apply insert_by_sorted; [exact Hx| |now apply IH].
  eapply Permutation_Forall; [symmetry; apply sort_by_perm | exact Hl].
Qed.

Lemma insert_by_same_key (k : float) (x : A) (l : list A) :
  List.filter (fun a => (key a =? k)%float) (Py.insert_by key x l)
  = List.filter (fun a => (key a =? k)%float) (x :: l).
Proof.
  induction l as [|y l IH]; [reflexivity|].
  cbn [Py.insert_by]. destruct (key y <? key x)%float eqn:E; [|reflexivity].
  cbn [List.filter] in *. rewrite IH.
  destruct (key x =? k)%float eqn:Ex, (key y =? k)%float eqn:Ey;
    try reflexivity.
  pose proof (eqb_not_ltb _ _ k Ex Ey) as Hno. congruence.
Qed.

(** The sort is stable: the items of one key keep their order. *)
Lemma sort_by_stable (k : float) (l : list A) :
  List.filter (fun a => (key a =? k)%float) (Py.sort_by key l)
  = List.filter (fun a => (key a =? k)%float) l.
Proof.
  induction l as [|x l IH]; [reflexivity|].
  cbn [Py.sort_by]. rewrite insert_by_same_key.
  cbn [List.filter]. now rewrite IH.
Qed.

Lemma take_sorted (n : nat) (l : list A) :
  StronglySorted le_key l -> StronglySorted le_key (take n l).
Proof.
  intros Hs. revert n. induction Hs as [|y l Hs IH Hy]; intros [|n]; simpl;
    try constructor; [apply IH|].
  now apply Forall_take.
Qed.

End FloatOrder.

(** ** KnowledgeBaseManager.search_knowledge *)

Section RegistrySearch.

Context `{Ext : External}.

Lemma dict_mem_get {V} (k : string) (d : Py.dict V) :
  Py.dict_mem k d = true <-> exists v, Py.dict_get k d = Some v.
Proof.
  induction d as [|[k' v'] d IH]; simpl.
  - split; [discriminate | intros [v H]; discriminate].
  - destruct (String.eqb k' k); simpl; [|exact IH].
    split; [eauto | reflexivity].
Qed.

Lemma dict_set_get_id {V} (k : string) (v : V) (d : Py.dict V) :
  Py.dict_get k d = Some v -> Py.dict_set k v d = d.
Proof.
  induction d as [|[k' v'] d IH]; simpl; [discriminate|].
  destruct (String.eqb k' k); [congruence|].
  intros H. now rewrite IH.
Qed.

Lemma on_value_search (self : KnowledgeBaseManager) (i : nat)
    (name : string) (kb : KnowledgeBase) (query : string) (top_k : Z)
    (t : float) (env : Env) :
  knowledge_bases self !! i = Some (name, kb) ->
  on_value i (search query top_k t) self env
  = (Ok (search_result kb query top_k t), self,
     mkEnv (fs env) (trace env ++ search_events kb query top_k)).
Proof.
  intros Hi. unfold on_value. rewrite Hi, search_run. simpl.
  rewrite list_insert_id by exact Hi. now destruct self.
Qed.

Lemma on_kb_search (self : KnowledgeBaseManager) (name : string)
    (kb : KnowledgeBase) (query : string) (top_k : Z) (t : float)
    (env : Env) :
  Py.dict_get name (knowledge_bases self) = Some kb ->
  on_kb name (search query top_k t) self env
  = (Ok (search_result kb query top_k t), self,
     mkEnv (fs env) (trace env ++ search_events kb query top_k)).
Proof.
  intros Hk. unfold on_kb. rewrite Hk, search_run. simpl.
  rewrite dict_set_get_id by exact Hk. now destruct self.
Qed.

(** The results of all collections, in the order of the registry. *)
Definition all_results (self : KnowledgeBaseManager) (query : string)
    (top_k : Z) (t : float) : list (Document * float) :=
  concat (map (fun kv => search_result (snd kv) query top_k t)
              (knowledge_bases self)).

(** What the searches of all collections add to the trace. *)
Definition all_events (self : KnowledgeBaseManager) (query : string)
    (top_k : Z) : list Event :=
  concat (map (fun kv => search_events (snd kv) query top_k)
              (knowledge_bases self)).

Lemma for_acc_search (self : KnowledgeBaseManager) (query : string)
    (top_k : Z) (t : float) (rest pre : list (string * KnowledgeBase))
    (acc : list (Document * float)) (env : Env) :
  knowledge_bases self = (pre ++ rest)%list ->
  for_acc (seq (length pre) (length rest))
    (fun i all =>
       bind (on_value i (search query top_k t))
            (fun results => ret (all ++ results)%list))
    acc self env
  = (Ok (acc ++ concat (map (fun kv => search_result (snd kv) query top_k t)
                            rest))%list,
     self,
     mkEnv (fs env)
       (trace env ++ concat (map (fun kv => search_events (snd kv) query top_k)
                                 rest))%list).
Proof.
  revert pre acc env. induction rest as [|[name kb] rest IH];
    intros pre acc env Hk; simpl.
  - rewrite !app_nil_r. now destruct env.
  - unfold bind at 1. unfold bind at 1.
    rewrite (on_value_search self (length pre) name kb).
    2:{ rewrite Hk. apply list_lookup_middle. reflexivity. }
    unfold ret at 1.
    specialize (IH (pre ++ [(name, kb)])%list).
    rewrite length_app, Nat.add_1_r in IH.
    rewrite IH by (rewrite <- app_assoc; exact Hk).
    simpl. rewrite <- !app_assoc. reflexivity.
Qed.

Lemma search_knowledge_all_run (self : KnowledgeBaseManager)
    (query : string) (kb_name : option string) (top_k : Z) (t : float)
    (env : Env) :
  kb_name = None \/ kb_name = Some "" ->
  search_knowledge query kb_name top_k t self env
  = (Ok (Py.slice_to top_k (Py.sort_by snd (all_results self query top_k t))),
     self,
     mkEnv (fs env) (trace env ++ all_events self query top_k)).
Proof.
  intros Hname.
  assert (search_knowledge query kb_name top_k t self env
          = bind (for_acc (seq 0 (length (knowledge_bases self)))
                    (fun i all =>
                       bind (on_value i (search query top_k t))
                            (fun results => ret (all ++ results)%list)) [])
                 (fun all => ret (Py.slice_to top_k (Py.sort_by snd all)))
                 self env) as ->.
  { destruct Hname as [-> | ->]; reflexivity. }
  unfold bind at 1.
  rewrite (for_acc_search self query top_k t (knowledge_bases self) [])
    by reflexivity.
  reflexivity.
Qed.

(** The index answers a request for [k] neighbours with at most [k] of
    them, so with none when [k] is not positive. *)
Definition answers_at_most_k : Prop :=
  forall query k vs answer,
    FAISS_similarity_search_with_score query k vs = Ok answer ->
    length answer <= Z.to_nat k.

Lemma search_result_numbers (kb : KnowledgeBase) (query : string)
    (top_k : Z) (t : float) :
  Forall (fun p => is_number (snd p)) (search_result kb query top_k t).
Proof.
  unfold search_result. destruct (index_answer kb query top_k); [|constructor].
  apply Forall_forall. intros p Hp. apply list_elem_of_In in Hp.
  apply List.filter_In in Hp as [_ Hp].
  unfold within_threshold in Hp. now apply leb_numbers in Hp.
Qed.

Lemma all_results_numbers (self : KnowledgeBaseManager) (query : string)
    (top_k : Z) (t : float) :
  Forall (fun p => is_number (snd p)) (all_results self query top_k t).
Proof.
  unfold all_results. induction (knowledge_bases self) as [|kv l IH]; simpl.
  - constructor.
  - apply Forall_app. split; [apply search_result_numbers | exact IH].
Qed.

Lemma search_result_at_most_k (kb : KnowledgeBase) (query : string)
    (top_k : Z) (t : float) :
  answers_at_most_k ->
  length (search_result kb query top_k t) <= Z.to_nat top_k.
Proof.
  intros Hk. unfold search_result, index_answer.
  destruct (vector_store kb) as [vs|]; simpl; [|lia].
  destruct (FAISS_similarity_search_with_score query top_k vs) eqn:E;
    simpl; [|lia].
  apply Hk in E. etransitivity; [apply List.filter_length_le | exact E].
Qed.

Lemma all_results_nil (self : KnowledgeBaseManager) (query : string)
    (top_k : Z) (t : float) :
  answers_at_most_k -> (top_k < 0)%Z -> all_results self query top_k t = [].
Proof.
  intros Hk Hneg. unfold all_results.
  induction (knowledge_bases self) as [|kv l IH]; simpl; [reflexivity|].
  rewrite IH, app_nil_r.
  pose proof (search_result_at_most_k (snd kv) query top_k t Hk) as Hlen.
  destruct (search_result (snd kv) query top_k t); [reflexivity|].
  simpl in Hlen. lia.
Qed.

End RegistrySearch.

Section RegistryClaims.

Context `{Ext : External}.

(** C2: with no name given, the manager searches every collection (in
    the order of the registry), and returns the results of all of them
    put together, in ascending order of distance, cut after the first
    [top_k]; the registry stays as it was.  A count [top_k] below zero
    is covered when the index, asked for [k] neighbours, answers with
    at most [k]. *)
Theorem search_knowledge_all_sorted_top_k (self : KnowledgeBaseManager)
    (query : string) (top_k : Z) (score_threshold : float) (env : Env) :
  (0 <= top_k)%Z \/ answers_at_most_k ->
  let merged := all_results self query top_k score_threshold in
  exists out,
    search_knowledge query None top_k score_threshold self env
    = (Ok out, self,
       mkEnv (fs env) (trace env ++ all_events self query top_k)) /\
    out = take (Z.to_nat top_k) (Py.sort_by snd merged) /\
    Permutation (Py.sort_by snd merged) merged /\
    StronglySorted (le_key snd) (Py.sort_by snd merged) /\
    StronglySorted (le_key snd) out /\
    (Z.of_nat (length out) <= Z.max 0 top_k)%Z.
Proof.
  intros Hk merged. eexists. split.
  { apply search_knowledge_all_run. now left. }
  fold merged.
  assert (StronglySorted (le_key snd) (Py.sort_by snd merged)) as Hsorted.
  { apply sort_by_sorted. apply all_results_numbers. }
  assert (Py.slice_to top_k (Py.sort_by snd merged)
          = take (Z.to_nat top_k) (Py.sort_by snd merged)) as Hslice.
  { unfold Py.slice_to. destruct (0 <=? top_k)%Z eqn:E; [reflexivity|].
    apply Z.leb_gt in E. destruct Hk as [Hk|Hk]; [lia|].
    subst merged. rewrite all_results_nil by assumption. simpl.
    now rewrite !take_nil. }
  rewrite Hslice. split; [reflexivity|].
  split; [apply sort_by_perm|]. split; [exact Hsorted|].
  split; [now apply take_sorted|].
  rewrite length_take. lia.
Qed.

Lemma search_knowledge_unknown_run (self : KnowledgeBaseManager)
    (query name : string) (top_k : Z) (score_threshold : float)
    (env : Env) :
  name <> "" ->
  Py.dict_mem name (knowledge_bases self) = false ->
  search_knowledge query (Some name) top_k score_threshold self env
  = (Ok [], self,
     mkEnv (fs env) (trace env ++ [Log WARNING ("知识库不存在: " +:+ name)])).
Proof.
  intros Hne Hmem. destruct name as [|c name]; [congruence|].
  unfold search_knowledge, bind, get_self. rewrite Hmem. reflexivity.
Qed.

(** C4, as the code has it: a non-empty name that is no key of the
    registry makes [search_knowledge] return the empty list; all it
    does is the [logging.warning] record: no collection is searched,
    the file system and the registry stay as they were. *)
Theorem search_knowledge_unknown_name (self : KnowledgeBaseManager)
    (query name : string) (top_k : Z) (score_threshold : float)
    (env : Env) :
  name <> "" ->
  Py.dict_mem name (knowledge_bases self) = false ->
  exists env',
    search_knowledge query (Some name) top_k score_threshold self env
    = (Ok [], self, env') /\
    fs env' = fs env /\
    trace env'
    = (trace env ++ [Log WARNING ("知识库不存在: " +:+ name)])%list.
Proof.
  intros Hne Hmem. eexists. split.
  - now apply search_knowledge_unknown_run.
  - split; reflexivity.
Qed.

(** A name that is a key selects that collection alone. *)
Lemma search_knowledge_known_name (self : KnowledgeBaseManager)
    (query name : string) (kb : KnowledgeBase) (top_k : Z)
    (score_threshold : float) (env : Env) :
  name <> "" ->
  Py.dict_get name (knowledge_bases self) = Some kb ->
  search_knowledge query (Some name) top_k score_threshold self env
  = (Ok (search_result kb query top_k score_threshold), self,
     mkEnv (fs env) (trace env ++ search_events kb query top_k)).
Proof.
  intros Hne Hget. destruct name as [|c name]; [congruence|].
  unfold search_knowledge, bind, get_self.
  assert (Py.dict_mem (String c name) (knowledge_bases self) = true) as ->
    by (apply dict_mem_get; eauto).
  now apply on_kb_search.
Qed.

End RegistryClaims.

(** ** The small instance, populated *)

Module ToyRun.

Local Open Scope py_scope.

(** The manager is created and two collections are given texts. *)
Definition populate : M (@Globals Toy.external) unit :=
  get_kb_manager ;;
  on_manager (on_kb "NameNodeExpert"
                (add_texts ["check hdfs-site.xml"; "heap"]
                   (Some [Toy.meta "docs" "config";
                          Toy.meta "cases" "memory"]))) ;;
  on_manager (on_kb "YARNExpert" (add_texts ["port already in use"] None)).

Definition globals : @Globals Toy.external :=
  snd (fst (populate (mkGlobals None) Toy.env0)).

Definition env : @Env Toy.external :=
  snd (populate (mkGlobals None) Toy.env0).

Definition manager : @KnowledgeBaseManager Toy.external :=
  match _kb_manager globals with
  | Some mgr => mgr
  | None => mkKnowledgeBaseManager []
  end.

End ToyRun.

Example toy_manager_keys :
  Py.dict_keys (knowledge_bases ToyRun.manager) = default_kbs.
Proof. vm_compute. reflexivity. Qed.

Lemma toy_answers_at_most_k : @answers_at_most_k Toy.external.
Proof.
  intros query k vs answer. simpl. unfold Toy.similarity_search_with_score.
  destruct (0 <? k)%Z; [|discriminate].
  intros H. injection H as <-. rewrite length_take. lia.
Qed.

(** C2 on the small instance: the three documents of two collections
    lie at distances 1, 256 and 1 of the query; the two at distance 1
    are returned, the one of the earlier collection first. *)
Lemma search_knowledge_all_sorted_top_k_witness :
  exists env',
    search_knowledge "a query of 20 bytes." None 2 (-30) ToyRun.manager
      ToyRun.env
    = (Ok [(Toy.doc1, 1%float); (Toy.doc3, 1%float)], ToyRun.manager, env').
Proof.
  destruct (search_knowledge_all_sorted_top_k ToyRun.manager
              "a query of 20 bytes." 2 (-30) ToyRun.env)
    as (out & Hrun & Hout & _).
  - left. lia.
  - assert (out = [(Toy.doc1, 1%float); (Toy.doc3, 1%float)]) as <-
      by (rewrite Hout; vm_compute; reflexivity).
    eexists. exact Hrun.
Defined.

(** C4 on the small instance. *)
Lemma search_knowledge_unknown_name_witness :
  exists env',
    search_knowledge "heap" (Some "ZooKeeperExpert") 3 0.4 ToyRun.manager
      ToyRun.env
    = (Ok [], ToyRun.manager, env').
Proof.
  destruct (search_knowledge_unknown_name ToyRun.manager "heap"
              "ZooKeeperExpert" 3 0.4 ToyRun.env) as (env' & Hrun & _).
  - discriminate.
  - vm_compute. reflexivity.
  - exists env'. exact Hrun.
Defined.

(** C4 as stated fails on the empty name: it is given, it is no key of
    the registry, and the call searches every collection and returns
    what it finds. *)
Lemma search_knowledge_empty_name_searches_all :
  Py.dict_mem "" (knowledge_bases ToyRun.manager) = false /\
  exists env',
    search_knowledge "heap" (Some "") 3 0.4 ToyRun.manager ToyRun.env
    = (Ok [(Toy.doc2, 0%float)], ToyRun.manager, env') /\
    trace env' = (trace ToyRun.env ++
                    map (fun name => SimilaritySearch name "heap" 3)
                        default_kbs)%list.
Proof.
  split; [vm_compute; reflexivity|].
  eexists. split.
  - rewrite search_knowledge_all_run by (now right).
    assert (Py.slice_to 3
              (Py.sort_by snd (all_results ToyRun.manager "heap" 3 0.4))
            = [(Toy.doc2, 0%float)]) as -> by (vm_compute; reflexivity).
    reflexivity.
  - vm_compute. reflexivity.
Qed.

(** ** The text returned by search_diagnosis_knowledge *)

Lemma append_assoc (a b c : string) : (a +:+ b) +:+ c = a +:+ b +:+ c.
Proof.
  induction a as [|x a IH]; [reflexivity|].
  change (String x ((a +:+ b) +:+ c) = String x (a +:+ b +:+ c)).
  f_equal. exact IH.
Qed.

Lemma append_empty_r (a : string) : a +:+ "" = a.
Proof.
  induction a as [|x a IH]; [reflexivity|].
  change (String x (a +:+ "") = String x a). f_equal. exact IH.
Qed.

Section Rendering.

(** The sentence returned when nothing is found. *)
Definition no_results_sentence (query : string) : string :=
  "未找到与 '" +:+ query +:+ "' 相关的知识".

(** The header: it states the number of results. *)
Definition results_header (count : nat) : string :=
  "找到 " +:+ Py.str_nat count +:+ " 条相关知识：" +:+ Py.NL +:+ Py.NL.

(** The line of a metadata key, when the key is present. *)
Definition metadata_line (label key : string) (doc : Document) : string :=
  match metadata doc !! key with
  | Some v => label +:+ v +:+ Py.NL
  | None => ""
  end.

(** The text of the result at position [idx] (counted from 1): the
    index, the similarity [1 - distance], computed in float32 as the
    distance is, with two decimals, the source and desc lines, the raw
    text. *)
Definition result_text (idx : nat) (result : Document * float) : string :=
  "[知识 " +:+ Py.str_nat idx +:+ "] (相似度: "
    +:+ Py.format_2f (Np.sub32 1 (snd result)) +:+ ")" +:+ Py.NL
    +:+ metadata_line "来源: " "source" (fst result)
    +:+ metadata_line "描述: " "desc" (fst result)
    +:+ "内容: " +:+ page_content (fst result) +:+ Py.NL +:+ Py.NL.

(** The header followed by the texts of the results, in their order. *)
Definition rendering (results : list (Document * float)) : string :=
  results_header (length results)
    +:+ foldr String.append ""
          (zip_with result_text (seq 1 (length results)) results).

Lemma append_result_text (acc : string) (idx : nat)
    (result : Document * float) :
  append_result acc (idx, result) = acc +:+ result_text idx result.
Proof.
  destruct result as [doc score].
  unfold append_result, result_text, metadata_line. simpl.
  destruct (bool_decide (metadata doc = ∅)) eqn:E; simpl.
  - apply bool_decide_eq_true in E. rewrite E, !lookup_empty. simpl.
    now rewrite !append_assoc.
  - destruct (metadata doc !! "source"), (metadata doc !! "desc"); simpl;
      now rewrite !append_assoc.
Qed.

Lemma fold_append_result (results : list (Document * float)) (start : nat)
    (acc : string) :
  fold_left append_result (Py.enumerate start results) acc
  = acc +:+ foldr String.append ""
              (zip_with result_text (seq start (length results)) results).
Proof.
  revert start acc. induction results as [|r results IH]; intros start acc;
    cbn [fold_left Py.enumerate length seq zip_with foldr].
  - now rewrite append_empty_r.
  - rewrite IH, append_result_text. now rewrite append_assoc.
Qed.

Lemma format_results_rendering (query : string)
    (results : list (Document * float)) :
  (format_results query results = no_results_sentence query
   <-> results = []) /\
  (results <> [] -> format_results query results = rendering results).
Proof.
  destruct results as [|r results].
  - split; [split; reflexivity | congruence].
  - assert (format_results query (r :: results) = rendering (r :: results))
      as Hr.
    { unfold format_results, rendering. rewrite fold_append_result.
      unfold results_header. now rewrite !append_assoc. }
    split; [|intros _; exact Hr].
    split; [|discriminate].
    rewrite Hr. unfold rendering, results_header, no_results_sentence.
    simpl. discriminate.
Qed.

End Rendering.

(** ** What the methods keep true of the object they run on *)

Section Keeps.

Context `{Ext : External}.

(** [m] keeps [P]: the object satisfies [P] after [m], however [m]
    ends, when it did before. *)
Definition keeps {S A} (P : S -> Prop) (m : M S A) : Prop :=
  forall s env, P s -> P (snd (fst (m s env))).

Lemma keeps_bind {S A B} (P : S -> Prop) (m : M S A) (k : A -> M S B) :
  keeps P m -> (forall a, keeps P (k a)) -> keeps P (bind m k).
Proof.
  intros Hm Hk s env Hs. unfold bind. specialize (Hm s env Hs).
  destruct (m s env) as [[[a|e] s'] env']; simpl in *; [|exact Hm].
  now apply Hk.
Qed.

Lemma keeps_try_except {S A} (P : S -> Prop) (m : M S A)
    (h : exn -> M S A) :
  keeps P m -> (forall e, keeps P (h e)) -> keeps P (try_except m h).
Proof.
  intros Hm Hh s env Hs. unfold try_except. specialize (Hm s env Hs).
  destruct (m s env) as [[[a|e] s'] env']; simpl in *; [exact Hm|].
  now apply Hh.
Qed.

Lemma keeps_ret {S A} (P : S -> Prop) (a : A) : keeps P (ret a).
Proof. intros s env Hs. exact Hs. Qed.

Lemma keeps_get_self {S} (P : S -> Prop) : keeps P get_self.
Proof. intros s env Hs. exact Hs. Qed.

Lemma keeps_emit {S} (P : S -> Prop) (ev : Event) : keeps P (emit ev).
Proof. intros s env Hs. exact Hs. Qed.

Lemma keeps_logging {S} (P : S -> Prop) (lvl : Level) (msg : string) :
  keeps P (logging lvl msg).
Proof. intros s env Hs. exact Hs. Qed.

Lemma keeps_fs_call {S} (P : S -> Prop) (f : FS -> Res unit * FS) :
  keeps P (fs_call f).
Proof.
  intros s env Hs. unfold fs_call. now destruct (f (fs env)).
Qed.

(** The collection keeps its name and has a store. *)
Definition kb_named (name : string) (kb : KnowledgeBase) : Prop :=
  kb_name kb = name /\ is_Some (vector_store kb).

Lemma keeps_store_call (name attr : string) (ev : Event)
    (f : VS -> Res unit * VS) :
  keeps (kb_named name) (store_call attr ev f).
Proof.
  intros kb env [Hn [vs Hs]]. unfold store_call. rewrite Hs.
  destruct (f vs) as [r vs']. simpl. split; [exact Hn | eauto].
Qed.

Lemma keeps_store_save_local (name path : string) :
  keeps (kb_named name) (store_save_local path).
Proof.
  intros kb env Hkb. unfold store_save_local.
  destruct (vector_store kb) as [vs|]; simpl; [|exact Hkb].
  now destruct (FAISS_save_local path vs (fs env)).
Qed.

Lemma keeps_save (name : string) : keeps (kb_named name) save.
Proof.
  unfold save. apply keeps_bind; [apply keeps_get_self|]. intros self.
  apply keeps_bind; [apply keeps_emit|]. intros _.
  apply keeps_bind; [apply keeps_fs_call|]. intros _.
  apply keeps_bind; [apply keeps_store_save_local|]. intros _.
  apply keeps_logging.
Qed.

Lemma keeps_add_documents (name : string) (documents : list Document) :
  keeps (kb_named name) (add_documents documents).
Proof.
  unfold add_documents. destruct documents; [apply keeps_ret|].
  apply keeps_bind; [apply keeps_get_self|]. intros self.
  apply keeps_bind; [apply keeps_store_call|]. intros _.
  apply keeps_save.
Qed.

Lemma keeps_add_texts (name : string) (texts : list string)
    (metadatas : option (list (gmap string string))) :
  keeps (kb_named name) (add_texts texts metadatas).
Proof.
  unfold add_texts. destruct texts; [apply keeps_ret|].
  apply keeps_add_documents.
Qed.

Lemma keeps_search (name query : string) (top_k : Z) (t : float) :
  keeps (kb_named name) (search query top_k t).
Proof. intros kb env Hkb. rewrite search_run. exact Hkb. Qed.

(** [m] leaves the object as it is. *)
Definition readonly {S A} (m : M S A) : Prop :=
  forall s env, snd (fst (m s env)) = s.

Lemma keeps_readonly {S A} (P : S -> Prop) (m : M S A) :
  readonly m -> keeps P m.
Proof. intros Hm s env Hs. now rewrite Hm. Qed.

Lemma readonly_fs_read {S A} (f : FS -> Res A) : readonly (@fs_read _ S A f).
Proof. intros s env. reflexivity. Qed.

Lemma readonly_fs_test {S} (f : FS -> bool) : readonly (@fs_test _ S f).
Proof. intros s env. reflexivity. Qed.

Lemma readonly_ext_new {S A} (r : Res A) : readonly (@ext_new _ S A r).
Proof. intros s env. reflexivity. Qed.

Lemma readonly_new_SimpleEmbeddings {S} (name : string) :
  readonly (@new_SimpleEmbeddings _ S name).
Proof.
  intros s env. unfold new_SimpleEmbeddings, construct.
  match goal with
  | |- context [match ?init ?blank env with _ => _ end] =>
      now destruct (init blank env) as [[[[]|e] obj] env']
  end.
Qed.

(** When [m] returns from an object satisfying [P], its value and the
    object satisfy [Q]. *)
Definition returns {S A} (P : S -> Prop) (m : M S A) (Q : A -> S -> Prop)
  : Prop :=
  forall s env a s' env', P s -> m s env = (Ok a, s', env') -> Q a s'.

Lemma returns_bind {S A B} (P : S -> Prop) (m : M S A) (k : A -> M S B)
    (Q : A -> S -> Prop) (R : B -> S -> Prop) :
  returns P m Q -> (forall a, returns (Q a) (k a) R) ->
  returns P (bind m k) R.
Proof.
  intros Hm Hk s env b s' env' Hs. unfold bind.
  destruct (m s env) as [[[a|e] s1] env1] eqn:E; [|discriminate].
  intros H. eapply Hk; [|exact H]. eapply Hm; eassumption.
Qed.

Lemma returns_after {S A B} (P : S -> Prop) (m : M S A) (k : A -> M S B)
    (R : B -> S -> Prop) :
  (forall a, returns (fun _ => True) (k a) R) -> returns P (bind m k) R.
Proof.
  intros Hk. apply (returns_bind P m k (fun _ _ => True)); [|exact Hk].
  intros s env a s' env' _ _. exact I.
Qed.

Definition has_name (name : string) (kb : KnowledgeBase) : Prop :=
  kb_name kb = name.

Lemma keeps_name_set_vector_store (name : string) (v : option VS) :
  keeps (has_name name) (set_vector_store v).
Proof. intros kb env Hn. exact Hn. Qed.

Lemma keeps_name_store_call (name attr : string) (ev : Event)
    (f : VS -> Res unit * VS) :
  keeps (has_name name) (store_call attr ev f).
Proof.
  intros kb env Hn. unfold store_call.
  destruct (vector_store kb) as [vs|]; simpl; [|exact Hn].
  now destruct (f vs).
Qed.

Lemma keeps_name_load_or_create (name : string) :
  keeps (has_name name) _load_or_create_vector_store.
Proof.
  unfold _load_or_create_vector_store.
  apply keeps_bind; [apply keeps_get_self|]. intros self.
  apply keeps_bind; [apply keeps_readonly, readonly_fs_test|]. intros found.
  apply keeps_bind.
  { destruct found; [|apply keeps_ret].
    apply keeps_bind; [apply keeps_readonly, readonly_fs_read|].
    intros names. apply keeps_ret. }
  intros listed. apply keeps_bind.
  { destruct listed; [|apply keeps_ret]. apply keeps_try_except.
    - apply keeps_bind; [apply keeps_emit|]. intros _.
      apply keeps_bind; [apply keeps_readonly, readonly_fs_read|].
      intros vs. apply keeps_bind; [apply keeps_name_set_vector_store|].
      intros _. apply keeps_logging.
    - intros e. apply keeps_bind; [apply keeps_logging|]. intros _.
      apply keeps_name_set_vector_store. }
  intros _. apply keeps_bind; [apply keeps_get_self|]. intros self'.
  destruct (vector_store self'); [apply keeps_ret|].
  apply keeps_bind; [apply keeps_emit|]. intros _.
  apply keeps_bind; [apply keeps_readonly, readonly_ext_new|]. intros vs.
  apply keeps_bind; [apply keeps_name_set_vector_store|]. intros _.
  apply keeps_name_store_call.
Qed.

Lemma returns_load_or_create :
  returns (fun _ => True) _load_or_create_vector_store
    (fun _ kb => is_Some (vector_store kb)).
Proof.
  unfold _load_or_create_vector_store.
  do 4 (apply returns_after; intros ?).
  intros kb env [] kb' env' _.
  unfold bind, get_self, emit, ext_new, set_vector_store, store_call, ret.
  destruct (vector_store kb) as [vs|] eqn:E; simpl.
  - intros H. injection H as <- _. rewrite E. eauto.
  - destruct (FAISS_from_texts ["初始化"]) as [vs|e]; simpl; [|discriminate].
    destruct (FAISS_delete 0 vs) as [[[]|e] vs']; [|discriminate].
    intros H. injection H as <- _. simpl. eauto.
Qed.

(** A constructed collection has the name it was given, and a store. *)
Lemma new_KnowledgeBase_named {S} (name : string) (path : option string)
    (s : S) (env : Env) (kb : KnowledgeBase) (s' : S) (env' : Env) :
  new_KnowledgeBase name path s env = (Ok kb, s', env') ->
  kb_named name kb /\ s' = s.
Proof.
  unfold new_KnowledgeBase, construct.
  match goal with
  | |- context [match ?m ?blank env with _ => _ end] =>
      set (init := m); set (obj := blank)
  end.
  assert (keeps (has_name name) init) as Hkeep.
  { subst init.
    apply keeps_bind; [apply keeps_get_self|]. intros self.
    apply keeps_bind; [apply keeps_emit|]. intros _.
    apply keeps_bind; [apply keeps_fs_call|]. intros _.
    apply keeps_bind;
      [apply keeps_readonly, readonly_new_SimpleEmbeddings|]. intros _.
    apply keeps_bind; [apply keeps_name_set_vector_store|]. intros _.
    apply keeps_name_load_or_create. }
  assert (returns (fun _ => True) init
            (fun _ kb => is_Some (vector_store kb))) as Hret.
  { subst init. do 5 (apply returns_after; intros ?).
    apply returns_load_or_create. }
  specialize (Hkeep obj env eq_refl). specialize (Hret obj env).
  destruct (init obj env) as [[[[]|e] kb'] env1]; [|discriminate].
  intros H. injection H as <- <- _. simpl in Hkeep.
  split; [|reflexivity]. split; [exact Hkeep|].
  eapply Hret; [exact I | reflexivity].
Qed.

End Keeps.

(** ** The invariant of the registry *)

Section RegistryInvariant.

Context `{Ext : External}.

Lemma dict_get_Forall {V} (P : string * V -> Prop) (k : string) (v : V)
    (d : Py.dict V) :
  Forall P d -> Py.dict_get k d = Some v -> P (k, v).
Proof.
  induction 1 as [|[k' v'] d Hkv Hd IH]; simpl; [discriminate|].
  destruct (String.eqb_spec k' k) as [->|Hne]; [|exact IH].
  intros H. injection H as <-. exact Hkv.
Qed.

Lemma dict_set_Forall {V} (P : string * V -> Prop) (k : string) (v : V)
    (d : Py.dict V) :
  Forall P d -> P (k, v) -> Forall P (Py.dict_set k v d).
Proof.
  intros Hd Hkv. induction Hd as [|[k' v'] d Hkv' Hd IH]; simpl.
  - now constructor.
  - destruct (String.eqb_spec k' k) as [->|Hne]; now constructor.
Qed.

Lemma dict_get_set_same {V} (k : string) (v : V) (d : Py.dict V) :
  Py.dict_get k (Py.dict_set k v d) = Some v.
Proof.
  induction d as [|[k' v'] d IH]; simpl.
  - now rewrite String.eqb_refl.
  - destruct (String.eqb k' k) eqn:E; simpl; now rewrite E.
Qed.

Lemma dict_mem_set {V} (k k' : string) (v : V) (d : Py.dict V) :
  Py.dict_mem k' (Py.dict_set k v d)
  = Py.dict_mem k' d || String.eqb k k'.
Proof.
  unfold Py.dict_mem. induction d as [|[k0 v0] d IH]; simpl.
  - now rewrite orb_false_r.
  - destruct (String.eqb_spec k0 k) as [->|Hne]; simpl.
    + destruct (String.eqb k k'); simpl; [reflexivity|].
      now rewrite orb_false_r.
    + rewrite IH. now rewrite orb_assoc.
Qed.

Lemma dict_keys_set_known {V} (k : string) (v : V) (d : Py.dict V) :
  Py.dict_mem k d = true ->
  Py.dict_keys (Py.dict_set k v d) = Py.dict_keys d.
Proof.
  unfold Py.dict_mem, Py.dict_keys. induction d as [|[k0 v0] d IH]; simpl;
    [discriminate|].
  destruct (String.eqb k0 k); simpl; [reflexivity|].
  intros H. now rewrite IH.
Qed.

(** Every collection is registered under its own name and has a
    store. *)
Definition registry_ok (mgr : KnowledgeBaseManager) : Prop :=
  Forall (fun kv => kb_named (fst kv) (snd kv)) (knowledge_bases mgr).

Definition has_key (name : string) (mgr : KnowledgeBaseManager) : Prop :=
  Py.dict_mem name (knowledge_bases mgr) = true.

(** The invariant, for a list of names that have to be keys. *)
Definition registry_inv (required : list string) (mgr : KnowledgeBaseManager)
  : Prop :=
  registry_ok mgr /\ Forall (fun name => has_key name mgr) required.

Lemma registry_inv_set (required : list string) (name : string)
    (kb : KnowledgeBase) (mgr : KnowledgeBaseManager) :
  registry_inv required mgr -> kb_named name kb ->
  registry_inv required
    (mkKnowledgeBaseManager (Py.dict_set name kb (knowledge_bases mgr))).
Proof.
  intros [Hok Hreq] Hkb. split.
  - unfold registry_ok. simpl. now apply dict_set_Forall.
  - eapply Forall_impl; [exact Hreq|]. intros n Hn. unfold has_key in *.
    simpl. rewrite dict_mem_set, Hn. reflexivity.
Qed.

Lemma keeps_on_kb {A} (required : list string) (name : string)
    (m : M KnowledgeBase A) :
  keeps (kb_named name) m -> keeps (registry_inv required) (on_kb name m).
Proof.
  intros Hm mgr env Hinv. unfold on_kb.
  destruct (Py.dict_get name (knowledge_bases mgr)) as [kb|] eqn:E;
    [|exact Hinv].
  assert (kb_named name kb) as Hkb.
  { destruct Hinv as [Hok _].
    exact (dict_get_Forall _ name kb _ Hok E). }
  specialize (Hm kb env Hkb).
  destruct (m kb env) as [[r kb'] env']. simpl in *.
  now apply registry_inv_set.
Qed.

Lemma readonly_construct {S T} (blank : T) (init : M T unit) :
  readonly (@construct _ S T blank init).
Proof.
  intros s env. unfold construct.
  now destruct (init blank env) as [[[[]|e] obj] env'].
Qed.

Lemma readonly_new_KnowledgeBase {S} (name : string) (path : option string) :
  readonly (@new_KnowledgeBase _ S name path).
Proof. unfold new_KnowledgeBase. apply readonly_construct. Qed.

Lemma keeps_get_or_create_kb (required : list string) (name : string) :
  keeps (registry_inv required) (get_or_create_kb name).
Proof.
  intros mgr env Hinv. unfold get_or_create_kb.
  unfold bind at 1. unfold get_self at 1.
  refine (keeps_bind _ _ _ _ _ mgr env Hinv);
    [|intros _; apply keeps_on_kb, keeps_get_self].
  destruct (Py.dict_mem name (knowledge_bases mgr)); simpl;
    [apply keeps_ret|].
  intros mgr' env' Hinv'. unfold bind, set_self.
  pose proof (readonly_new_KnowledgeBase name None mgr' env') as Hro.
  destruct (new_KnowledgeBase name None mgr' env') as [[[kb|e] s'] env1]
    eqn:Hnew; simpl.
  - apply new_KnowledgeBase_named in Hnew as [Hkb _].
    now apply registry_inv_set.
  - simpl in Hro. now subst.
Qed.

Lemma returns_get_or_create_kb (name : string) :
  returns (fun _ => True) (get_or_create_kb name)
    (fun _ mgr => has_key name mgr).
Proof.
  intros mgr env kb mgr' env' _. unfold get_or_create_kb.
  unfold bind at 1. unfold get_self at 1. unfold bind at 1.
  destruct (Py.dict_mem name (knowledge_bases mgr)) eqn:Hmem; simpl.
  - unfold ret, on_kb, get_self.
    destruct (Py.dict_get name (knowledge_bases mgr)) as [kb0|] eqn:Hget;
      [|discriminate].
    intros H. injection H as _ <- _. unfold has_key. simpl.
    rewrite dict_mem_set, Hmem. reflexivity.
  - unfold bind, set_self.
    destruct (new_KnowledgeBase name None mgr env) as [[[kb0|e] s'] env1];
      [|discriminate].
    unfold on_kb, get_self. simpl. rewrite dict_get_set_same.
    intros H. injection H as _ <- _. unfold has_key. simpl.
    rewrite !dict_mem_set, String.eqb_refl. now rewrite !orb_true_r.
Qed.

Lemma keeps_for_acc {S A B} (P : S -> Prop) (l : list A)
    (body : A -> B -> M S B) (acc : B) :
  (forall x b, keeps P (body x b)) -> keeps P (for_acc l body acc).
Proof.
  intros Hbody. revert acc. induction l as [|x l IH]; intros acc; simpl.
  - apply keeps_ret.
  - apply keeps_bind; [apply Hbody | exact IH].
Qed.

Lemma returns_init_default_knowledge_bases (names : list string) :
  returns registry_ok
    (for_acc names (fun name _ => bind (get_or_create_kb name)
                                    (fun _ => ret tt)) tt)
    (fun _ mgr => registry_inv names mgr).
Proof.
  induction names as [|name names IH]; simpl.
  - intros mgr env [] mgr' env' Hok H. injection H as <- _.
    split; [exact Hok | constructor].
  - intros mgr env [] mgr' env' Hok. unfold bind at 1.
    destruct (bind (get_or_create_kb name) (fun _ => ret tt) mgr env)
      as [[[[]|e] mgr1] env1] eqn:Hfirst; [|discriminate].
    intros Hrest.
    assert (registry_inv [name] mgr1) as [Hok1 Hkey1].
    { pose proof (keeps_bind (registry_inv []) (get_or_create_kb name)
                    (fun _ => ret tt) (keeps_get_or_create_kb [] name)
                    (fun _ => keeps_ret _ tt) mgr env) as Hk.
      rewrite Hfirst in Hk. simpl in Hk.
      destruct Hk as [Hok1 _]; [split; [exact Hok|constructor]|].
      split; [exact Hok1|]. constructor; [|constructor].
      unfold bind in Hfirst.
      destruct (get_or_create_kb name mgr env) as [[[kb|e] m2] e2] eqn:Hg;
        [|discriminate].
      injection Hfirst as <- _.
      exact (returns_get_or_create_kb name mgr env kb m2 e2 I Hg). }
    pose proof (IH mgr1 env1 tt mgr' env' Hok1 Hrest) as [Hok' Hkeys'].
    split; [exact Hok'|]. constructor; [|exact Hkeys'].
    pose proof (keeps_for_acc (registry_inv [name]) names
                  (fun name _ => bind (get_or_create_kb name)
                                   (fun _ => ret tt)) tt) as Hk.
    specialize (Hk (fun x _ => keeps_bind _ _ _
                                 (keeps_get_or_create_kb [name] x)
                                 (fun _ => keeps_ret _ tt))).
    specialize (Hk mgr1 env1 (conj Hok1 Hkey1)).
    rewrite Hrest in Hk. simpl in Hk. destruct Hk as [_ Hk].
    now apply Forall_cons in Hk as [Hk _].
Qed.

(** A constructed manager holds the five default collections. *)
Lemma new_KnowledgeBaseManager_ok {S} (s : S) (env : Env)
    (mgr : KnowledgeBaseManager) (s' : S) (env' : Env) :
  new_KnowledgeBaseManager s env = (Ok mgr, s', env') ->
  registry_inv default_kbs mgr /\ s' = s.
Proof.
  unfold new_KnowledgeBaseManager, construct, _init_default_knowledge_bases.
  pose proof (returns_init_default_knowledge_bases default_kbs
                (mkKnowledgeBaseManager []) env) as Hret.
  destruct (for_acc default_kbs _ tt (mkKnowledgeBaseManager []) env)
    as [[[[]|e] mgr1] env1]; [|discriminate].
  intros H. injection H as <- <- _. split; [|reflexivity].
  eapply Hret; [constructor | reflexivity].
Qed.

End RegistryInvariant.

(** ** What the methods add to the trace *)

Section Emits.

Context `{Ext : External}.

(** [m] emits [E]: it only appends to the trace, and only events
    satisfying [E], however it ends. *)
Definition emits {S A} (E : Event -> Prop) (m : M S A) : Prop :=
  forall s env, exists evs,
    trace (snd (m s env)) = (trace env ++ evs)%list /\ Forall E evs.

Lemma emits_silent {S A} (E : Event -> Prop) (m : M S A) :
  (forall s env, trace (snd (m s env)) = trace env) -> emits E m.
Proof.
  intros H s env. exists []. rewrite H, app_nil_r. split; [reflexivity|].
  constructor.
Qed.

Lemma emits_bind {S A B} (E : Event -> Prop) (m : M S A) (k : A -> M S B) :
  emits E m -> (forall a, emits E (k a)) -> emits E (bind m k).
Proof.
  intros Hm Hk s env. unfold bind. destruct (Hm s env) as (evs & Ht & He).
  destruct (m s env) as [[[a|e] s1] env1]; simpl in *; [|eauto].
  destruct (Hk a s1 env1) as (evs' & Ht' & He').
  exists (evs ++ evs')%list. rewrite Ht', Ht, app_assoc.
  split; [reflexivity|]. now apply Forall_app.
Qed.

Lemma emits_try_except {S A} (E : Event -> Prop) (m : M S A)
    (h : exn -> M S A) :
  emits E m -> (forall e, emits E (h e)) -> emits E (try_except m h).
Proof.
  intros Hm Hh s env. unfold try_except.
  destruct (Hm s env) as (evs & Ht & He).
  destruct (m s env) as [[[a|e] s1] env1]; simpl in *; [eauto|].
  destruct (Hh e s1 env1) as (evs' & Ht' & He').
  exists (evs ++ evs')%list. rewrite Ht', Ht, app_assoc.
  split; [reflexivity|]. now apply Forall_app.
Qed.

Lemma emits_emit {S} (E : Event -> Prop) (ev : Event) :
  E ev -> emits E (@emit _ S ev).
Proof.
  intros Hev s env. exists [ev]. split; [reflexivity|]. now repeat constructor.
Qed.

Lemma emits_fs_call {S} (E : Event -> Prop) (f : FS -> Res unit * FS) :
  emits E (@fs_call _ S f).
Proof.
  apply emits_silent. intros s env. unfold fs_call.
  now destruct (f (fs env)).
Qed.

Lemma emits_store_call (E : Event -> Prop) (attr : string) (ev : Event)
    (f : VS -> Res unit * VS) :
  E ev -> emits E (store_call attr ev f).
Proof.
  intros Hev kb env. unfold store_call.
  destruct (vector_store kb) as [vs|]; simpl.
  - destruct (f vs) as [r vs']. exists [ev].
    split; [reflexivity|]. now repeat constructor.
  - exists []. rewrite app_nil_r. split; [reflexivity|constructor].
Qed.

Lemma emits_store_save_local (E : Event -> Prop) (path : string) :
  (forall name, E (SaveLocal name path)) -> emits E (store_save_local path).
Proof.
  intros Hev kb env. unfold store_save_local.
  destruct (vector_store kb) as [vs|]; simpl.
  - destruct (FAISS_save_local path vs (fs env)) as [r fs'].
    eexists [_]. split; [reflexivity|]. now repeat constructor.
  - exists []. rewrite app_nil_r. split; [reflexivity|constructor].
Qed.

Lemma emits_construct {S T} (E : Event -> Prop) (blank : T)
    (init : M T unit) :
  emits E init -> emits E (@construct _ S T blank init).
Proof.
  intros Hinit s env. unfold construct.
  destruct (Hinit blank env) as (evs & Ht & He).
  destruct (init blank env) as [[[[]|e] obj] env']; simpl in *; eauto.
Qed.

Lemma emits_for_acc {S A B} (E : Event -> Prop) (l : list A)
    (body : A -> B -> M S B) (acc : B) :
  (forall x b, emits E (body x b)) -> emits E (for_acc l body acc).
Proof.
  intros Hbody. revert acc. induction l as [|x l IH]; intros acc; simpl.
  - now apply emits_silent.
  - apply emits_bind; [apply Hbody | exact IH].
Qed.

Lemma emits_on_kb {A} (E : Event -> Prop) (name : string)
    (m : M KnowledgeBase A) :
  emits E m -> emits E (on_kb name m).
Proof.
  intros Hm mgr env. unfold on_kb.
  destruct (Py.dict_get name (knowledge_bases mgr)) as [kb|]; simpl.
  - destruct (Hm kb env) as (evs & Ht & He).
    destruct (m kb env) as [[r kb'] env']. simpl in *. eauto.
  - exists []. rewrite app_nil_r. split; [reflexivity|constructor].
Qed.

(** An event of the construction of a collection or of a save: no
    search of a store, and no warning about an unknown name. *)
Definition quiet (ev : Event) : Prop :=
  match ev with
  | SimilaritySearch _ _ _ => False
  | Log WARNING msg => forall name, msg <> "知识库不存在: " +:+ name
  | _ => True
  end.

Lemma quiet_load_warning (e : string) :
  quiet (Log WARNING ("加载向量存储失败: " +:+ e +:+ "，将创建新的")).
Proof. intros name H. cbv [String.append] in H. discriminate. Qed.

Lemma quiet_model_warning (e : string) :
  quiet (Log WARNING ("加载sentence-transformer失败: " +:+ e +:+ "，使用简化版")).
Proof. intros name H. cbv [String.append] in H. discriminate. Qed.

Lemma emits_fs_new {S A} (E : Event -> Prop) (f : FS -> Res A * FS) :
  emits E (@fs_new _ S A f).
Proof.
  apply emits_silent. intros s env. unfold fs_new.
  now destruct (f (fs env)).
Qed.

(** All the constructor of [SimpleEmbeddings] can leave in the trace is
    the warning of a failed load. *)
Lemma emits_new_SimpleEmbeddings {S} (E : Event -> Prop) (name : string) :
  (forall e,
     E (Log WARNING ("加载sentence-transformer失败: " +:+ e +:+ "，使用简化版"))) ->
  emits E (@new_SimpleEmbeddings _ S name).
Proof.
  intros Hwarn. unfold new_SimpleEmbeddings. apply emits_construct.
  destruct SENTENCE_TRANSFORMER_AVAILABLE; [|now apply emits_silent].
  apply emits_try_except.
  - apply emits_bind; [now apply emits_silent|]. intros found.
    destruct found;
      (apply emits_bind; [apply emits_fs_new|]; intros m;
       now apply emits_silent).
  - intros e. apply emits_bind; [|intros _; now apply emits_silent].
    apply emits_emit, Hwarn.
Qed.

Lemma emits_load_or_create : emits quiet _load_or_create_vector_store.
Proof.
  unfold _load_or_create_vector_store.
  apply emits_bind; [now apply emits_silent|]. intros self.
  apply emits_bind; [now apply emits_silent|]. intros found.
  apply emits_bind.
  { destruct found; [|now apply emits_silent].
    apply emits_bind; [now apply emits_silent|]. intros names.
    now apply emits_silent. }
  intros listed. apply emits_bind.
  { destruct listed; [|now apply emits_silent]. apply emits_try_except.
    - apply emits_bind; [now apply emits_emit|]. intros _.
      apply emits_bind; [now apply emits_silent|]. intros vs.
      apply emits_bind; [now apply emits_silent|]. intros _.
      now apply emits_emit.
    - intros e. apply emits_bind; [|intros _; now apply emits_silent].
      apply emits_emit, quiet_load_warning. }
  intros _. apply emits_bind; [now apply emits_silent|]. intros self'.
  destruct (vector_store self'); [now apply emits_silent|].
  apply emits_bind; [now apply emits_emit|]. intros _.
  apply emits_bind; [now apply emits_silent|]. intros vs.
  apply emits_bind; [now apply emits_silent|]. intros _.
  now apply emits_store_call.
Qed.

Lemma emits_new_KnowledgeBase {S} (name : string) (path : option string) :
  emits quiet (@new_KnowledgeBase _ S name path).
Proof.
  unfold new_KnowledgeBase. apply emits_construct.
  apply emits_bind; [now apply emits_silent|]. intros self.
  apply emits_bind; [now apply emits_emit|]. intros _.
  apply emits_bind; [apply emits_fs_call|]. intros _.
  apply emits_bind;
    [apply emits_new_SimpleEmbeddings, quiet_model_warning|]. intros _.
  apply emits_bind; [now apply emits_silent|]. intros _.
  apply emits_load_or_create.
Qed.

Lemma emits_get_or_create_kb (name : string) :
  emits quiet (get_or_create_kb name).
Proof.
  unfold get_or_create_kb.
  apply emits_bind; [now apply emits_silent|]. intros self.
  apply emits_bind; [|intros _; apply emits_on_kb; now apply emits_silent].
  destruct (negb _); [|now apply emits_silent].
  apply emits_bind; [apply emits_new_KnowledgeBase|]. intros kb.
  now apply emits_silent.
Qed.

Lemma emits_new_KnowledgeBaseManager {S} :
  emits quiet (@new_KnowledgeBaseManager _ S).
Proof.
  unfold new_KnowledgeBaseManager. apply emits_construct.
  unfold _init_default_knowledge_bases. apply emits_for_acc.
  intros name _. apply emits_bind; [apply emits_get_or_create_kb|].
  intros _. now apply emits_silent.
Qed.

End Emits.

(** ** The entry point *)

Section EntryPoint.

Context `{Ext : External}.
Local Open Scope py_scope.

(** The state of the module is sound: the manager, once it exists,
    holds the default collections, each under its name and with a
    store. *)
Definition globals_ok (g : Globals) : Prop :=
  match _kb_manager g with
  | None => True
  | Some mgr => registry_inv default_kbs mgr
  end.

Lemma get_kb_manager_some (g : Globals) (mgr : KnowledgeBaseManager)
    (env : Env) :
  _kb_manager g = Some mgr -> get_kb_manager g env = (Ok tt, g, env).
Proof.
  intros H. unfold get_kb_manager, bind, get_self. now rewrite H.
Qed.

Lemma get_kb_manager_run (g : Globals) (env : Env) :
  globals_ok g ->
  match get_kb_manager g env with
  | (Ok _, g', env') =>
      exists mgr, g' = mkGlobals (Some mgr) /\ registry_inv default_kbs mgr
  | (Raise _, g', env') => g' = g /\ _kb_manager g = None
  end.
Proof.
  intros Hg. destruct g as [[mgr|]].
  - rewrite (get_kb_manager_some _ mgr) by reflexivity. eauto.
  - unfold get_kb_manager, bind, get_self, set_self. simpl.
    pose proof (@readonly_construct _ Globals) as Hro.
    destruct (new_KnowledgeBaseManager (mkGlobals None) env)
      as [[[mgr|e] g'] env'] eqn:Hnew.
    + apply new_KnowledgeBaseManager_ok in Hnew as [Hinv _]. eauto.
    + unfold new_KnowledgeBaseManager in Hnew.
      specialize (Hro _ (mkKnowledgeBaseManager [])
                    _init_default_knowledge_bases (mkGlobals None) env).
      rewrite Hnew in Hro. simpl in Hro. now subst.
Qed.

Lemma emits_get_kb_manager : emits quiet get_kb_manager.
Proof.
  unfold get_kb_manager.
  apply emits_bind; [now apply emits_silent|]. intros g.
  destruct (_kb_manager g); [now apply emits_silent|].
  apply emits_bind; [apply emits_new_KnowledgeBaseManager|]. intros mgr.
  now apply emits_silent.
Qed.

(** The argument [kb_name] handed to [search_knowledge]. *)
Definition topic_for (expert_type : string) : option string :=
  if String.eqb (Py.lower expert_type) "all" then None
  else Some (kb_name_for expert_type).

(** The lines of [search_diagnosis_knowledge] after the manager is
    there. *)
Definition search_and_format (query expert_type : string) (top_k : Z)
    (t : float) : M Globals string :=
  kb_name <- (if String.eqb (Py.lower expert_type) "all"
              then ret None
              else name <- on_manager (match_knowledge_base expert_type) ;;
                   ret (Some name)) ;;
  results <- on_manager (search_knowledge query kb_name top_k t) ;;
  ret (format_results query results).

Lemma search_diagnosis_knowledge_unfold (query expert_type : string)
    (top_k : Z) (t : float) (g : Globals) (env : Env) :
  search_diagnosis_knowledge query expert_type top_k t g env
  = match get_kb_manager g env with
    | (Ok _, g', env') => search_and_format query expert_type top_k t g' env'
    | (Raise e, g', env') => (Raise e, g', env')
    end.
Proof. reflexivity. Qed.

Lemma search_knowledge_readonly (self : KnowledgeBaseManager)
    (query : string) (kb_name : option string) (top_k : Z) (t : float)
    (env : Env) :
  exists results evs,
    search_knowledge query kb_name top_k t self env
    = (Ok results, self, mkEnv (fs env) (trace env ++ evs)%list).
Proof.
  destruct kb_name as [[|c name]|].
  - eexists _, _. apply search_knowledge_all_run. now right.
  - destruct (Py.dict_mem (String c name) (knowledge_bases self)) eqn:E.
    + apply dict_mem_get in E as [kb Hkb]. eexists _, _.
      apply (search_knowledge_known_name _ _ _ kb); [discriminate|exact Hkb].
    + eexists _, _.
      apply search_knowledge_unknown_run; [discriminate|exact E].
  - eexists _, _. apply search_knowledge_all_run. now left.
Qed.

Lemma search_and_format_run (query expert_type : string) (top_k : Z)
    (t : float) (mgr : KnowledgeBaseManager) (env : Env) :
  exists results env',
    search_knowledge query (topic_for expert_type) top_k t mgr env
    = (Ok results, mgr, env') /\
    search_and_format query expert_type top_k t (mkGlobals (Some mgr)) env
    = (Ok (format_results query results), mkGlobals (Some mgr), env').
Proof.
  destruct (search_knowledge_readonly mgr query (topic_for expert_type)
              top_k t env) as (results & evs & Hrun).
  exists results, (mkEnv (fs env) (trace env ++ evs)%list).
  split; [exact Hrun|].
  unfold search_and_format, topic_for in *.
  destruct (String.eqb (Py.lower expert_type) "all").
  - unfold bind, ret, on_manager. simpl. now rewrite Hrun.
  - unfold bind, ret, on_manager. simpl.
    rewrite match_knowledge_base_run. simpl. now rewrite Hrun.
Qed.

End EntryPoint.

Section EntryPointRun.

Context `{Ext : External}.

(** The collections whose store was searched, in the order of the
    searches. *)
Fixpoint searched (evs : list Event) : list string :=
  match evs with
  | [] => []
  | SimilaritySearch kb _ _ :: r => kb :: searched r
  | _ :: r => searched r
  end.

(** The warning of the branch for an unknown name. *)
Definition unknown_name_warning (ev : Event) : Prop :=
  exists name, ev = Log WARNING ("知识库不存在: " +:+ name).

Lemma searched_app (a b : list Event) :
  searched (a ++ b) = (searched a ++ searched b)%list.
Proof.
  induction a as [|ev a IH]; simpl; [reflexivity|].
  destruct ev; simpl; now rewrite IH.
Qed.

Lemma searched_quiet (evs : list Event) :
  Forall quiet evs -> searched evs = [].
Proof.
  induction 1 as [|ev evs Hev _ IH]; simpl; [reflexivity|].
  destruct ev; simpl in *; tauto.
Qed.

Lemma quiet_not_warning (evs : list Event) :
  Forall quiet evs -> Forall (fun ev => ~ unknown_name_warning ev) evs.
Proof.
  intros H. eapply Forall_impl; [exact H|].
  intros ev Hq [name ->]. exact (Hq name eq_refl).
Qed.

Lemma search_events_searched (name : string) (kb : KnowledgeBase)
    (query : string) (top_k : Z) :
  kb_named name kb -> searched (search_events kb query top_k) = [name].
Proof.
  intros [Hn [vs Hvs]]. unfold search_events, index_answer. rewrite Hvs, Hn.
  simpl. now destruct (FAISS_similarity_search_with_score query top_k vs).
Qed.

Lemma search_events_not_warning (kb : KnowledgeBase) (query : string)
    (top_k : Z) :
  Forall (fun ev => ~ unknown_name_warning ev)
         (search_events kb query top_k).
Proof.
  unfold search_events. apply Forall_app. split.
  - destruct (vector_store kb); repeat constructor.
    intros [name H]. discriminate.
  - destruct (index_answer kb query top_k); repeat constructor.
    intros [name H]. discriminate.
Qed.

Lemma all_events_searched (mgr : KnowledgeBaseManager) (query : string)
    (top_k : Z) :
  registry_ok mgr ->
  searched (all_events mgr query top_k)
  = Py.dict_keys (knowledge_bases mgr).
Proof.
  unfold registry_ok, all_events, Py.dict_keys.
  induction 1 as [|[name kb] l Hkb _ IH]; simpl; [reflexivity|].
  rewrite searched_app, IH.
  now rewrite (search_events_searched name).
Qed.

Lemma all_events_not_warning (mgr : KnowledgeBaseManager) (query : string)
    (top_k : Z) :
  Forall (fun ev => ~ unknown_name_warning ev) (all_events mgr query top_k).
Proof.
  unfold all_events. induction (knowledge_bases mgr) as [|kv l IH]; simpl.
  - constructor.
  - apply Forall_app. split; [apply search_events_not_warning | exact IH].
Qed.

Lemma has_key_In (name : string) (mgr : KnowledgeBaseManager) :
  has_key name mgr -> In name (Py.dict_keys (knowledge_bases mgr)).
Proof.
  unfold has_key, Py.dict_mem, Py.dict_keys. intros H.
  apply existsb_exists in H as ([k v] & Hin & Heq).
  apply String.eqb_eq in Heq. simpl in Heq. subst.
  apply in_map_iff. exists (name, v). split; [reflexivity|].
  first [exact Hin | now apply list_elem_of_In].
Qed.

Lemma registry_inv_key (mgr : KnowledgeBaseManager) (name : string) :
  registry_inv default_kbs mgr -> In name default_kbs ->
  exists kb, Py.dict_get name (knowledge_bases mgr) = Some kb /\
             kb_named name kb.
Proof.
  intros [Hok Hkeys] Hin.
  rewrite Forall_forall in Hkeys.
  assert (has_key name mgr) as Hk by (apply Hkeys; now apply list_elem_of_In).
  apply dict_mem_get in Hk as [kb Hkb]. exists kb. split; [exact Hkb|].
  exact (dict_get_Forall _ name kb _ Hok Hkb).
Qed.

Lemma kb_name_for_registered (mgr : KnowledgeBaseManager) (label : string) :
  registry_inv default_kbs mgr ->
  exists kb, Py.dict_get (kb_name_for label) (knowledge_bases mgr) = Some kb
             /\ kb_named (kb_name_for label) kb.
Proof.
  intros Hinv. apply registry_inv_key; [exact Hinv|].
  pose proof (kb_name_for_default label) as H. simpl in *. tauto.
Qed.

Lemma kb_name_for_nonempty (label : string) : kb_name_for label <> "".
Proof.
  pose proof (kb_name_for_default label) as H. simpl in H.
  intros E. rewrite E in H. intuition discriminate.
Qed.

(** The two ways a call of [search_diagnosis_knowledge] ends in a
    sound state: the manager cannot be built and the exception of the
    constructor comes out, or the manager [mgr] is there (built by this
    call with the events [setup], or from before) and the search and
    the formatting run on it. *)
Lemma search_diagnosis_knowledge_cases (query expert_type : string)
    (top_k : Z) (t : float) (g : Globals) (env : Env) :
  globals_ok g ->
  (exists e env1 setup,
     search_diagnosis_knowledge query expert_type top_k t g env
     = (Raise e, g, env1) /\
     _kb_manager g = None /\
     trace env1 = (trace env ++ setup)%list /\ Forall quiet setup)
  \/
  (exists mgr env1 setup results evs,
     registry_inv default_kbs mgr /\
     trace env1 = (trace env ++ setup)%list /\ Forall quiet setup /\
     search_knowledge query (topic_for expert_type) top_k t mgr env1
     = (Ok results, mgr, mkEnv (fs env1) (trace env1 ++ evs)%list) /\
     search_diagnosis_knowledge query expert_type top_k t g env
     = (Ok (format_results query results), mkGlobals (Some mgr),
        mkEnv (fs env1) (trace env1 ++ evs)%list) /\
     if String.eqb (Py.lower expert_type) "all"
     then results = Py.slice_to top_k
                      (Py.sort_by snd (all_results mgr query top_k t)) /\
          evs = all_events mgr query top_k
     else exists kb,
          Py.dict_get (kb_name_for expert_type) (knowledge_bases mgr)
          = Some kb /\
          kb_named (kb_name_for expert_type) kb /\
          results = search_result kb query top_k t /\
          evs = search_events kb query top_k).
Proof.
  intros Hg. rewrite search_diagnosis_knowledge_unfold.
  pose proof (get_kb_manager_run g env Hg) as Hrun.
  destruct (emits_get_kb_manager g env) as (setup & Htrace & Hquiet).
  destruct (get_kb_manager g env) as [[[[]|e] g1] env1]; simpl in *.
  2:{ left. destruct Hrun as [-> Hnone]. exists e, env1, setup. auto. }
  right. destruct Hrun as (mgr & -> & Hinv).
  exists mgr, env1, setup.
  assert (exists results evs,
            search_knowledge query (topic_for expert_type) top_k t mgr env1
            = (Ok results, mgr, mkEnv (fs env1) (trace env1 ++ evs)%list) /\
            if String.eqb (Py.lower expert_type) "all"
            then results = Py.slice_to top_k
                             (Py.sort_by snd (all_results mgr query top_k t))
                 /\ evs = all_events mgr query top_k
            else exists kb,
                 Py.dict_get (kb_name_for expert_type) (knowledge_bases mgr)
                 = Some kb /\
                 kb_named (kb_name_for expert_type) kb /\
                 results = search_result kb query top_k t /\
                 evs = search_events kb query top_k)
    as (results & evs & Hsearch & Hcase).
  { unfold topic_for. destruct (String.eqb (Py.lower expert_type) "all").
    - eexists _, _. split; [apply search_knowledge_all_run; now left|].
      split; reflexivity.
    - destruct (kb_name_for_registered mgr expert_type Hinv)
        as (kb & Hget & Hkb).
      eexists _, _. split.
      + apply (search_knowledge_known_name _ _ _ kb);
          [apply kb_name_for_nonempty | exact Hget].
      + exists kb. auto. }
  exists results, evs. repeat (split; [assumption|]).
  split; [|exact Hcase].
  destruct (search_and_format_run query expert_type top_k t mgr env1)
    as (results' & env' & Hs' & Hf).
  rewrite Hsearch in Hs'. injection Hs' as <- <-. exact Hf.
Qed.

End EntryPointRun.

Section EntryPointClaims.

Context `{Ext : External}.

(** C6, amended: when [search_diagnosis_knowledge] returns, its text
    is the no-results sentence exactly when the search it made returned
    the empty list; otherwise it is the header with the number of
    results, followed for each result, in order and counted from 1, by
    the index, the similarity [1 - distance] computed in float32, the
    precision of the distance, and shown as it is (two decimals, no
    clamping), the source line and the desc line when the metadata has
    the key, and the raw text.  It raises only when the manager could
    not be built. *)
Theorem search_diagnosis_knowledge_text (query expert_type : string)
    (top_k : Z) (score_threshold : float) (g : Globals) (env : Env) :
  match search_diagnosis_knowledge query expert_type top_k score_threshold
          g env with
  | (Ok out, g', env') =>
      exists mgr env1 results,
        g' = mkGlobals (Some mgr) /\
        search_knowledge query (topic_for expert_type) top_k score_threshold
          mgr env1 = (Ok results, mgr, env') /\
        (out = no_results_sentence query <-> results = []) /\
        (results <> [] -> out = rendering results)
  | (Raise _, g', _) => _kb_manager g = None /\ g' = g
  end.
Proof.
  rewrite search_diagnosis_knowledge_unfold.
  assert (match get_kb_manager g env with
          | (Ok _, g', _) => exists mgr, g' = mkGlobals (Some mgr)
          | (Raise _, g', _) => g' = g /\ _kb_manager g = None
          end) as Hrun.
  { destruct g as [[mgr|]].
    - rewrite (get_kb_manager_some _ mgr) by reflexivity. eauto.
    - pose proof (get_kb_manager_run (mkGlobals None) env I) as H.
      destruct (get_kb_manager (mkGlobals None) env) as [[[[]|e] g1] env1];
        [|exact H].
      destruct H as (mgr & -> & _). eauto. }
  destruct (get_kb_manager g env) as [[[[]|e] g1] env1].
  2:{ destruct Hrun. auto. }
  destruct Hrun as [mgr ->].
  destruct (search_and_format_run query expert_type top_k score_threshold
              mgr env1) as (results & env' & Hsearch & ->).
  exists mgr, env1, results. split; [reflexivity|]. split; [exact Hsearch|].
  apply format_results_rendering.
Qed.

(** C7: in a sound state of the module (every state the module's
    functions lead to), a call that returns has searched every
    registered collection, each once and in the order of the registry,
    if and only if the lower-cased [expert_type] is ["all"], and then
    its text renders the merged results; for every other [expert_type]
    it has searched the one collection registered under the name
    [match_knowledge_base] gives, and its text renders the results of
    that collection.  A call that raises has searched nothing. *)
Theorem search_diagnosis_knowledge_dispatch (query expert_type : string)
    (top_k : Z) (score_threshold : float) (g : Globals) (env : Env) :
  globals_ok g ->
  exists new,
    trace (snd (search_diagnosis_knowledge query expert_type top_k
                  score_threshold g env)) = (trace env ++ new)%list /\
    match search_diagnosis_knowledge query expert_type top_k
            score_threshold g env with
    | (Ok out, g', _) =>
        exists mgr,
          g' = mkGlobals (Some mgr) /\
          (searched new = Py.dict_keys (knowledge_bases mgr)
           <-> Py.lower expert_type = "all") /\
          (Py.lower expert_type = "all" ->
           out = format_results query
                   (Py.slice_to top_k
                      (Py.sort_by snd
                         (all_results mgr query top_k score_threshold)))) /\
          (Py.lower expert_type <> "all" ->
           exists name kb,
             (forall self env0,
                match_knowledge_base expert_type self env0
                = (Ok name, self, env0)) /\
             Py.dict_get name (knowledge_bases mgr) = Some kb /\
             searched new = [name] /\
             out = format_results query
                     (search_result kb query top_k score_threshold))
    | (Raise _, g', _) => _kb_manager g = None /\ searched new = []
    end.
Proof.
  intros Hg.
  destruct (search_diagnosis_knowledge_cases query expert_type top_k
              score_threshold g env Hg)
    as [(e & env1 & setup & -> & Hnone & Htrace & Hquiet)
       |(mgr & env1 & setup & results & evs & Hinv & Htrace & Hquiet
         & _ & -> & Hcase)]; simpl.
  - exists setup. split; [exact Htrace|]. split; [exact Hnone|].
    now apply searched_quiet.
  - exists (setup ++ evs)%list. rewrite Htrace, app_assoc.
    split; [reflexivity|]. exists mgr. split; [reflexivity|].
    rewrite searched_app, (searched_quiet setup Hquiet). simpl.
    destruct (String.eqb_spec (Py.lower expert_type) "all") as [Hall|Hnot].
    + destruct Hcase as [-> ->].
      rewrite all_events_searched by apply Hinv.
      split; [tauto|]. split; [reflexivity | congruence].
    + destruct Hcase as (kb & Hget & Hkb & -> & ->).
      rewrite (search_events_searched (kb_name_for expert_type)) by exact Hkb.
      split; [|split; [congruence|]].
      * split; [|congruence]. intros Hkeys. exfalso.
        destruct Hinv as [_ Hkeys'].
        rewrite Forall_forall in Hkeys'.
        assert (In "NameNodeExpert" [kb_name_for expert_type]) as H1.
        { rewrite Hkeys. apply has_key_In, Hkeys'.
          apply list_elem_of_In. simpl. tauto. }
        assert (In "DataNodeExpert" [kb_name_for expert_type]) as H2.
        { rewrite Hkeys. apply has_key_In, Hkeys'.
          apply list_elem_of_In. simpl. tauto. }
        simpl in H1, H2. destruct H1 as [H1|[]], H2 as [H2|[]].
        rewrite H1 in H2. discriminate.
      * intros _. exists (kb_name_for expert_type), kb.
        split; [intros; apply match_knowledge_base_run|]. auto.
Qed.

(** C10: in a sound state of the module, a call with an [expert_type]
    whose lower-cased form is not ["all"] never takes the branch for an
    unknown name: the name it hands to [search_knowledge] is one of the
    four names [match_knowledge_base] can return, all of them default
    collections; when the call returns, that name is a key of the
    registry, and no event of the call is the warning of that branch,
    however the call ends. *)
Theorem unknown_name_branch_unreachable (query expert_type : string)
    (top_k : Z) (score_threshold : float) (g : Globals) (env : Env) :
  globals_ok g ->
  Py.lower expert_type <> "all" ->
  exists name new,
    (forall self env0,
       match_knowledge_base expert_type self env0 = (Ok name, self, env0)) /\
    In name ["NameNodeExpert"; "DataNodeExpert"; "YARNExpert";
             "HistoryCases"] /\
    In name default_kbs /\
    trace (snd (search_diagnosis_knowledge query expert_type top_k
                  score_threshold g env)) = (trace env ++ new)%list /\
    Forall (fun ev => ~ unknown_name_warning ev) new /\
    match search_diagnosis_knowledge query expert_type top_k
            score_threshold g env with
    | (Ok _, g', _) =>
        exists mgr kb,
          g' = mkGlobals (Some mgr) /\
          Py.dict_get name (knowledge_bases mgr) = Some kb
    | (Raise _, _, _) => _kb_manager g = None
    end.
Proof.
  intros Hg Hnot. exists (kb_name_for expert_type).
  pose proof (kb_name_for_default expert_type) as Hfour.
  assert (In (kb_name_for expert_type) default_kbs) as Hdef
    by (simpl in *; tauto).
  destruct (search_diagnosis_knowledge_cases query expert_type top_k
              score_threshold g env Hg)
    as [(e & env1 & setup & -> & Hnone & Htrace & Hquiet)
       |(mgr & env1 & setup & results & evs & Hinv & Htrace & Hquiet
         & _ & -> & Hcase)]; simpl.
  - exists setup. split; [intros; apply match_knowledge_base_run|].
    repeat (split; [assumption|]). split; [now apply quiet_not_warning|].
    exact Hnone.
  - exists (setup ++ evs)%list.
    split; [intros; apply match_knowledge_base_run|].
    do 2 (split; [assumption|]).
    rewrite Htrace, app_assoc. split; [reflexivity|].
    destruct (String.eqb_spec (Py.lower expert_type) "all") as [Hall|_];
      [congruence|].
    destruct Hcase as (kb & Hget & Hkb & -> & ->). split.
    + apply Forall_app. split; [now apply quiet_not_warning|].
      apply search_events_not_warning.
    + exists mgr, kb. auto.
Qed.

End EntryPointClaims.

(** ** The states the module's functions lead to *)

Section Reachable.

Context `{Ext : External}.
Local Open Scope py_scope.

(** A use of the module by a caller: the entry point, or a method of
    the global manager or of one of its collections. *)
Inductive Call :=
| CallGetManager
| CallSearchDiagnosis (query expert_type : string) (top_k : Z) (t : float)
| CallGetOrCreate (name : string)
| CallSearchKnowledge (query : string) (kb_name : option string)
    (top_k : Z) (t : float)
| CallAddTexts (name : string) (texts : list string)
    (metadatas : option (list (gmap string string)))
| CallAddDocuments (name : string) (documents : list Document)
| CallSearch (name query : string) (top_k : Z) (t : float)
| CallSave (name : string).

(** A method of the collection [get_or_create_kb(name)] returns. *)
Definition on_collection {A} (name : string) (m : M KnowledgeBase A)
  : M Globals unit :=
  get_kb_manager ;;
  on_manager (get_or_create_kb name ;; on_kb name m) ;;
  ret tt.

Definition run_call (c : Call) : M Globals unit :=
  match c with
  | CallGetManager => get_kb_manager
  | CallSearchDiagnosis query expert_type top_k t =>
      search_diagnosis_knowledge query expert_type top_k t ;; ret tt
  | CallGetOrCreate name =>
      get_kb_manager ;; on_manager (get_or_create_kb name) ;; ret tt
  | CallSearchKnowledge query kb_name top_k t =>
      get_kb_manager ;;
      on_manager (search_knowledge query kb_name top_k t) ;; ret tt
  | CallAddTexts name texts metadatas =>
      on_collection name (add_texts texts metadatas)
  | CallAddDocuments name documents =>
      on_collection name (add_documents documents)
  | CallSearch name query top_k t =>
      on_collection name (search query top_k t)
  | CallSave name => on_collection name save
  end.

(** The module starts with [_kb_manager = None]; every call leads from
    a reachable state to a reachable state, however it ends. *)
Inductive reachable : Globals -> Prop :=
| reachable_start : reachable (mkGlobals None)
| reachable_call (g : Globals) (env : Env) (c : Call) :
    reachable g -> reachable (snd (fst (run_call c g env))).

Lemma keeps_get_kb_manager : keeps globals_ok get_kb_manager.
Proof.
  intros g env Hg. pose proof (get_kb_manager_run g env Hg) as H.
  destruct (get_kb_manager g env) as [[[[]|e] g1] env1]; simpl.
  - destruct H as (mgr & -> & Hinv). exact Hinv.
  - destruct H as [-> _]. exact Hg.
Qed.

Lemma keeps_on_manager {A} (m : M KnowledgeBaseManager A) :
  keeps (registry_inv default_kbs) m -> keeps globals_ok (on_manager m).
Proof.
  intros Hm g env Hg. unfold on_manager.
  destruct g as [[mgr|]]; simpl; [|exact I].
  specialize (Hm mgr env Hg).
  now destruct (m mgr env) as [[r mgr'] env'].
Qed.

Lemma keeps_search_knowledge (P : KnowledgeBaseManager -> Prop)
    (query : string) (kb_name : option string) (top_k : Z) (t : float) :
  keeps P (search_knowledge query kb_name top_k t).
Proof.
  intros mgr env Hm.
  destruct (search_knowledge_readonly mgr query kb_name top_k t env)
    as (results & evs & ->).
  exact Hm.
Qed.

Lemma keeps_match_knowledge_base (P : KnowledgeBaseManager -> Prop)
    (expert_type : string) :
  keeps P (match_knowledge_base expert_type).
Proof. intros mgr env Hm. now rewrite match_knowledge_base_run. Qed.

Lemma keeps_search_diagnosis_knowledge (query expert_type : string)
    (top_k : Z) (t : float) :
  keeps globals_ok (search_diagnosis_knowledge query expert_type top_k t).
Proof.
  unfold search_diagnosis_knowledge.
  apply keeps_bind; [apply keeps_get_kb_manager|]. intros _.
  apply keeps_bind.
  { destruct (String.eqb _ _); [apply keeps_ret|].
    apply keeps_bind; [|intros; apply keeps_ret].
    apply keeps_on_manager, keeps_match_knowledge_base. }
  intros kb_name. apply keeps_bind; [|intros; apply keeps_ret].
  apply keeps_on_manager, keeps_search_knowledge.
Qed.

Lemma keeps_on_collection {A} (name : string) (m : M KnowledgeBase A) :
  keeps (kb_named name) m -> keeps globals_ok (on_collection name m).
Proof.
  intros Hm. unfold on_collection.
  apply keeps_bind; [apply keeps_get_kb_manager|]. intros _.
  apply keeps_bind; [|intros; apply keeps_ret].
  apply keeps_on_manager.
  apply keeps_bind; [apply keeps_get_or_create_kb|]. intros _.
  now apply keeps_on_kb.
Qed.

Lemma keeps_run_call (c : Call) : keeps globals_ok (run_call c).
Proof.
  destruct c; simpl.
  - apply keeps_get_kb_manager.
  - apply keeps_bind; [|intros; apply keeps_ret].
    apply keeps_search_diagnosis_knowledge.
  - apply keeps_bind; [apply keeps_get_kb_manager|]. intros _.
    apply keeps_bind; [|intros; apply keeps_ret].
    apply keeps_on_manager, keeps_get_or_create_kb.
  - apply keeps_bind; [apply keeps_get_kb_manager|]. intros _.
    apply keeps_bind; [|intros; apply keeps_ret].
    apply keeps_on_manager, keeps_search_knowledge.
  - apply keeps_on_collection, keeps_add_texts.
  - apply keeps_on_collection, keeps_add_documents.
  - apply keeps_on_collection, keeps_search.
  - apply keeps_on_collection, keeps_save.
Qed.

(** Every reachable state is sound. *)
Lemma reachable_globals_ok (g : Globals) : reachable g -> globals_ok g.
Proof.
  induction 1 as [|g env c _ IH]; [exact I|].
  now apply keeps_run_call.
Qed.

End Reachable.

(** ** The entry point on the small instance *)

Lemma toy_globals_ok : globals_ok ToyRun.globals.
Proof.
  unfold globals_ok.
  assert (_kb_manager ToyRun.globals = Some ToyRun.manager) as ->
    by (vm_compute; reflexivity).
  split.
  - unfold registry_ok.
    assert (forallb (fun kv => String.eqb (kb_name (snd kv)) (fst kv)
                               && bool_decide (is_Some (vector_store (snd kv))))
              (knowledge_bases ToyRun.manager) = true) as H
      by (vm_compute; reflexivity).
    rewrite forallb_forall in H. apply Forall_forall. intros kv Hkv.
    apply list_elem_of_In, H, andb_true_iff in Hkv as [Hn Hs].
    split; [now apply String.eqb_eq | now apply bool_decide_eq_true in Hs].
  - apply Forall_forall. intros name Hname.
    assert (forallb (fun n => Py.dict_mem n (knowledge_bases ToyRun.manager))
              default_kbs = true) as H by (vm_compute; reflexivity).
    rewrite forallb_forall in H. apply H. now apply list_elem_of_In.
Qed.

(** C4 as stated, refuted: a name that is given and is no key of the
    registry does not always make the call return the empty list. *)
Lemma search_knowledge_unknown_name_counterexample :
  ~ (forall (self : @KnowledgeBaseManager Toy.external) (query name : string)
       (top_k : Z) (t : float) (env : @Env Toy.external),
       Py.dict_mem name (knowledge_bases self) = false ->
       fst (fst (search_knowledge query (Some name) top_k t self env))
       = Ok []).
Proof.
  intros H.
  specialize (H ToyRun.manager "heap" "" 3%Z 0.4%float ToyRun.env).
  assert (fst (fst (search_knowledge "heap" (Some "") 3 0.4 ToyRun.manager
                      ToyRun.env)) = Ok [(Toy.doc2, 0%float)]) as E
    by (vm_compute; reflexivity).
  rewrite E in H. specialize (H eq_refl). discriminate H.
Qed.

(** The instance where every document is a near match, after one text
    was added to a collection. *)
Module NearRun.

Definition start :=
  run_call (CallAddTexts "NameNodeExpert" ["heap"] None)
    (@mkGlobals (Faulty.external Faulty.NearMatch) None)
    (Faulty.env_of Faulty.NearMatch []).

Definition globals : @Globals (Faulty.external Faulty.NearMatch) :=
  snd (fst start).

Definition env : @Env (Faulty.external Faulty.NearMatch) := snd start.

End NearRun.

(** C6 on the small instance: two results, the second at distance 256,
    shown with the similarity -255.00; and on the instance of near
    matches, a result at the distance 0.0050000003539025784, shown with
    the similarity 1.00 that float32 gives. *)
Lemma search_diagnosis_knowledge_text_witness :
  (exists results,
     results <> [] /\
     fst (fst (search_diagnosis_knowledge "a query of 20 bytes."
                 "My-NameNode" 3 (-30) ToyRun.globals ToyRun.env))
     = Ok (rendering results) /\
     rendering results = "找到 2 条相关知识：

[知识 1] (相似度: 0.00)
来源: docs
描述: config
内容: check hdfs-site.xml

[知识 2] (相似度: -255.00)
来源: cases
描述: memory
内容: heap

") /\
  (exists results,
     results <> [] /\
     fst (fst (search_diagnosis_knowledge "heap" "namenode" 3 0.4
                 NearRun.globals NearRun.env))
     = Ok (rendering results) /\
     rendering results = "找到 1 条相关知识：

[知识 1] (相似度: 1.00)
内容: heap

").
Proof.
  split.
  - pose proof (search_diagnosis_knowledge_text "a query of 20 bytes."
                  "My-NameNode" 3 (-30) ToyRun.globals ToyRun.env) as H.
    match goal with
    | |- exists _, _ /\ _ = _ /\ _ = ?text =>
        assert (fst (fst (search_diagnosis_knowledge "a query of 20 bytes."
                            "My-NameNode" 3 (-30) ToyRun.globals
                            ToyRun.env))
                = Ok text) as E by (vm_compute; reflexivity)
    end.
    destruct (search_diagnosis_knowledge "a query of 20 bytes."
                "My-NameNode" 3 (-30) ToyRun.globals ToyRun.env)
      as [[[out|e] g'] env']; simpl in E; [|discriminate].
    injection E as ->.
    destruct H as (mgr & env1 & results & _ & _ & Hiff & Hrender).
    assert (results <> []) as Hne.
    { intros Hnil. apply Hiff in Hnil. vm_compute in Hnil. discriminate. }
    exists results. split; [exact Hne|]. rewrite <- (Hrender Hne).
    split; reflexivity.
  - pose proof (search_diagnosis_knowledge_text "heap" "namenode" 3 0.4
                  NearRun.globals NearRun.env) as H.
    match goal with
    | |- exists _, _ /\ _ = _ /\ _ = ?text =>
        assert (fst (fst (search_diagnosis_knowledge "heap" "namenode" 3 0.4
                            NearRun.globals NearRun.env))
                = Ok text) as E by (vm_compute; reflexivity)
    end.
    destruct (search_diagnosis_knowledge "heap" "namenode" 3 0.4
                NearRun.globals NearRun.env)
      as [[[out|e] g'] env']; simpl in E; [|discriminate].
    injection E as ->.
    destruct H as (mgr & env1 & results & _ & _ & Hiff & Hrender).
    assert (results <> []) as Hne.
    { intros Hnil. apply Hiff in Hnil. vm_compute in Hnil. discriminate. }
    exists results. split; [exact Hne|]. rewrite <- (Hrender Hne).
    split; reflexivity.
Defined.

(** The rendering with the similarity [1 - distance] computed on
    Python floats, in double precision. *)
Definition result_text_double (idx : nat) (result : Document * float)
  : string :=
  "[知识 " +:+ Py.str_nat idx +:+ "] (相似度: "
    +:+ Py.format_2f (1 - snd result) +:+ ")" +:+ Py.NL
    +:+ metadata_line "来源: " "source" (fst result)
    +:+ metadata_line "描述: " "desc" (fst result)
    +:+ "内容: " +:+ page_content (fst result) +:+ Py.NL +:+ Py.NL.

Definition rendering_double (results : list (Document * float)) : string :=
  results_header (length results)
    +:+ foldr String.append ""
          (zip_with result_text_double (seq 1 (length results)) results).

(** C6 as stated, refuted: for a result at the float32 distance
    0.0050000003539025784 the similarity [1 - distance] is
    0.99499999964609742, shown as 0.99; the text of
    [search_diagnosis_knowledge] shows 1.00, the difference in float32
    being 0.99500000476837158. *)
Lemma search_diagnosis_knowledge_text_counterexample :
  ~ (forall (query expert_type : string) (top_k : Z) (score_threshold : float)
       (g : @Globals (Faulty.external Faulty.NearMatch))
       (env : @Env (Faulty.external Faulty.NearMatch)),
       match search_diagnosis_knowledge query expert_type top_k
               score_threshold g env with
       | (Ok out, g', env') =>
           exists mgr env1 results,
             g' = mkGlobals (Some mgr) /\
             search_knowledge query (topic_for expert_type) top_k
               score_threshold mgr env1 = (Ok results, mgr, env') /\
             (out = no_results_sentence query <-> results = []) /\
             (results <> [] -> out = rendering_double results)
       | (Raise _, g', _) => _kb_manager g = None /\ g' = g
       end).
Proof.
  intros H.
  pose (kb := @mkKnowledgeBase (Faulty.external Faulty.NearMatch)
                "NameNodeExpert"
                "/opt/lc_agent/knowledge_base/NameNodeExpert"
                (Some [mkDocument "heap" ∅])).
  specialize (H "heap" "namenode" 3%Z 0.4%float NearRun.globals NearRun.env).
  destruct (search_diagnosis_knowledge "heap" "namenode" 3 0.4
              NearRun.globals NearRun.env) as [[r g'] env'] eqn:E.
  assert (fst (fst (search_diagnosis_knowledge "heap" "namenode" 3 0.4
                      NearRun.globals NearRun.env))
          = Ok "找到 1 条相关知识：

[知识 1] (相似度: 1.00)
内容: heap

") as Hout by (vm_compute; reflexivity).
  assert (option_map (fun mgr =>
                        Py.dict_get "NameNodeExpert" (knowledge_bases mgr))
            (_kb_manager
               (snd (fst (search_diagnosis_knowledge "heap" "namenode" 3 0.4
                            NearRun.globals NearRun.env))))
          = Some (Some kb)) as Hkb.
  { vm_compute. reflexivity. }
  rewrite E in Hout, Hkb. simpl in Hout, Hkb. subst r.
  destruct H as (mgr & env1 & results & -> & Hsearch & _ & Hrender).
  simpl in Hkb. injection Hkb as Hkb.
  assert (topic_for "namenode" = Some "NameNodeExpert") as Htopic
    by (vm_compute; reflexivity).
  rewrite Htopic in Hsearch.
  rewrite (search_knowledge_known_name mgr "heap" "NameNodeExpert" _ 3 0.4
             env1 ltac:(discriminate) Hkb) in Hsearch.
  injection Hsearch as <- _.
  assert (search_result kb "heap" 3 0.4
          = [(mkDocument "heap" ∅, 0.0050000003539025784%float)]) as Hres
    by (vm_compute; reflexivity).
  rewrite Hres in Hrender. specialize (Hrender ltac:(discriminate)).
  vm_compute in Hrender. discriminate Hrender.
Qed.

(** C7 on the small instance: with ["All"] the five collections are
    searched, in the order of the registry. *)
Lemma search_diagnosis_knowledge_dispatch_witness :
  exists new,
    trace (snd (search_diagnosis_knowledge "a query of 20 bytes." "All" 2 0.4
                  ToyRun.globals ToyRun.env))
    = (trace ToyRun.env ++ new)%list /\
    searched new = default_kbs.
Proof.
  destruct (search_diagnosis_knowledge_dispatch "a query of 20 bytes." "All"
              2 0.4 ToyRun.globals ToyRun.env toy_globals_ok)
    as (new & Htrace & _).
  exists new. split; [exact Htrace|].
  assert (trace (snd (search_diagnosis_knowledge "a query of 20 bytes." "All"
                        2 0.4 ToyRun.globals ToyRun.env))
          = (trace ToyRun.env
               ++ map (fun n => SimilaritySearch n "a query of 20 bytes." 2)
                      default_kbs)%list) as E by (vm_compute; reflexivity).
  rewrite E in Htrace. apply app_inv_head in Htrace. now subst new.
Defined.

(** C10 on the small instance: the first call of the module, with the
    label ["dn"], builds the manager and searches DataNodeExpert. *)
Lemma unknown_name_branch_unreachable_witness :
  exists new,
    trace (snd (search_diagnosis_knowledge "x" "dn" 2 0.4 (mkGlobals None)
                  Toy.env0))
    = (trace Toy.env0 ++ new)%list /\
    Forall (fun ev => ~ unknown_name_warning ev) new /\
    searched new = ["DataNodeExpert"].
Proof.
  destruct (unknown_name_branch_unreachable "x" "dn" 2 0.4
              (@mkGlobals Toy.external None) Toy.env0)
    as (name & new & _ & _ & _ & Htrace & Hquiet & _).
  - exact I.
  - vm_compute. discriminate.
  - exists new. split; [exact Htrace|]. split; [exact Hquiet|].
    assert (searched (trace (snd (search_diagnosis_knowledge "x" "dn" 2 0.4
                                    (@mkGlobals Toy.external None) Toy.env0)))
            = ["DataNodeExpert"]) as E by (vm_compute; reflexivity).
    rewrite Htrace in E. exact E.
Defined.

(** * Further properties of the code *)

(** ** The constructor of KnowledgeBase *)

Section ConstructorFacts.

Context `{Ext : External}.

(** [kb_path or os.path.join(..., "knowledge_base", kb_name)] *)
Definition kb_path_for (name : string) (path : option string) : string :=
  match path with
  | Some (String _ _ as p) => p
  | _ => os_path_join [module_dir; "knowledge_base"; name]
  end.

(** The store directory of a collection kept under [path]. *)
Definition store_dir (name : string) (path : option string) : string :=
  os_path_join [kb_path_for name path; "vector_store"].

Lemma kb_path_for_eq (name : string) (path : option string) :
  match path with
  | Some p =>
      if bool_decide (p = "")
      then os_path_join [module_dir; "knowledge_base"; name] else p
  | None => os_path_join [module_dir; "knowledge_base"; name]
  end = kb_path_for name path.
Proof. destruct path as [[|c p]|]; reflexivity. Qed.

(** The saved index is there to be loaded: the store directory exists
    and lists at least one entry. *)
Definition has_saved_index (dir : string) (tree : FS) : Prop :=
  os_path_exists dir tree = true /\
  exists names, os_listdir dir tree = Ok names /\ names <> [].


Lemma new_SimpleEmbeddings_env {S} (name : string) (s : S) (env : Env) :
  exists obj,
    new_SimpleEmbeddings name s env = (Ok obj, s, after_embeddings env).
Proof.
  unfold new_SimpleEmbeddings, after_embeddings, load_outcome, construct.
  destruct SENTENCE_TRANSFORMER_AVAILABLE; [|destruct env; simpl; eauto].
  unfold try_except, bind, fs_test, fs_new, set_embedder, logging, emit.
  simpl.
  destruct (os_path_exists _ (fs env));
    match goal with
    | |- context [SentenceTransformer ?a ?b ?c] =>
        destruct (SentenceTransformer a b c) as [[m|e] fs1]
    end; simpl; eauto.
Qed.

(** The environment in which the constructor turns to the store: the
    directory of the collection made, which left the file system
    [fs1], and the embeddings object built. *)
Definition made_env (name : string) (path : option string) (env : Env)
    (fs1 : FS) : Env :=
  after_embeddings
    (mkEnv fs1 (trace env ++ [Makedirs (kb_path_for name path)])).

Lemma new_KnowledgeBase_unfold {S} (name : string) (path : option string)
    (s : S) (env : Env) (fs1 : FS) :
  os_makedirs (kb_path_for name path) (fs env) = (Ok tt, fs1) ->
  new_KnowledgeBase name path s env
  = construct (mkKnowledgeBase name (kb_path_for name path) None)
      _load_or_create_vector_store s (made_env name path env fs1).
Proof.
  intros Hmk. unfold new_KnowledgeBase, made_env. rewrite kb_path_for_eq.
  unfold construct at 1. unfold bind at 1. unfold get_self at 1.
  unfold bind at 1. unfold emit at 1. unfold bind at 1.
  unfold fs_call at 1. cbn [fs trace kb_path]. rewrite Hmk.
  unfold bind at 1.
  destruct (new_SimpleEmbeddings_env "sentence-transformer"
              (mkKnowledgeBase name (kb_path_for name path) None)
              (mkEnv fs1 (trace env ++ [Makedirs (kb_path_for name path)])))
    as [obj ->].
  unfold bind at 1. unfold set_vector_store at 1. reflexivity.
Qed.

(** X1: when the store directory of the collection exists and lists
    an entry, and FAISS can load it, the constructor returns the
    collection with the loaded store: it makes the collection's
    directory, builds the embeddings object, loads, records the
    success, and builds no placeholder store.  The file system and
    the trace are those left by the making of the directory and the
    embeddings object, with the load and its record added. *)
Theorem new_KnowledgeBase_loaded {S} (name : string) (path : option string)
    (s : S) (env : Env) (fs1 : FS) (vs : VS) :
  os_makedirs (kb_path_for name path) (fs env) = (Ok tt, fs1) ->
  has_saved_index (store_dir name path) (fs (made_env name path env fs1)) ->
  FAISS_load_local (store_dir name path) (fs (made_env name path env fs1))
  = Ok vs ->
  new_KnowledgeBase name path s env
  = (Ok (mkKnowledgeBase name (kb_path_for name path) (Some vs)), s,
     mkEnv (fs (made_env name path env fs1))
       (trace (made_env name path env fs1)
          ++ [LoadLocal (store_dir name path);
              Log INFO ("成功加载知识库: " +:+ name)])).
Proof.
  intros Hmk (Hex & names & Hls & Hne) Hload.
  rewrite (new_KnowledgeBase_unfold name path s env fs1 Hmk).
  unfold construct, _load_or_create_vector_store, try_except, bind, get_self,
    set_vector_store, store_call, fs_call, fs_read, fs_test, ext_new, ret,
    logging, emit, store_dir in *.
  simpl. rewrite Hex. simpl. rewrite Hls. simpl.
  rewrite bool_decide_eq_false_2 by exact Hne. simpl.
  rewrite Hload. simpl. rewrite <- !app_assoc. reflexivity.
Qed.



(** X4: the listing of the store directory is outside the [try]: when
    the path exists and [os.listdir] raises on it (a regular file is in
    its place), the constructor raises that exception, after it made
    the collection's directory and built the embeddings object, and
    before any call to FAISS. *)
Theorem new_KnowledgeBase_listdir_raises {S} (name : string)
    (path : option string) (s : S) (env : Env) (fs1 : FS) (e : exn) :
  os_makedirs (kb_path_for name path) (fs env) = (Ok tt, fs1) ->
  os_path_exists (store_dir name path) (fs (made_env name path env fs1))
  = true ->
  os_listdir (store_dir name path) (fs (made_env name path env fs1))
  = Raise e ->
  new_KnowledgeBase name path s env
  = (Raise e, s, made_env name path env fs1).
Proof.
  intros Hmk Hex Hls.
  rewrite (new_KnowledgeBase_unfold name path s env fs1 Hmk).
  unfold construct, _load_or_create_vector_store, try_except, bind, get_self,
    set_vector_store, store_call, fs_call, fs_read, fs_test, ext_new, ret,
    logging, emit, store_dir in *.
  simpl. rewrite Hex. simpl. rewrite Hls. now destruct (made_env _ _ _ _).
Qed.

(** What the making of the directory and the embeddings object leave
    in the trace: the call [os.makedirs], then nothing or the warning
    of a failed load of the model. *)
Lemma made_env_trace (name : string) (path : option string) (env : Env)
    (fs1 : FS) :
  trace (made_env name path env fs1)
  = (trace env ++ [Makedirs (kb_path_for name path)])%list
  \/ exists e,
       trace (made_env name path env fs1)
       = (trace env ++
            [Makedirs (kb_path_for name path);
             Log WARNING ("加载sentence-transformer失败: " +:+ str_exn e
                             +:+ "，使用简化版")])%list.
Proof.
  unfold made_env, after_embeddings.
  destruct SENTENCE_TRANSFORMER_AVAILABLE; [|now left].
  destruct (load_outcome _) as [[m|e] fs2]; [now left|].
  right. exists e. simpl. now rewrite <- app_assoc.
Qed.

End ConstructorFacts.

(** X1 on the small instance: a collection saved with one document is
    loaded again. *)
Lemma new_KnowledgeBase_loaded_witness :
  new_KnowledgeBase "Ops" (Some "/kb/Ops") tt
    (@mkEnv Toy.external [("/kb/Ops/vector_store", Some [Toy.doc2])] [])
  = (Ok (Toy.kb_of "Ops" [Toy.doc2]), tt,
     @mkEnv Toy.external
       [("/kb/Ops/vector_store", Some [Toy.doc2]); ("/kb/Ops", None)]
       [Makedirs "/kb/Ops"; LoadLocal "/kb/Ops/vector_store";
        Log INFO "成功加载知识库: Ops"]).
Proof.
  etransitivity.
  - apply (new_KnowledgeBase_loaded (Ext:=Toy.external) "Ops"
             (Some "/kb/Ops") tt
             (@mkEnv Toy.external
                [("/kb/Ops/vector_store", Some [Toy.doc2])] [])
             [("/kb/Ops/vector_store", Some [Toy.doc2]); ("/kb/Ops", None)]
             [Toy.doc2]).
    + reflexivity.
    + split; [reflexivity|]. eexists. split; [reflexivity | discriminate].
    + reflexivity.
  - vm_compute. reflexivity.
Defined.



(** X4 on the instance where the store path is a regular file. *)
Lemma new_KnowledgeBase_listdir_raises_witness :
  new_KnowledgeBase "Ops" (Some "/kb/Ops") tt
    (Faulty.env_of Faulty.NotADirectory [])
  = (Raise (Exception "NotADirectoryError"), tt,
     @mkEnv (Faulty.external Faulty.NotADirectory) [("/kb/Ops", None)]
       [Makedirs "/kb/Ops"]).
Proof.
  etransitivity.
  - apply (new_KnowledgeBase_listdir_raises
             (Ext:=Faulty.external Faulty.NotADirectory)
             "Ops" (Some "/kb/Ops") tt
             (Faulty.env_of Faulty.NotADirectory [])
             [("/kb/Ops", None)] (Exception "NotADirectoryError")).
    + reflexivity.
    + reflexivity.
    + reflexivity.
  - vm_compute. reflexivity.
Defined.

Section ConstructorAttributes.

Context `{Ext : External}.

(** [P] does not look at the store of the collection. *)
Definition ignores_store (P : KnowledgeBase -> Prop) : Prop :=
  forall kb v, P kb -> P (mkKnowledgeBase (kb_name kb) (kb_path kb) v).

Lemma keeps_load_or_create_attributes (P : KnowledgeBase -> Prop) :
  ignores_store P -> keeps P _load_or_create_vector_store.
Proof.
  intros HP.
  assert (forall v, keeps P (set_vector_store v)) as Hset.
  { intros v kb env Hkb. now apply HP. }
  assert (forall attr ev f, keeps P (store_call attr ev f)) as Hcall.
  { intros attr ev f kb env Hkb. unfold store_call.
    destruct (vector_store kb) as [vs|]; simpl; [|exact Hkb].
    destruct (f vs). simpl. now apply HP. }
  unfold _load_or_create_vector_store.
  apply keeps_bind; [apply keeps_get_self|]. intros self.
  apply keeps_bind; [apply keeps_readonly, readonly_fs_test|]. intros found.
  apply keeps_bind.
  { destruct found; [|apply keeps_ret].
    apply keeps_bind; [apply keeps_readonly, readonly_fs_read|].
    intros names. apply keeps_ret. }
  intros listed. apply keeps_bind.
  { destruct listed; [|apply keeps_ret]. apply keeps_try_except.
    - apply keeps_bind; [apply keeps_emit|]. intros _.
      apply keeps_bind; [apply keeps_readonly, readonly_fs_read|].
      intros vs. apply keeps_bind; [apply Hset|].
      intros _. apply keeps_logging.
    - intros e. apply keeps_bind; [apply keeps_logging|]. intros _.
      apply Hset. }
  intros _. apply keeps_bind; [apply keeps_get_self|]. intros self'.
  destruct (vector_store self'); [apply keeps_ret|].
  apply keeps_bind; [apply keeps_emit|]. intros _.
  apply keeps_bind; [apply keeps_readonly, readonly_ext_new|]. intros vs.
  apply keeps_bind; [apply Hset|]. intros _. apply Hcall.
Qed.

(** X5: a collection the constructor returns has the name it was given,
    the path it was given (the default path under the module's
    directory when none or the empty one was given), and a store: its
    [vector_store] is not [None].  The constructor leaves the object of
    its caller as it is. *)
Theorem new_KnowledgeBase_attributes {S} (name : string)
    (path : option string) (s s' : S) (env env' : Env)
    (kb : KnowledgeBase) :
  new_KnowledgeBase name path s env = (Ok kb, s', env') ->
  kb_name kb = name /\
  kb_path kb = kb_path_for name path /\
  is_Some (vector_store kb) /\
  s' = s.
Proof.
  intros Hnew.
  pose proof (new_KnowledgeBase_named name path s env kb s' env' Hnew)
    as [[Hname Hstore] Hs].
  split; [exact Hname|]. split; [|split; assumption].
  unfold new_KnowledgeBase in Hnew. rewrite kb_path_for_eq in Hnew.
  unfold construct in Hnew.
  match type of Hnew with
  | context [match ?m ?blank env with _ => _ end] =>
      assert (keeps (fun kb => kb_path kb = kb_path_for name path) m)
        as Hkeep
  end.
  { apply keeps_bind; [apply keeps_get_self|]. intros self.
    apply keeps_bind; [apply keeps_emit|]. intros _.
    apply keeps_bind; [apply keeps_fs_call|]. intros _.
    apply keeps_bind;
      [apply keeps_readonly, readonly_new_SimpleEmbeddings|]. intros _.
    apply keeps_bind; [intros k e Hk; exact Hk|]. intros _.
    apply keeps_load_or_create_attributes. intros k v Hk. exact Hk. }
  specialize (Hkeep (mkKnowledgeBase name (kb_path_for name path) None) env
                eq_refl).
  match type of Hnew with
  | context [match ?r with _ => _ end] =>
      destruct r as [[[[]|e] kb'] env1]; [|discriminate]
  end.
  injection Hnew as <- _ _. exact Hkeep.
Qed.

End ConstructorAttributes.

(** X5 on the small instance: the empty path given stands for the
    default one. *)
Lemma new_KnowledgeBase_attributes_witness :
  exists kb env',
    new_KnowledgeBase "Ops" (Some "") tt Toy.env0 = (Ok kb, tt, env') /\
    kb_name kb = "Ops" /\
    kb_path kb = "/opt/lc_agent/knowledge_base/Ops" /\
    is_Some (vector_store kb).
Proof.
  destruct (new_KnowledgeBase "Ops" (Some "") tt Toy.env0)
    as [[r s'] env'] eqn:E.
  assert (exists kb, r = Ok kb /\ s' = tt) as (kb & -> & ->).
  { apply (f_equal (fun x => (fst (fst x), snd (fst x)))) in E.
    vm_compute in E. injection E as <- <-. eauto. }
  destruct (new_KnowledgeBase_attributes (Ext:=Toy.external) "Ops" (Some "")
              tt tt Toy.env0 env' kb E) as (Hn & Hp & Hs & _).
  exists kb, env'. split; [reflexivity|]. split; [exact Hn|].
  split; [exact Hp | exact Hs].
Defined.

(** ** Failures while adding documents *)

Section AddFailures.

Context `{Ext : External}.

(** X6: a failing save is not swallowed, and it comes too late for the
    store.  When the store took the documents and [save_local] then
    raises, [add_documents] raises that exception; the collection holds
    the store with the documents; the trace ends with the attempt to
    save, and has no record of a save done. *)
Theorem add_documents_save_fails (self : KnowledgeBase)
    (documents : list Document) (env : Env) (vs vs1 : VS) (fs1 fs2 : FS)
    (e : exn) :
  documents <> [] ->
  vector_store self = Some vs ->
  FAISS_add_documents documents vs = (Ok tt, vs1) ->
  os_makedirs (vector_store_path self) (fs env) = (Ok tt, fs1) ->
  FAISS_save_local (vector_store_path self) vs1 fs1 = (Raise e, fs2) ->
  add_documents documents self env
  = (Raise e, mkKnowledgeBase (kb_name self) (kb_path self) (Some vs1),
     mkEnv fs2
       (trace env ++ [AddDocuments (kb_name self) documents;
                      Makedirs (vector_store_path self);
                      SaveLocal (kb_name self) (vector_store_path self)])).
Proof.
  intros Hne Hvs Hadd Hmk Hsave.
  destruct documents as [|d docs]; [congruence|].
  unfold add_documents, vector_store_path, save, bind, get_self, store_call,
    store_save_local, fs_call, logging, emit in *.
  destruct self as [n p st]. simpl in *. subst st.
  rewrite Hadd. simpl. rewrite Hmk. simpl. rewrite Hsave. simpl.
  rewrite <- !app_assoc. reflexivity.
Qed.


End AddFailures.

(** X6 on the instance with a full disk: the document is in the store,
    and not on the disk. *)
Lemma add_documents_save_fails_witness :
  let kb := Faulty.kb_of Faulty.DiskFull "YARNExpert" [Toy.doc2] in
  add_documents [Toy.doc3] kb (Faulty.env_of Faulty.DiskFull [])
  = (Raise (Exception "OSError: No space left on device"),
     Faulty.kb_of Faulty.DiskFull "YARNExpert" [Toy.doc2; Toy.doc3],
     @mkEnv (Faulty.external Faulty.DiskFull)
       [("/kb/YARNExpert/vector_store", None)]
       [AddDocuments "YARNExpert" [Toy.doc3];
        Makedirs "/kb/YARNExpert/vector_store";
        SaveLocal "YARNExpert" "/kb/YARNExpert/vector_store"]).
Proof.
  intros kb. etransitivity.
  - apply (add_documents_save_fails (Ext:=Faulty.external Faulty.DiskFull)
             kb [Toy.doc3] (Faulty.env_of Faulty.DiskFull [])
             [Toy.doc2] [Toy.doc2; Toy.doc3]
             [("/kb/YARNExpert/vector_store", None)]
             [("/kb/YARNExpert/vector_store", None)]
             (Exception "OSError: No space left on device")).
    + discriminate.
    + reflexivity.
    + reflexivity.
    + reflexivity.
    + reflexivity.
  - reflexivity.
Defined.


(** ** The registry of the manager *)

Section RegistryFacts.

Context `{Ext : External}.

Lemma dict_set_absent {V} (k : string) (v : V) (d : Py.dict V) :
  Py.dict_mem k d = false -> Py.dict_set k v d = (d ++ [(k, v)])%list.
Proof.
  unfold Py.dict_mem. induction d as [|[k' v'] d IH]; simpl; [reflexivity|].
  destruct (String.eqb k' k); simpl; [discriminate|].
  intros H. now rewrite IH.
Qed.

Lemma dict_mem_keys {V} (k : string) (d : Py.dict V) :
  Py.dict_mem k d = true <-> In k (Py.dict_keys d).
Proof.
  unfold Py.dict_mem, Py.dict_keys. induction d as [|[k' v'] d IH]; simpl.
  - split; [discriminate | tauto].
  - destruct (String.eqb_spec k' k) as [->|Hne]; simpl; [tauto|].
    rewrite IH. split; [tauto|]. intros [H|H]; [congruence | exact H].
Qed.

(** X8: [get_or_create_kb] is idempotent by name: for a name that is a
    key it returns the collection registered under it, and constructs
    nothing; the registry and the environment stay as they were. *)
Theorem get_or_create_kb_known (self : KnowledgeBaseManager)
    (name : string) (kb : KnowledgeBase) (env : Env) :
  Py.dict_get name (knowledge_bases self) = Some kb ->
  get_or_create_kb name self env = (Ok kb, self, env).
Proof.
  intros Hget. unfold get_or_create_kb, bind, get_self, ret, on_kb.
  assert (Py.dict_mem name (knowledge_bases self) = true) as ->
    by (apply dict_mem_get; eauto).
  simpl. rewrite Hget, dict_set_get_id by exact Hget. now destruct self.
Qed.

Lemma get_or_create_kb_absent (self : KnowledgeBaseManager) (name : string)
    (env : Env) :
  Py.dict_mem name (knowledge_bases self) = false ->
  get_or_create_kb name self env
  = match new_KnowledgeBase name None self env with
    | (Ok kb, _, env') =>
        (Ok kb,
         mkKnowledgeBaseManager (knowledge_bases self ++ [(name, kb)])%list,
         env')
    | (Raise e, _, env') => (Raise e, self, env')
    end.
Proof.
  intros Hmem. unfold get_or_create_kb, bind, get_self, set_self, on_kb.
  rewrite Hmem. simpl.
  pose proof (readonly_new_KnowledgeBase name None self env) as Hro.
  destruct (new_KnowledgeBase name None self env) as [[[kb|e] s'] env'];
    simpl in *.
  - rewrite dict_get_set_same.
    rewrite (dict_set_get_id name kb (Py.dict_set name kb _))
      by apply dict_get_set_same.
    now rewrite dict_set_absent by exact Hmem.
  - now subst.
Qed.

(** X9: for a name that is no key, [get_or_create_kb] constructs the
    collection with the default path; when the constructor returns,
    the collection is registered after the others, which stay as they
    were, and it is returned; when the constructor raises, so does
    [get_or_create_kb], and the registry is unchanged. *)
Theorem get_or_create_kb_new (self : KnowledgeBaseManager) (name : string)
    (env env' : Env) :
  Py.dict_mem name (knowledge_bases self) = false ->
  (forall kb s',
     new_KnowledgeBase name None self env = (Ok kb, s', env') ->
     get_or_create_kb name self env
     = (Ok kb,
        mkKnowledgeBaseManager (knowledge_bases self ++ [(name, kb)])%list,
        env')) /\
  (forall e s',
     new_KnowledgeBase name None self env = (Raise e, s', env') ->
     get_or_create_kb name self env = (Raise e, self, env')).
Proof.
  intros Hmem. split; intros x s' Hnew;
    rewrite get_or_create_kb_absent by exact Hmem; now rewrite Hnew.
Qed.

Lemma init_default_keys (names : list string) (self mgr : KnowledgeBaseManager)
    (env env' : Env) :
  NoDup names ->
  (forall name, In name names ->
                Py.dict_mem name (knowledge_bases self) = false) ->
  for_acc names
    (fun name _ => bind (get_or_create_kb name) (fun _ => ret tt)) tt
    self env = (Ok tt, mgr, env') ->
  Py.dict_keys (knowledge_bases mgr)
  = (Py.dict_keys (knowledge_bases self) ++ names)%list.
Proof.
  revert self env. induction names as [|name names IH];
    intros self env Hnd Hfresh; simpl.
  - intros H. injection H as <- _. now rewrite app_nil_r.
  - apply NoDup_cons in Hnd as [Hnotin Hnd].
    unfold bind at 1. unfold bind at 1.
    rewrite get_or_create_kb_absent by (apply Hfresh; now left).
    destruct (new_KnowledgeBase name None self env) as [[[kb|e] s1] env1];
      [|discriminate].
    unfold ret at 1. intros Hrest.
    apply IH in Hrest; [|exact Hnd|].
    + rewrite Hrest. unfold Py.dict_keys. simpl.
      rewrite map_app, <- app_assoc. reflexivity.
    + intros n Hn. simpl.
      destruct (Py.dict_mem n (knowledge_bases self ++ [(name, kb)]))
        eqn:E; [|reflexivity].
      apply dict_mem_keys in E. unfold Py.dict_keys in E.
      rewrite map_app in E. apply in_app_or in E as [E|E].
      * apply dict_mem_keys in E. rewrite Hfresh in E by (now right).
        discriminate.
      * simpl in E. destruct E as [<-|[]]. exfalso. apply Hnotin.
        now apply list_elem_of_In.
Qed.

(** X10: a manager the constructor returns holds exactly the five
    default collections, in the order of the list, each registered
    under its own name and with a store. *)
Theorem new_KnowledgeBaseManager_keys {S} (s s' : S) (env env' : Env)
    (mgr : KnowledgeBaseManager) :
  new_KnowledgeBaseManager s env = (Ok mgr, s', env') ->
  Py.dict_keys (knowledge_bases mgr)
  = ["NameNodeExpert"; "DataNodeExpert"; "YARNExpert"; "HistoryCases";
     "HadoopDocs"] /\
  (forall name kb,
     Py.dict_get name (knowledge_bases mgr) = Some kb ->
     kb_name kb = name /\ is_Some (vector_store kb)) /\
  s' = s.
Proof.
  intros Hnew.
  pose proof (new_KnowledgeBaseManager_ok s env mgr s' env' Hnew)
    as [[Hok _] Hs].
  split; [|split; [|exact Hs]].
  - unfold new_KnowledgeBaseManager, construct,
      _init_default_knowledge_bases in Hnew.
    destruct (for_acc default_kbs _ tt (mkKnowledgeBaseManager []) env)
      as [[[[]|e] mgr1] env1] eqn:Hfor; [|discriminate].
    injection Hnew as <- _ _.
    apply init_default_keys in Hfor; [exact Hfor| |reflexivity].
    unfold default_kbs. repeat constructor; simpl;
      rewrite ?list_elem_of_In; simpl; intuition discriminate.
  - intros name kb Hget.
    exact (dict_get_Forall _ name kb _ Hok Hget).
Qed.





(** X12: a non-empty name that is a key makes [search_knowledge] hand
    the request to the collection registered under it: it returns what
    that collection's [search] returns, with the events of that search
    and no other. *)
Theorem search_knowledge_one_collection (self : KnowledgeBaseManager)
    (query name : string) (kb : KnowledgeBase) (top_k : Z)
    (score_threshold : float) (env : Env) :
  name <> "" ->
  Py.dict_get name (knowledge_bases self) = Some kb ->
  exists results env',
    search query top_k score_threshold kb env = (Ok results, kb, env') /\
    search_knowledge query (Some name) top_k score_threshold self env
    = (Ok results, self, env').
Proof.
  intros Hne Hget. eexists _, _. split; [apply search_run|].
  now apply search_knowledge_known_name.
Qed.

End RegistryFacts.

(** X8 on the small instance. *)
Lemma get_or_create_kb_known_witness :
  let kb := @mkKnowledgeBase Toy.external "YARNExpert"
              "/opt/lc_agent/knowledge_base/YARNExpert" (Some [Toy.doc3]) in
  get_or_create_kb "YARNExpert" ToyRun.manager ToyRun.env
  = (Ok kb, ToyRun.manager, ToyRun.env).
Proof.
  intros kb. apply get_or_create_kb_known. vm_compute. reflexivity.
Defined.

(** X9 on the small instance: a sixth collection goes last. *)
Lemma get_or_create_kb_new_witness :
  Py.dict_keys
    (knowledge_bases
       (snd (fst (get_or_create_kb "Ops" ToyRun.manager ToyRun.env))))
  = (default_kbs ++ ["Ops"])%list.
Proof.
  pose (kb := @mkKnowledgeBase Toy.external "Ops"
                "/opt/lc_agent/knowledge_base/Ops" (Some [])).
  pose (env' := snd (new_KnowledgeBase "Ops" None ToyRun.manager ToyRun.env)).
  destruct (get_or_create_kb_new ToyRun.manager "Ops" ToyRun.env env')
    as [Hok _].
  - vm_compute. reflexivity.
  - rewrite (Hok kb ToyRun.manager) by (vm_compute; reflexivity).
    vm_compute. reflexivity.
Defined.

(** X10 on the small instance. *)
Lemma new_KnowledgeBaseManager_keys_witness :
  exists mgr env',
    new_KnowledgeBaseManager tt Toy.env0 = (Ok mgr, tt, env') /\
    Py.dict_keys (knowledge_bases mgr) = default_kbs.
Proof.
  destruct (new_KnowledgeBaseManager tt Toy.env0) as [[r s'] env'] eqn:E.
  assert (exists mgr, r = Ok mgr /\ s' = tt) as (mgr & -> & ->).
  { apply (f_equal (fun x => (fst (fst x), snd (fst x)))) in E.
    vm_compute in E. injection E as <- <-. eauto. }
  destruct (new_KnowledgeBaseManager_keys (Ext:=Toy.external) tt tt Toy.env0
              env' mgr E) as (Hkeys & _).
  exists mgr, env'. split; [reflexivity | exact Hkeys].
Defined.

(** X12 on the small instance. *)
Lemma search_knowledge_one_collection_witness :
  exists env',
    search_knowledge "heap" (Some "NameNodeExpert") 3 0.4 ToyRun.manager
      ToyRun.env
    = (Ok [(Toy.doc2, 0%float)], ToyRun.manager, env').
Proof.
  pose (kb := @mkKnowledgeBase Toy.external "NameNodeExpert"
                "/opt/lc_agent/knowledge_base/NameNodeExpert"
                (Some [Toy.doc1; Toy.doc2])).
  destruct (search_knowledge_one_collection ToyRun.manager "heap"
              "NameNodeExpert" kb 3 0.4 ToyRun.env)
    as (results & env' & Hsearch & Hrun).
  - discriminate.
  - vm_compute. reflexivity.
  - exists env'. rewrite Hrun. f_equal. f_equal.
    apply (f_equal (fun x => fst (fst x))) in Hsearch.
    vm_compute in Hsearch. now injection Hsearch.
Defined.

(** ** The module's manager and entry point *)

Section ModuleFacts.

Context `{Ext : External}.

(** X13: the manager is built once.  After a call of [get_kb_manager]
    that returned, the manager is there, and a further call, in any
    environment, changes nothing.  A call in which the constructor of
    the manager raises leaves [_kb_manager] at [None], so that the next
    call tries again. *)
Theorem get_kb_manager_once (g g' : Globals) (env env' : Env)
    (r : Res unit) :
  get_kb_manager g env = (r, g', env') ->
  match r with
  | Ok _ =>
      is_Some (_kb_manager g') /\
      forall env'', get_kb_manager g' env'' = (Ok tt, g', env'')
  | Raise _ => _kb_manager g = None /\ g' = g
  end.
Proof.
  intros Hrun. destruct g as [[mgr|]].
  - rewrite (get_kb_manager_some _ mgr) in Hrun by reflexivity.
    injection Hrun as <- <- _. split; [simpl; eauto|].
    intros env''. now apply (get_kb_manager_some _ mgr).
  - pose proof (get_kb_manager_run (mkGlobals None) env I) as H.
    rewrite Hrun in H. destruct r as [[]|e].
    + destruct H as (mgr & -> & _). split; [simpl; eauto|].
      intros env''. now apply (get_kb_manager_some _ mgr).
    + destruct H as [-> _]. auto.
Qed.

(** X14: once the manager is there, [search_diagnosis_knowledge] always
    returns a text, whatever its arguments and whatever the stores do;
    the registry of the manager and the file system stay as they
    were. *)
Theorem search_diagnosis_knowledge_returns (query expert_type : string)
    (top_k : Z) (score_threshold : float) (g : Globals)
    (mgr : KnowledgeBaseManager) (env : Env) :
  _kb_manager g = Some mgr ->
  exists out evs,
    search_diagnosis_knowledge query expert_type top_k score_threshold g env
    = (Ok out, g, mkEnv (fs env) (trace env ++ evs)%list).
Proof.
  intros Hg. destruct g as [m]. simpl in Hg. subst m.
  rewrite search_diagnosis_knowledge_unfold.
  rewrite (get_kb_manager_some _ mgr) by reflexivity.
  destruct (search_and_format_run query expert_type top_k score_threshold
              mgr env) as (results & env' & Hsearch & ->).
  destruct (search_knowledge_readonly mgr query (topic_for expert_type)
              top_k score_threshold env) as (results' & evs & Hro).
  rewrite Hro in Hsearch. injection Hsearch as _ <-. eauto.
Qed.

Lemma kb_name_for_lower (a b : string) :
  Py.lower a = Py.lower b -> kb_name_for a = kb_name_for b.
Proof. intros H. unfold kb_name_for. now rewrite H. Qed.

(** X15: [search_diagnosis_knowledge] looks at its [expert_type] only
    through the lower-cased form: two labels with the same lower-cased
    form give the same outcome, in every state. *)
Theorem search_diagnosis_knowledge_ignores_case
    (query type1 type2 : string) (top_k : Z) (score_threshold : float)
    (g : Globals) (env : Env) :
  Py.lower type1 = Py.lower type2 ->
  search_diagnosis_knowledge query type1 top_k score_threshold g env
  = search_diagnosis_knowledge query type2 top_k score_threshold g env.
Proof.
  intros Hlow. rewrite !search_diagnosis_knowledge_unfold.
  destruct (get_kb_manager g env) as [[[[]|e] g1] env1]; [|reflexivity].
  unfold search_and_format, bind, ret, on_manager. rewrite Hlow.
  destruct (String.eqb (Py.lower type2) "all"); [reflexivity|].
  destruct (_kb_manager g1) as [mgr|]; [|reflexivity].
  rewrite !match_knowledge_base_run.
  now rewrite (kb_name_for_lower type1 type2 Hlow).
Qed.

(** X16: the collection HadoopDocs is registered, and no label leads to
    it: in a sound state of the module, a call with an [expert_type]
    whose lower-cased form is not ["all"] never searches the store of
    HadoopDocs. *)
Theorem hadoop_docs_never_matched (query expert_type : string) (top_k : Z)
    (score_threshold : float) (g : Globals) (env : Env) :
  globals_ok g ->
  Py.lower expert_type <> "all" ->
  In "HadoopDocs" default_kbs /\
  exists new,
    trace (snd (search_diagnosis_knowledge query expert_type top_k
                  score_threshold g env)) = (trace env ++ new)%list /\
    ~ In "HadoopDocs" (searched new).
Proof.
  intros Hg Hnot. split; [simpl; tauto|].
  destruct (search_diagnosis_knowledge_cases query expert_type top_k
              score_threshold g env Hg)
    as [(e & env1 & setup & -> & Hnone & Htrace & Hquiet)
       |(mgr & env1 & setup & results & evs & Hinv & Htrace & Hquiet
         & _ & -> & Hcase)]; simpl.
  - exists setup. split; [exact Htrace|].
    now rewrite (searched_quiet setup Hquiet).
  - exists (setup ++ evs)%list. rewrite Htrace, app_assoc.
    split; [reflexivity|].
    rewrite searched_app, (searched_quiet setup Hquiet). simpl.
    destruct (String.eqb_spec (Py.lower expert_type) "all") as [Hall|_];
      [congruence|].
    destruct Hcase as (kb & _ & Hkb & _ & ->).
    rewrite (search_events_searched (kb_name_for expert_type)) by exact Hkb.
    pose proof (kb_name_for_default expert_type) as Hfour.
    simpl in *. intros [H|[]]. rewrite H in Hfour.
    intuition discriminate.
Qed.

(** X17: the invariant of the module.  In every state its functions
    lead to from the start, a manager that is there holds each of the
    five default collections, and every collection of its registry is
    registered under its own name and has a store. *)
Theorem reachable_state_sound (g : Globals) (mgr : KnowledgeBaseManager) :
  reachable g ->
  _kb_manager g = Some mgr ->
  (forall name, In name default_kbs ->
                is_Some (Py.dict_get name (knowledge_bases mgr))) /\
  (forall name kb,
     Py.dict_get name (knowledge_bases mgr) = Some kb ->
     kb_name kb = name /\ is_Some (vector_store kb)).
Proof.
  intros Hreach Hmgr. apply reachable_globals_ok in Hreach.
  unfold globals_ok in Hreach. rewrite Hmgr in Hreach. split.
  - intros name Hin.
    destruct (registry_inv_key mgr name Hreach Hin) as (kb & Hget & _).
    eauto.
  - intros name kb Hget. destruct Hreach as [Hok _].
    exact (dict_get_Forall _ name kb _ Hok Hget).
Qed.

End ModuleFacts.

(** X13 on the small instance: the first call builds the manager, the
    second finds it. *)
Lemma get_kb_manager_once_witness :
  let g' := snd (fst (get_kb_manager (@mkGlobals Toy.external None)
                        Toy.env0)) in
  is_Some (_kb_manager g') /\
  forall env'', get_kb_manager g' env'' = (Ok tt, g', env'').
Proof.
  intros g'.
  apply (get_kb_manager_once (mkGlobals None) g' Toy.env0
           (snd (get_kb_manager (@mkGlobals Toy.external None) Toy.env0))
           (Ok tt)).
  subst g'.
  destruct (get_kb_manager (@mkGlobals Toy.external None) Toy.env0)
    as [[r g1] env1] eqn:E.
  apply (f_equal (fun x => fst (fst x))) in E. vm_compute in E.
  simpl. now rewrite <- E.
Defined.

(** X14 on the small instance. *)
Lemma search_diagnosis_knowledge_returns_witness :
  exists out evs,
    search_diagnosis_knowledge "heap" "namenode" 3 0.4 ToyRun.globals
      ToyRun.env
    = (Ok out, ToyRun.globals,
       mkEnv (fs ToyRun.env) (trace ToyRun.env ++ evs)%list).
Proof.
  apply (search_diagnosis_knowledge_returns "heap" "namenode" 3 0.4
           ToyRun.globals ToyRun.manager ToyRun.env).
  vm_compute. reflexivity.
Defined.

(** X15 on the small instance. *)
Lemma search_diagnosis_knowledge_ignores_case_witness :
  search_diagnosis_knowledge "heap" "NameNode" 3 0.4 ToyRun.globals
    ToyRun.env
  = search_diagnosis_knowledge "heap" "namenode" 3 0.4 ToyRun.globals
      ToyRun.env.
Proof.
  apply search_diagnosis_knowledge_ignores_case. vm_compute. reflexivity.
Defined.

(** X16 on the small instance. *)
Lemma hadoop_docs_never_matched_witness :
  exists new,
    trace (snd (search_diagnosis_knowledge "heap" "hadoop" 3 0.4
                  ToyRun.globals ToyRun.env))
    = (trace ToyRun.env ++ new)%list /\
    ~ In "HadoopDocs" (searched new).
Proof.
  destruct (hadoop_docs_never_matched "heap" "hadoop" 3 0.4 ToyRun.globals
              ToyRun.env) as [_ H].
  - exact toy_globals_ok.
  - vm_compute. discriminate.
  - exact H.
Defined.

(** X17 on the small instance, in the state after one call of
    [add_texts] on a collection that was not there. *)
Lemma reachable_state_sound_witness :
  let g := snd (fst (run_call (CallAddTexts "Ops" ["restart the node"] None)
                       (@mkGlobals Toy.external None) Toy.env0)) in
  exists mgr,
    _kb_manager g = Some mgr /\
    (forall name, In name default_kbs ->
                  is_Some (Py.dict_get name (knowledge_bases mgr))) /\
    (forall name kb,
       Py.dict_get name (knowledge_bases mgr) = Some kb ->
       kb_name kb = name /\ is_Some (vector_store kb)).
Proof.
  intros g. destruct (_kb_manager g) as [mgr|] eqn:Hmgr.
  - exists mgr. split; [reflexivity|].
    apply (reachable_state_sound g mgr); [|exact Hmgr].
    apply reachable_call, reachable_start.
  - vm_compute in Hmgr. discriminate.
Defined.

Example reachable_state_has_manager :
  Py.dict_keys
    (match _kb_manager
             (snd (fst (run_call
                          (CallAddTexts "Ops" ["restart the node"] None)
                          (@mkGlobals Toy.external None) Toy.env0))) with
     | Some mgr => knowledge_bases mgr
     | None => []
     end)
  = (default_kbs ++ ["Ops"])%list.
Proof. vm_compute. reflexivity. Qed.

(** ** NaN in [search] *)

Section SearchNaN.

Context `{Ext : External}.

Lemma SFleb_nan (x : spec_float) : SFleb x x = false -> x = S754_nan.
Proof.
  unfold SFleb, SFcompare. destruct x as [[]|[]| |[] m e]; simpl;
    try congruence; rewrite ?Z.compare_refl;
    change (Pos.compare_cont Eq m m) with (Pos.compare m m);
    rewrite ?Pos.compare_refl; simpl; congruence.
Qed.

Lemma SFleb_nan_r (x : spec_float) : SFleb x S754_nan = false.
Proof. now destruct x as [[]|[]| |[] m e]. Qed.

Lemma SFsub_nan_r (x : spec_float) : SF64sub x S754_nan = S754_nan.
Proof. now destruct x as [[]|[]| |[] m e]. Qed.

Lemma SFmul_nan_l (y : spec_float) : SF64mul S754_nan y = S754_nan.
Proof. reflexivity. Qed.

(** With a threshold that is NaN no distance passes. *)
Lemma within_threshold_nan (t score : float) :
  ~ is_number t -> within_threshold t score = false.
Proof.
  unfold is_number, within_threshold, Np.le32, Np.float32. intros Hnan.
  apply Bool.not_true_is_false in Hnan.
  rewrite leb_spec in Hnan. apply SFleb_nan in Hnan.
  assert (Prim2SF ((1 - t) * 10) = S754_nan) as Hbound
    by now rewrite mul_spec, sub_spec, Hnan, SFsub_nan_r, SFmul_nan_l.
  rewrite Hbound, leb_spec, Hbound. apply SFleb_nan_r.
Qed.

(** X18: NaN never passes the filter of [search].  No pair [search]
    returns has a distance that is NaN, whatever the index answered;
    and with a [score_threshold] that is NaN, [search] returns the
    empty list, whatever the index answered. *)
Theorem search_drops_nan (self : KnowledgeBase) (query : string)
    (top_k : Z) (score_threshold : float) (env : Env) :
  exists r env',
    search query top_k score_threshold self env = (Ok r, self, env') /\
    (forall doc score, In (doc, score) r -> is_number score) /\
    (~ is_number score_threshold -> r = []).
Proof.
  eexists _, _. split; [apply search_run|]. split.
  - intros doc score Hin.
    pose proof (search_result_numbers self query top_k score_threshold) as H.
    rewrite Forall_forall in H.
    apply (H (doc, score)). now apply list_elem_of_In.
  - intros Hnan. unfold search_result.
    destruct (index_answer self query top_k) as [answer|e]; [|reflexivity].
    induction answer as [|p l IH]; [reflexivity|]. simpl.
    now rewrite (within_threshold_nan _ _ Hnan).
Qed.

End SearchNaN.

(** On the small instance, with the threshold NaN, the document at
    distance 0 is dropped too. *)
Example search_nan_threshold_toy :
  fst (fst (search "heap" 3 nan (Toy.kb_of "NameNodeExpert"
                                   [Toy.doc1; Toy.doc2]) Toy.env0))
  = Ok [].
Proof. vm_compute. reflexivity. Qed.

(** * class SimpleEmbeddings *)

Section SimpleEmbeddingsFacts.

Context `{Ext : External}.
Local Open Scope py_scope.

(** X19: the constructor of [SimpleEmbeddings] never raises, whatever
    the library does.  It returns an object with the name given, and
    leaves in the trace nothing, or the one warning of a failed load.
    Without the library the environment is untouched and there is no
    encoder; when loading the model raises, there is no encoder either,
    and the warning carries the exception's text. *)
Theorem new_SimpleEmbeddings_never_raises {S} (name : string) (s : S)
    (env : Env) :
  exists obj env' new,
    new_SimpleEmbeddings name s env = (Ok obj, s, env') /\
    model_name obj = name /\
    trace env' = (trace env ++ new)%list /\
    (new = [] \/
     exists e,
       new = [Log WARNING ("加载sentence-transformer失败: " +:+ str_exn e
                             +:+ "，使用简化版")] /\
       embedder obj = None) /\
    (SENTENCE_TRANSFORMER_AVAILABLE = false ->
     embedder obj = None /\ env' = env).
Proof.
  unfold new_SimpleEmbeddings, construct.
  destruct SENTENCE_TRANSFORMER_AVAILABLE eqn:Havail.
  - unfold try_except, bind, fs_test, fs_new, set_embedder, logging, emit.
    simpl.
    destruct (os_path_exists _ (fs env));
      match goal with
      | |- context [SentenceTransformer ?a ?b ?c] =>
          destruct (SentenceTransformer a b c) as [[m|e] fs1]
      end; simpl;
      eexists _, _, _;
      (split; [reflexivity|]); (split; [reflexivity|]); simpl;
      try (split; [symmetry; apply app_nil_r|]; split;
           [now left | discriminate]);
      (split; [reflexivity|]); (split; [|discriminate]);
      right; eauto.
  - simpl. exists (mkSimpleEmbeddings name None), env, [].
    rewrite app_nil_r. repeat split; auto.
Qed.

(** X20: without a usable encoder the embeddings carry no information.
    [embed_documents] returns one vector for each text, every one of
    them 384 zeros, after the one warning; the object is unchanged; and
    [embed_query] gives, in whatever environment and for whatever
    query, that same vector, so that every query is at distance zero
    of every text. *)
Theorem simple_embeddings_degraded (self : SimpleEmbeddings)
    (texts : list string) (env : Env) :
  usable self = None ->
  exists vecs,
    embed_documents texts self env
    = (Ok vecs, self, mkEnv (fs env) (trace env ++ [simplified_warning])) /\
    length vecs = length texts /\
    Forall (fun v => length v = 384 /\ Forall (fun x => x = 0%float) v) vecs /\
    forall query env2,
      exists v,
        embed_query query self env2
        = (Ok v, self,
           mkEnv (fs env2) (trace env2 ++ [simplified_warning])) /\
        Forall (fun w => w = v) vecs.
Proof.
  intros Hno. unfold embed_documents, embed_query, bind, get_self, emit, ret.
  rewrite Hno. eexists. split; [reflexivity|]. split; [apply length_map|].
  split.
  - apply Forall_forall. intros v Hv. apply list_elem_of_In in Hv.
    apply in_map_iff in Hv as (t & <- & _). split.
    + apply length_replicate.
    + apply Forall_forall. intros x Hx.
      now apply elem_of_replicate in Hx as [-> _].
  - intros query env2. eexists. split; [reflexivity|].
    apply Forall_forall. intros v Hv. apply list_elem_of_In in Hv.
    now apply in_map_iff in Hv as (t & <- & _).
Qed.

(** X21: a failed load is not an error of the constructor, and shows
    only in the vectors.  Without the library, or when loading the
    model raises, the constructor returns an object, and that object
    embeds every list of texts as vectors of 384 zeros, one for each
    text. *)
Theorem new_SimpleEmbeddings_fallback {S} (name : string) (s : S)
    (env : Env) :
  SENTENCE_TRANSFORMER_AVAILABLE = false \/
  (exists e, fst (load_outcome (fs env)) = Raise e) ->
  exists obj env',
    new_SimpleEmbeddings name s env = (Ok obj, s, env') /\
    forall texts env2,
      fst (fst (embed_documents texts obj env2))
      = Ok (map (fun _ => replicate 384 0%float) texts).
Proof.
  intros Hcase.
  assert (exists env',
            new_SimpleEmbeddings name s env
            = (Ok (mkSimpleEmbeddings name None), s, env')) as [env' Hnew].
  { unfold new_SimpleEmbeddings, construct.
    destruct SENTENCE_TRANSFORMER_AVAILABLE.
    - destruct Hcase as [Hf|[e Hraise]]; [discriminate|].
      unfold load_outcome in Hraise. revert Hraise.
      unfold try_except, bind, fs_test, fs_new, set_embedder, logging, emit.
      simpl.
      destruct (os_path_exists _ (fs env));
        match goal with
        | |- context [SentenceTransformer ?a ?b ?c] =>
            destruct (SentenceTransformer a b c) as [[m|e'] fs1]
        end; simpl; intros [=]; eauto.
    - simpl. eauto. }
  exists (mkSimpleEmbeddings name None), env'. split; [exact Hnew|].
  reflexivity.
Qed.

End SimpleEmbeddingsFacts.

(** ** The small instance with the sentence-transformers library *)

Module ToyST.

Definition library : External := Toy.external_with true.

Definition env_of (tree : Py.dict (option (list Document))) : @Env library :=
  @mkEnv library tree [].

End ToyST.

(** With the library and no model on disk the load fails, and the
    constructor returns with the warning. *)
Example new_SimpleEmbeddings_no_model :
  @new_SimpleEmbeddings ToyST.library unit "sentence-transformer" tt
    (ToyST.env_of [])
  = (Ok (@mkSimpleEmbeddings ToyST.library "sentence-transformer" None), tt,
     @mkEnv ToyST.library []
       [Log WARNING
          "加载sentence-transformer失败: OSError: no network，使用简化版"]).
Proof. vm_compute. reflexivity. Qed.

(** With the model on disk the encoder is used, and nothing is
    recorded. *)
Example embed_documents_with_model :
  let env := ToyST.env_of
               [("/opt/lc_agent/models/sentence-transformer", Some [])] in
  match @new_SimpleEmbeddings ToyST.library unit "m" tt env with
  | (Ok obj, _, env') =>
      @embed_documents ToyST.library ["heap"; "port"; "a"] obj env'
      = (Ok [[4%float]; [4%float]; [1%float]], obj, env)
  | _ => False
  end.
Proof. vm_compute. reflexivity. Qed.

(** X20 on the small instance, for an object that never had an
    encoder. *)
Lemma simple_embeddings_degraded_witness :
  exists vecs,
    embed_documents ["heap"; "port in use"]
      (@mkSimpleEmbeddings Toy.external "m" None) Toy.env0
    = (Ok vecs, @mkSimpleEmbeddings Toy.external "m" None,
       @mkEnv Toy.external [] [simplified_warning]) /\
    length vecs = 2.
Proof.
  destruct (@simple_embeddings_degraded Toy.external
              (@mkSimpleEmbeddings Toy.external "m" None)
              ["heap"; "port in use"] Toy.env0 eq_refl)
    as (vecs & Hrun & Hlen & _).
  exists vecs. split; [exact Hrun | exact Hlen].
Defined.

(** X21 on the small instance: the library is there, the model is
    not. *)
Lemma new_SimpleEmbeddings_fallback_witness :
  exists obj env',
    @new_SimpleEmbeddings ToyST.library unit "m" tt (ToyST.env_of [])
    = (Ok obj, tt, env') /\
    fst (fst (@embed_documents ToyST.library ["heap"] obj env'))
    = Ok [replicate 384 0%float].
Proof.
  destruct (@new_SimpleEmbeddings_fallback ToyST.library unit "m" tt
              (ToyST.env_of [])) as (obj & env' & Hnew & Hzero).
  - right. exists (Exception "OSError: no network"). vm_compute. reflexivity.
  - exists obj, env'. split; [exact Hnew|]. apply (Hzero ["heap"] env').
Defined.

(** * What construction does, and the sample data *)

Section Construction.

Context `{Ext : External}.
Local Open Scope py_scope.

(** An event of the construction of a collection: a call that makes a
    directory, loads a saved store, or builds the placeholder store and
    empties it, the record of a store loaded, or the warning of a
    store or of an embedding model that failed to load. *)
Definition construction (ev : Event) : Prop :=
  match ev with
  | Makedirs _ | LoadLocal _ | FromTexts _ _ | Delete _ _ => True
  | Log INFO msg => exists name, msg = "成功加载知识库: " +:+ name
  | Log WARNING msg =>
      (exists e, msg = "加载向量存储失败: " +:+ e +:+ "，将创建新的") \/
      (exists e, msg = "加载sentence-transformer失败: " +:+ e +:+ "，使用简化版")
  | _ => False
  end.

Lemma constructs_load_or_create :
  emits construction _load_or_create_vector_store.
Proof.
  unfold _load_or_create_vector_store.
  apply emits_bind; [now apply emits_silent|]. intros self.
  apply emits_bind; [now apply emits_silent|]. intros found.
  apply emits_bind.
  { destruct found; [|now apply emits_silent].
    apply emits_bind; [now apply emits_silent|]. intros names.
    now apply emits_silent. }
  intros listed. apply emits_bind.
  { destruct listed; [|now apply emits_silent]. apply emits_try_except.
    - apply emits_bind; [now apply emits_emit|]. intros _.
      apply emits_bind; [now apply emits_silent|]. intros vs.
      apply emits_bind; [now apply emits_silent|]. intros _.
      apply emits_emit. simpl. eauto.
    - intros e. apply emits_bind; [|intros _; now apply emits_silent].
      apply emits_emit. simpl. eauto. }
  intros _. apply emits_bind; [now apply emits_silent|]. intros self'.
  destruct (vector_store self'); [now apply emits_silent|].
  apply emits_bind; [now apply emits_emit|]. intros _.
  apply emits_bind; [now apply emits_silent|]. intros vs.
  apply emits_bind; [now apply emits_silent|]. intros _.
  now apply emits_store_call.
Qed.

Lemma constructs_new_KnowledgeBase {S} (name : string)
    (path : option string) :
  emits construction (@new_KnowledgeBase _ S name path).
Proof.
  unfold new_KnowledgeBase. apply emits_construct.
  apply emits_bind; [now apply emits_silent|]. intros self.
  apply emits_bind; [now apply emits_emit|]. intros _.
  apply emits_bind; [apply emits_fs_call|]. intros _.
  apply emits_bind.
  { apply emits_new_SimpleEmbeddings. intros e. simpl. eauto. }
  intros _.
  apply emits_bind; [now apply emits_silent|]. intros _.
  apply constructs_load_or_create.
Qed.

Lemma constructs_get_or_create_kb (name : string) :
  emits construction (get_or_create_kb name).
Proof.
  unfold get_or_create_kb.
  apply emits_bind; [now apply emits_silent|]. intros self.
  apply emits_bind; [|intros _; apply emits_on_kb; now apply emits_silent].
  destruct (negb _); [|now apply emits_silent].
  apply emits_bind; [apply constructs_new_KnowledgeBase|]. intros kb.
  now apply emits_silent.
Qed.

Lemma constructs_get_kb_manager : emits construction get_kb_manager.
Proof.
  unfold get_kb_manager.
  apply emits_bind; [now apply emits_silent|]. intros g.
  destruct (_kb_manager g); [now apply emits_silent|].
  apply emits_bind; [|intros mgr; now apply emits_silent].
  unfold new_KnowledgeBaseManager. apply emits_construct.
  unfold _init_default_knowledge_bases. apply emits_for_acc.
  intros name _. apply emits_bind; [apply constructs_get_or_create_kb|].
  intros _. now apply emits_silent.
Qed.

(** The names of the collections saved, in order. *)
Definition saved (evs : list Event) : list string :=
  concat (map (fun ev => match ev with
                         | SaveLocal name _ => [name]
                         | _ => []
                         end) evs).

(** The documents handed to the stores, in order. *)
Definition added (evs : list Event) : list Document :=
  concat (map (fun ev => match ev with
                         | AddDocuments _ docs => docs
                         | _ => []
                         end) evs).

Lemma saved_app (a b : list Event) :
  saved (a ++ b) = (saved a ++ saved b)%list.
Proof. unfold saved. now rewrite map_app, concat_app. Qed.

Lemma saved_construction (evs : list Event) :
  Forall construction evs -> saved evs = [].
Proof.
  induction 1 as [|ev evs Hev _ IH]; [reflexivity|].
  unfold saved in *. simpl. rewrite IH.
  destruct ev; simpl in *; tauto.
Qed.


End Construction.

(** With the library there and its model not, each of the five
    collections is built after a warning of the embeddings object. *)
Example get_kb_manager_model_missing :
  trace (snd (get_kb_manager
                (@mkGlobals (Faulty.external Faulty.ModelMissing) None)
                (Faulty.env_of Faulty.ModelMissing [])))
  = concat (map (fun name =>
                   [Makedirs ("/opt/lc_agent/knowledge_base/" +:+ name);
                    Log WARNING
                      "加载sentence-transformer失败: OSError: no network，使用简化版";
                    FromTexts name ["初始化"];
                    Delete name 0])
                default_kbs).
Proof. vm_compute. reflexivity. Qed.

Example get_kb_manager_constructs_five :
  trace (snd (get_kb_manager (@mkGlobals Toy.external None) Toy.env0))
  = concat (map (fun name =>
                   [Makedirs ("/opt/lc_agent/knowledge_base/" +:+ name);
                    FromTexts name ["初始化"];
                    Delete name 0])
                default_kbs).
Proof. vm_compute. reflexivity. Qed.

(** ** [init_sample_knowledge] *)

Section SampleKnowledge.

Context `{Ext : External}.
Local Open Scope py_scope.

(** [{"source": source, "desc": desc}] *)
Definition sample_metadata (source desc : string) : gmap string string :=
  <["source" := source]> (<["desc" := desc]> ∅).

Definition namenode_texts : list string :=
  ["NameNode无法启动的常见原因：1) 配置文件错误 2) 端口被占用 3) 磁盘空间不足";
   "NameNode启动失败时，检查hdfs-site.xml和core-site.xml配置是否正确";
   "NameNode内存溢出时，需要增加JVM堆内存大小，修改hadoop-env.sh中的HADOOP_HEAPSIZE"].

Definition namenode_metadatas : list (gmap string string) :=
  [sample_metadata "Hadoop官方文档" "NameNode启动问题";
   sample_metadata "故障案例" "配置检查";
   sample_metadata "故障案例" "内存问题"].

Definition datanode_texts : list string :=
  ["DataNode无法连接NameNode时，检查网络连接和防火墙设置";
   "DataNode磁盘空间不足会导致数据块复制失败";
   "DataNode心跳超时可能是网络延迟或NameNode负载过高"].

Definition datanode_metadatas : list (gmap string string) :=
  [sample_metadata "故障案例" "连接问题";
   sample_metadata "故障案例" "存储问题";
   sample_metadata "故障案例" "心跳问题"].

(** The lines of [init_sample_knowledge] between the call of
    [get_kb_manager] and the last record, on the manager.
    [namenode_kb] and [datanode_kb] are the objects held in the
    registry; the loop is over the values of the registry. *)
Definition fill_and_save : M KnowledgeBaseManager unit :=
  get_or_create_kb "NameNodeExpert" ;;
  on_kb "NameNodeExpert"
    (add_texts namenode_texts (Some namenode_metadatas)) ;;
  get_or_create_kb "DataNodeExpert" ;;
  on_kb "DataNodeExpert"
    (add_texts datanode_texts (Some datanode_metadatas)) ;;
  self <- get_self ;;
  for_acc (seq 0 (length (knowledge_bases self)))
    (fun i _ => on_value i save) tt.

Definition init_sample_knowledge : M Globals unit :=
  get_kb_manager ;;
  on_manager fill_and_save ;;
  logging INFO "示例知识库数据初始化完成".

(** The documents [add_texts] makes of the sample texts. *)
Definition sample_documents : list Document :=
  (zip_with mkDocument namenode_texts namenode_metadatas
   ++ zip_with mkDocument datanode_texts datanode_metadatas)%list.

Lemma get_or_create_kb_registered (self : KnowledgeBaseManager)
    (name : string) (kb : KnowledgeBase) (env : Env) :
  Py.dict_get name (knowledge_bases self) = Some kb ->
  get_or_create_kb name self env = (Ok kb, self, env).
Proof.
  intros Hget. unfold get_or_create_kb, bind, get_self, ret, on_kb.
  assert (Py.dict_mem name (knowledge_bases self) = true) as ->
    by (apply dict_mem_get; eauto).
  simpl. rewrite Hget, dict_set_get_id by exact Hget. now destruct self.
Qed.

Lemma save_ok (self self' : KnowledgeBase) (env env' : Env) :
  save self env = (Ok tt, self', env') ->
  self' = self /\
  trace env'
  = (trace env ++ [Makedirs (vector_store_path self);
                   SaveLocal (kb_name self) (vector_store_path self);
                   Log INFO ("知识库已保存: " +:+ kb_name self)])%list.
Proof.
  unfold save, vector_store_path, bind, get_self, emit, fs_call,
    store_save_local, logging, emit. simpl.
  destruct (os_makedirs _ (fs env)) as [[[]|e] fs1]; simpl; [|discriminate].
  destruct (vector_store self) as [vs|]; simpl; [|discriminate].
  destruct (FAISS_save_local _ vs fs1) as [[[]|e] fs2]; simpl;
    [|discriminate].
  intros [= <- <-]. simpl. rewrite <- !app_assoc. auto.
Qed.

(** The loop [for kb in self.knowledge_bases.values(): kb.save()],
    when it comes to its end. *)
Lemma for_acc_save (self mgr' : KnowledgeBaseManager)
    (rest pre : list (string * KnowledgeBase)) (env env' : Env) :
  knowledge_bases self = (pre ++ rest)%list ->
  for_acc (seq (length pre) (length rest)) (fun i _ => on_value i save) tt
    self env = (Ok tt, mgr', env') ->
  mgr' = self /\
  exists evs,
    trace env' = (trace env ++ evs)%list /\
    saved evs = map (fun kv => kb_name (snd kv)) rest /\
    added evs = [].
Proof.
  revert pre env. induction rest as [|[name kb] rest IH];
    intros pre env Hk; simpl.
  - intros [= <- <-]. split; [reflexivity|]. exists [].
    now rewrite app_nil_r.
  - unfold bind at 1. unfold on_value at 1.
    assert (knowledge_bases self !! length pre = Some (name, kb)) as Hi
      by (rewrite Hk; now apply list_lookup_middle).
    rewrite Hi.
    destruct (save kb env) as [[[[]|e] kb1] env1] eqn:Hsave;
      [|discriminate].
    apply save_ok in Hsave as [-> Htr1].
    rewrite list_insert_id by exact Hi.
    replace (mkKnowledgeBaseManager (knowledge_bases self)) with self
      by now destruct self.
    specialize (IH (pre ++ [(name, kb)])%list env1).
    rewrite length_app, Nat.add_1_r in IH.
    intros Hloop.
    apply IH in Hloop as (-> & evs & Htr & Hsaved & Hadded);
      [|rewrite <- app_assoc; exact Hk].
    split; [reflexivity|].
    eexists. rewrite Htr, Htr1, <- app_assoc. split; [reflexivity|].
    unfold saved, added in *. simpl. rewrite Hsaved, Hadded. auto.
Qed.

(** [add_texts] with texts and metadatas, on a collection of the
    registry, when it returns. *)
Lemma on_kb_add_texts_ok (self mgr' : KnowledgeBaseManager) (name : string)
    (kb : KnowledgeBase) (t : string) (texts : list string)
    (m : gmap string string) (ms : list (gmap string string))
    (env env' : Env) :
  registry_inv default_kbs self ->
  Py.dict_get name (knowledge_bases self) = Some kb ->
  on_kb name (add_texts (t :: texts) (Some (m :: ms))) self env
  = (Ok tt, mgr', env') ->
  registry_inv default_kbs mgr' /\
  Py.dict_keys (knowledge_bases mgr') = Py.dict_keys (knowledge_bases self) /\
  exists evs,
    trace env' = (trace env ++ evs)%list /\
    saved evs = [name] /\
    added evs = zip_with mkDocument (t :: texts) (m :: ms).
Proof.
  intros Hinv Hget Hrun.
  assert (kb_named name kb) as [Hname _].
  { destruct Hinv as [Hok _]. exact (dict_get_Forall _ name kb _ Hok Hget). }
  pose proof (keeps_on_kb default_kbs name
                (add_texts (t :: texts) (Some (m :: ms)))
                (keeps_add_texts name _ _) self env Hinv) as Hkeep.
  rewrite Hrun in Hkeep. simpl in Hkeep. split; [exact Hkeep|].
  unfold on_kb in Hrun. rewrite Hget in Hrun.
  destruct (add_texts (t :: texts) (Some (m :: ms)) kb env)
    as [[r kb1] env1] eqn:Hadd.
  injection Hrun as -> <- <-. split.
  { simpl. apply dict_keys_set_known. apply dict_mem_get. eauto. }
  unfold add_texts in Hadd. rewrite zip_documents in Hadd.
  apply add_documents_ok in Hadd as (vs1 & _ & _ & Htr); [|discriminate].
  exists (add_events kb (zip_with mkDocument (t :: texts) (m :: ms))).
  split; [exact Htr|]. unfold saved, added, add_events. simpl.
  rewrite Hname, app_nil_r. auto.
Qed.

Lemma bind_ok {S A B} (m : M S A) (k : A -> M S B) (s s' : S)
    (env env' : Env) (b : B) :
  bind m k s env = (Ok b, s', env') ->
  exists a s1 env1,
    m s env = (Ok a, s1, env1) /\ k a s1 env1 = (Ok b, s', env').
Proof.
  unfold bind. destruct (m s env) as [[[a|e] s1] env1]; [eauto|discriminate].
Qed.

Lemma added_app (a b : list Event) :
  added (a ++ b) = (added a ++ added b)%list.
Proof. unfold added. now rewrite map_app, concat_app. Qed.

Lemma added_construction (evs : list Event) :
  Forall construction evs -> added evs = [].
Proof.
  induction 1 as [|ev evs Hev _ IH]; [reflexivity|].
  unfold added in *. simpl. rewrite IH.
  destruct ev; simpl in *; tauto.
Qed.

Lemma fill_and_save_ok (self mgr' : KnowledgeBaseManager) (env env' : Env) :
  registry_inv default_kbs self ->
  fill_and_save self env = (Ok tt, mgr', env') ->
  registry_inv default_kbs mgr' /\
  exists evs,
    trace env' = (trace env ++ evs)%list /\
    saved evs
    = "NameNodeExpert" :: "DataNodeExpert"
        :: Py.dict_keys (knowledge_bases mgr') /\
    added evs = sample_documents.
Proof.
  intros Hinv1 Hrun. unfold fill_and_save in Hrun.
  destruct (registry_inv_key self "NameNodeExpert" Hinv1)
    as (kbN & HgetN & _); [simpl; tauto|].
  apply bind_ok in Hrun as (kb & mgr1 & env1 & Hgoc & Hrun).
  rewrite (get_or_create_kb_registered self "NameNodeExpert" kbN env HgetN)
    in Hgoc.
  injection Hgoc as _ <- <-.
  apply bind_ok in Hrun as ([] & mgr2 & env2 & HaddN & Hrun).
  apply (on_kb_add_texts_ok self mgr2 "NameNodeExpert" kbN) in HaddN
    as (Hinv2 & Hkeys2 & evs1 & Htr1 & Hsv1 & Had1);
    [|exact Hinv1|exact HgetN].
  destruct (registry_inv_key mgr2 "DataNodeExpert" Hinv2)
    as (kbD & HgetD & _); [simpl; tauto|].
  apply bind_ok in Hrun as (kb' & mgr2' & env2' & Hgoc & Hrun).
  rewrite (get_or_create_kb_registered mgr2 "DataNodeExpert" kbD env2 HgetD)
    in Hgoc.
  injection Hgoc as _ <- <-.
  apply bind_ok in Hrun as ([] & mgr3 & env3 & HaddD & Hrun).
  apply (on_kb_add_texts_ok mgr2 mgr3 "DataNodeExpert" kbD) in HaddD
    as (Hinv3 & Hkeys3 & evs2 & Htr2 & Hsv2 & Had2);
    [|exact Hinv2|exact HgetD].
  apply bind_ok in Hrun as (self3 & mgr3' & env3' & Hself & Hloop).
  unfold get_self in Hself. injection Hself as <- <- <-.
  apply (for_acc_save mgr3 mgr' (knowledge_bases mgr3) []) in Hloop
    as (-> & evs3 & Htr3 & Hsv3 & Had3); [|reflexivity].
  split; [exact Hinv3|].
  exists (evs1 ++ evs2 ++ evs3)%list. split.
  { rewrite Htr3, Htr2, Htr1, <- !app_assoc. reflexivity. }
  split.
  - rewrite !saved_app, Hsv1, Hsv2, Hsv3. simpl. do 2 f_equal.
    destruct Hinv3 as [Hok _]. unfold Py.dict_keys.
    apply map_ext_Forall.
    eapply Forall_impl; [exact Hok|]. intros [k kb0] [Hn _]. exact Hn.
  - rewrite !added_app, Had1, Had2, Had3. now rewrite app_nil_r.
Qed.

(** X23: when [init_sample_knowledge] returns, in a sound state of the
    module, every collection of the registry was saved, in the order of
    the registry, after the two collections that were given texts were
    saved once each by [add_texts]: NameNodeExpert and DataNodeExpert
    are saved twice.  The six sample documents, texts paired with
    their metadatas in order, are all that was added to the stores.
    The call ends with the record of completion, and the manager is
    there, with the default collections. *)
Theorem init_sample_knowledge_saves (g g' : Globals) (env env' : Env) :
  globals_ok g ->
  init_sample_knowledge g env = (Ok tt, g', env') ->
  exists mgr new,
    g' = mkGlobals (Some mgr) /\
    registry_inv default_kbs mgr /\
    trace env'
    = (trace env ++ new ++ [Log INFO "示例知识库数据初始化完成"])%list /\
    saved new
    = "NameNodeExpert" :: "DataNodeExpert"
        :: Py.dict_keys (knowledge_bases mgr) /\
    added new = sample_documents.
Proof.
  intros Hg Hrun. unfold init_sample_knowledge in Hrun.
  apply bind_ok in Hrun as ([] & g1 & env1 & Hget & Hrun).
  pose proof (get_kb_manager_run g env Hg) as Hmgr.
  destruct (constructs_get_kb_manager g env) as (evs0 & Htr0 & Hev0).
  rewrite Hget in Hmgr, Htr0. simpl in Htr0.
  destruct Hmgr as (mgr1 & -> & Hinv1).
  apply bind_ok in Hrun as ([] & g2 & env2 & Hbody & Hrun).
  unfold on_manager in Hbody. simpl in Hbody.
  destruct (fill_and_save mgr1 env1) as [[r mgr2] env2'] eqn:Hfill.
  injection Hbody as -> <- <-.
  apply fill_and_save_ok in Hfill
    as (Hinv2 & evs & Htr & Hsaved & Hadded); [|exact Hinv1].
  unfold logging, emit in Hrun. injection Hrun as <- <-. simpl.
  exists mgr2, (evs0 ++ evs)%list.
  split; [reflexivity|]. split; [exact Hinv2|]. split.
  { rewrite Htr, Htr0, <- !app_assoc. reflexivity. }
  split.
  - now rewrite saved_app, (saved_construction evs0 Hev0).
  - rewrite added_app, Hadded.
    now rewrite (added_construction evs0 Hev0).
Qed.

End SampleKnowledge.

(** X23 on the small instance, from the start of the module: seven
    saves for five collections. *)
Lemma init_sample_knowledge_saves_witness :
  exists new,
    trace (snd (init_sample_knowledge (@mkGlobals Toy.external None)
                  Toy.env0))
    = (trace Toy.env0 ++ new ++ [Log INFO "示例知识库数据初始化完成"])%list /\
    saved new
    = ["NameNodeExpert"; "DataNodeExpert"; "NameNodeExpert";
       "DataNodeExpert"; "YARNExpert"; "HistoryCases"; "HadoopDocs"] /\
    length (added new) = 6.
Proof.
  destruct (init_sample_knowledge (@mkGlobals Toy.external None) Toy.env0)
    as [[r g'] env'] eqn:E.
  assert (r = Ok tt) as ->.
  { apply (f_equal (fun x => fst (fst x))) in E. vm_compute in E.
    now rewrite <- E. }
  assert (option_map (fun mgr => Py.dict_keys (knowledge_bases mgr))
            (_kb_manager g') = Some default_kbs) as Hkeys.
  { apply (f_equal (fun x => option_map
                               (fun mgr => Py.dict_keys (knowledge_bases mgr))
                               (_kb_manager (snd (fst x))))) in E.
    vm_compute in E. symmetry. exact E. }
  apply init_sample_knowledge_saves in E
    as (mgr & new & -> & _ & Htr & Hsaved & Hadded); [|exact I].
  cbn [_kb_manager option_map] in Hkeys. injection Hkeys as Hkeys.
  exists new. split; [exact Htr|]. split.
  - rewrite Hsaved, Hkeys. reflexivity.
  - rewrite Hadded. reflexivity.
Defined.
